(** * Bonus activation saga: a shallow embedding of the TypeScript sources

    The development follows the repository file by file.
    - [Js], [Sha256], [Value]: the ECMAScript and Node built-ins the code
      calls ([localeCompare], [Array.prototype.sort] and [join],
      [toString], [toISOString], [JSON.stringify], the SHA-256 digest).
    - [Hash]: [utils/hash.ts] ([toHash], [generateFamilyUID]).
    - [TE]: promises and the [TaskEither] combinators of fp-ts, over an
      explicit world.
    - [DocumentDb], [EligibilityCheckModel], [BonusLeaseModel],
      [BonusActivationModel]: the document store and the models.
    - [FailedBonusActivation]: the compensation handler.
    - [Orchestrator]: the activation orchestrator, a generator.
    - [AdeClient]: the error codecs and [serializeBonus].
    - [BonusLease], [SendBonusActivation], [StartBonusActivation]: the
      lease store, the grant request executor and the creation of the
      candidate, after the spec.
    - [ValidateEligibilityCheck], [Conversions]: the validation activity
      and the bonus amount.
    [Spy] records the calls made on the models and [Memory] is an
    in-memory store to run the handlers on.  The properties come after the
    definitions. *)

From Stdlib Require Import ZArith Lia Ascii.
From Stdlib Require String.
From stdpp Require Import base tactics option list sorting strings gmap.


(** ** Outcomes of JavaScript computations

    A function either returns a value or throws; an [async] function
    either resolves or rejects.  Both are rendered by the same sum. *)

Inductive Outcome (A : Type) : Type :=
| Returned (a : A)
| Thrown (message : string).
Arguments Returned {A} a.
Arguments Thrown {A} message.

Definition is_returned {A} (o : Outcome A) : bool :=
  match o with Returned _ => true | Thrown _ => false end.

(** ** ECMAScript built-ins *)

Module Js.

(** [a.localeCompare(b)] on the alphabet of fiscal codes (upper-case
    ASCII letters and digits): the collation order coincides there with
    the order of the character codes, digits before letters.  The result
    is a number, negative, zero or positive. *)
Definition localeCompare (a b : string) : Z :=
  match String.compare a b with
  | Lt => (-1)%Z
  | Eq => 0%Z
  | Gt => 1%Z
  end.

(** [Array.prototype.sort(comparefn)]: a stable insertion sort driven by
    the sign of [comparefn]. *)
Fixpoint sort_insert {A} (comparefn : A → A → Z) (x : A) (l : list A)
  : list A :=
  match l with
  | [] => [x]
  | y :: l' =>
      if (comparefn x y <=? 0)%Z then x :: y :: l'
      else y :: sort_insert comparefn x l'
  end.

Definition Array_sort {A} (comparefn : A → A → Z) (l : list A) : list A :=
  foldr (sort_insert comparefn) [] l.

(** [Array.prototype.join(separator)] on an array of strings. *)
Fixpoint Array_join (separator : string) (l : list string) : string :=
  match l with
  | [] => ""
  | [x] => x
  | x :: l' => x +:+ separator +:+ Array_join separator l'
  end.

(** Decimal digits of a natural number, most significant first. *)
Definition digit_char (d : Z) : ascii :=
  ascii_of_N (Z.to_N (48 + d)).

Fixpoint digits_fuel (fuel : nat) (n : Z) (acc : string) : string :=
  match fuel with
  | O => acc
  | S fuel' =>
      let acc' := String (digit_char (n mod 10)) acc in
      if (n <? 10)%Z then acc' else digits_fuel fuel' (n / 10) acc'
  end.

Definition digits (n : Z) : string :=
  digits_fuel (S (Z.to_nat (Z.log2 n))) n "".

(** [Number.prototype.toString()] on an integer. *)
Definition Number_toString (n : Z) : string :=
  if (n <? 0)%Z then "-" +:+ digits (- n) else digits n.

(** [n] written with at least [width] digits, zero padded on the left. *)
Fixpoint zeros (k : nat) : string :=
  match k with O => "" | S k' => String "0"%char (zeros k') end.

Definition pad (width : nat) (n : Z) : string :=
  let s := digits n in
  zeros (width - String.length s) +:+ s.

(** A [Date] is its time value, milliseconds since the epoch.  The
    civil date of a day number follows the proleptic Gregorian calendar,
    as ECMAScript prescribes. *)
Definition civil_from_days (days : Z) : Z * Z * Z :=
  let z := (days + 719468)%Z in
  let era := (z / 146097)%Z in
  let doe := (z - era * 146097)%Z in
  let yoe := ((doe - doe / 1460 + doe / 36524 - doe / 146096) / 365)%Z in
  let doy := (doe - (365 * yoe + yoe / 4 - yoe / 100))%Z in
  let mp := ((5 * doy + 2) / 153)%Z in
  let d := (doy - (153 * mp + 2) / 5 + 1)%Z in
  let m := (if (mp <? 10)%Z then mp + 3 else mp - 9)%Z in
  let y := (yoe + era * 400 + (if (m <=? 2)%Z then 1 else 0))%Z in
  (y, m, d).

(** [Date.prototype.toISOString()]: [YYYY-MM-DDTHH:mm:ss.sssZ], with an
    expanded, signed six-digit year outside [0..9999]. *)
Definition Date_toISOString (t : Z) : string :=
  let days := (t / 86400000)%Z in
  let ms := (t mod 86400000)%Z in
  let '(y, m, d) := civil_from_days days in
  let year :=
    if ((0 <=? y) && (y <=? 9999))%Z then pad 4 y
    else if (y <? 0)%Z then "-" +:+ pad 6 (- y)
    else "+" +:+ pad 6 y in
  year +:+ "-" +:+ pad 2 m +:+ "-" +:+ pad 2 d +:+ "T"
    +:+ pad 2 (ms / 3600000) +:+ ":" +:+ pad 2 (ms / 60000 mod 60)
    +:+ ":" +:+ pad 2 (ms / 1000 mod 60) +:+ "." +:+ pad 3 (ms mod 1000)
    +:+ "Z".

(** [JSON.stringify] of a string (QuoteJSONString): the quote and the
    backslash are escaped with a backslash, the control characters below
    U+0020 by their short escape (b, t, n, f, r) or as a four-digit
    lower-case hexadecimal escape. *)
Definition hex_digit (d : N) : ascii :=
  ascii_of_N (if (d <? 10)%N then 48 + d else 87 + d).

Definition JSON_escape_char (c : ascii) : string :=
  let n := N_of_ascii c in
  let escaped (x : ascii) : string := String "092"%char (String x "") in
  if (n =? 34)%N then escaped c
  else if (n =? 92)%N then escaped c
  else if (n =? 8)%N then escaped "b"%char
  else if (n =? 9)%N then escaped "t"%char
  else if (n =? 10)%N then escaped "n"%char
  else if (n =? 12)%N then escaped "f"%char
  else if (n =? 13)%N then escaped "r"%char
  else if (n <? 32)%N
       then String "092"%char
              (String "u"%char
                 (String "0"%char
                    (String "0"%char
                       (String (hex_digit (n / 16))
                          (String (hex_digit (n mod 16)) "")))))
       else String c "".

Fixpoint JSON_escape (s : string) : string :=
  match s with
  | EmptyString => ""
  | String c s' => JSON_escape_char c +:+ JSON_escape s'
  end.

Definition JSON_quote (s : string) : string :=
  String "034"%char (JSON_escape s) +:+ String "034"%char "".

End Js.

(** ** SHA-256 (FIPS 180-4), words as integers modulo [2^32] *)

Module Sha256.
Local Open Scope Z_scope.

Definition w32 (x : Z) : Z := x mod 2 ^ 32.
Definition add32 (x y : Z) : Z := w32 (x + y).
Definition rotr (n x : Z) : Z :=
  Z.lor (Z.shiftr x n) (w32 (Z.shiftl x (32 - n))).

Definition Ch (x y z : Z) : Z :=
  Z.lxor (Z.land x y) (Z.land (w32 (Z.lnot x)) z).
Definition Maj (x y z : Z) : Z :=
  Z.lxor (Z.lxor (Z.land x y) (Z.land x z)) (Z.land y z).
Definition bsig0 (x : Z) : Z :=
  Z.lxor (Z.lxor (rotr 2 x) (rotr 13 x)) (rotr 22 x).
Definition bsig1 (x : Z) : Z :=
  Z.lxor (Z.lxor (rotr 6 x) (rotr 11 x)) (rotr 25 x).
Definition ssig0 (x : Z) : Z :=
  Z.lxor (Z.lxor (rotr 7 x) (rotr 18 x)) (Z.shiftr x 3).
Definition ssig1 (x : Z) : Z :=
  Z.lxor (Z.lxor (rotr 17 x) (rotr 19 x)) (Z.shiftr x 10).

(** The constants of the standard: the first 32 bits of the fractional
    parts of the cube roots (round constants) and of the square roots
    (initial hash value) of the first primes. *)
Definition is_prime (n : Z) : bool :=
  (1 <? n) && forallb (λ d, negb (n mod d =? 0)) (seqZ 2 (n - 2)).

Definition primes (count : nat) : list Z :=
  take count (List.filter is_prime (seqZ 2 400)).

(** The integer cube root, bit by bit from the top. *)
Definition cube_root (n : Z) : Z :=
  fold_left (λ x bit, let y := x + 2 ^ bit in
                      if y * y * y <=? n then y else x)
    (rev (seqZ 0 40)) 0.

Definition K : list Z :=
  Eval vm_compute in
    map (λ p, cube_root (p * 2 ^ 96) mod 2 ^ 32) (primes 64).

Definition H0 : list Z :=
  Eval vm_compute in
    map (λ p, Z.sqrt (p * 2 ^ 64) mod 2 ^ 32) (primes 8).

(** Padding: a [0x80] byte, zeros up to 56 modulo 64, then the bit
    length on eight bytes, big endian. *)
Definition be_bytes (count : nat) (x : Z) : list Z :=
  map (λ i, Z.shiftr x (8 * Z.of_nat i) mod 256) (rev (seq 0 count)).

Definition pad (msg : list Z) : list Z :=
  let len := Z.of_nat (length msg) in
  let fill := Z.to_nat ((55 - len) mod 64) in
  msg ++ [0x80] ++ replicate fill 0 ++ be_bytes 8 (8 * len).

Definition be_word (bs : list Z) : Z :=
  fold_left (λ acc b, acc * 256 + b) bs 0.

Fixpoint chunks (fuel n : nat) (l : list Z) : list (list Z) :=
  match fuel, l with
  | S fuel', _ :: _ => take n l :: chunks fuel' n (drop n l)
  | _, _ => []
  end.

Definition words_of_block (block : list Z) : list Z :=
  map be_word (chunks 16 4 block).

(** One round.  The state is the eight working variables and a sliding
    window over the message schedule, oldest word first. *)
Definition nth_word (i : nat) (l : list Z) : Z := nth i l 0.

Definition schedule_next (w : list Z) : Z :=
  w32 (ssig1 (nth_word 14 w) + nth_word 9 w
       + ssig0 (nth_word 1 w) + nth_word 0 w).

Definition round (st : list Z * list Z) (k : Z) : list Z * list Z :=
  let '(v, w) := st in
  match v with
  | [a; b; c; d; e; f; g; h] =>
      let t1 := w32 (h + bsig1 e + Ch e f g + k + nth_word 0 w) in
      let t2 := w32 (bsig0 a + Maj a b c) in
      ([add32 t1 t2; a; b; c; add32 d t1; e; f; g],
       drop 1 w ++ [schedule_next w])
  | _ => st
  end.

Definition compress (h : list Z) (block : list Z) : list Z :=
  let '(v, _) := fold_left round K (h, words_of_block block) in
  zip_with add32 h v.

Definition hash_bytes (msg : list Z) : list Z :=
  let padded := pad msg in
  fold_left compress (chunks (length padded) 64 padded) H0.

Definition hex_char (d : Z) : ascii :=
  ascii_of_N (Z.to_N (if d <? 10 then 48 + d else 87 + d)).

Definition hex_word (x : Z) : string :=
  fold_right (λ i s, String (hex_char (Z.shiftr x (4 * Z.of_nat i) mod 16)) s)
    "" (rev (seq 0 8)).

Definition bytes_of_string (s : string) : list Z :=
  map (λ c, Z.of_N (N_of_ascii c)) (String.list_ascii_of_string s).

Definition hexdigest (s : string) : string :=
  fold_right (λ w acc, hex_word w +:+ acc) "" (hash_bytes (bytes_of_string s)).

End Sha256.

(** The order a comparator induces: [x] may stand before [y] in the
    sorted array. *)
Definition before {A} (comparefn : A → A → Z) (x y : A) : Prop :=
  (comparefn x y ≤ 0)%Z.

(** ** [utils/hash.ts] *)

Module Hash.

Record FamilyMember : Type := {
  fiscalCode : string;
  name : string;
  surname : string
}.

Definition FamilyMembers : Type := list FamilyMember.
Definition FamilyUID : Type := string.

Definition toHash (s : string) : string := Sha256.hexdigest s.

(** Modelled from the spec: the generated codec [FamilyUID] is not among
    the sources.  The spec takes a FamilyIdentity to be the stable hash
    itself, and the mocks and the orchestrator input type it as a plain
    string, so decoding accepts every string. *)
Definition FamilyUID_decode (s : string) : list string + FamilyUID :=
  inr s.

Definition readableReport (errors : list string) : string :=
  Js.Array_join (String "010"%char "") errors.

Definition JSON_stringify_member (m : FamilyMember) : string :=
  "{" +:+ Js.JSON_quote "fiscalCode" +:+ ":" +:+ Js.JSON_quote (fiscalCode m)
  +:+ "," +:+ Js.JSON_quote "name" +:+ ":" +:+ Js.JSON_quote (name m)
  +:+ "," +:+ Js.JSON_quote "surname" +:+ ":" +:+ Js.JSON_quote (surname m)
  +:+ "}".

Definition JSON_stringify_members (ms : FamilyMembers) : string :=
  "[" +:+ Js.Array_join "," (map JSON_stringify_member ms) +:+ "]".

Definition generateFamilyUID (familyMembers : FamilyMembers)
  : Outcome FamilyUID :=
  match
    FamilyUID_decode
      (toHash
         (Js.Array_join ""
            (Js.Array_sort (λ a b, Js.localeCompare a b)
               (map fiscalCode familyMembers))))
  with
  | inr uid => Returned uid
  | inl err =>
      Thrown ("Cannot generate FamilyUID for family "
              +:+ JSON_stringify_members familyMembers
              +:+ ": " +:+ readableReport err)
  end.

End Hash.

(** Two rosters name the same set of fiscal codes: order and repeated
    entries are ignored. *)
Definition same_fiscal_code_set (r1 r2 : Hash.FamilyMembers) : Prop :=
  ∀ c : string, c ∈ map Hash.fiscalCode r1 ↔ c ∈ map Hash.fiscalCode r2.

(** Two rosters list the same fiscal codes with the same multiplicities. *)
Definition same_fiscal_code_list (r1 r2 : Hash.FamilyMembers) : Prop :=
  map Hash.fiscalCode r1 ≡ₚ map Hash.fiscalCode r2.

(** Sample data, after [__mocks__/mocks.ts]. *)
Definition aFiscalCode : string := "AAABBB80A01C123D".
Definition anotherFiscalCode : string := "CCCDDD80A01C123D".

Definition mario : Hash.FamilyMember :=
  {| Hash.fiscalCode := aFiscalCode; Hash.name := "Mario";
     Hash.surname := "Rossi" |}.
Definition chiara : Hash.FamilyMember :=
  {| Hash.fiscalCode := anotherFiscalCode; Hash.name := "Chiara";
     Hash.surname := "Bianchi" |}.

(** ** JavaScript values

    Payloads whose static type is [unknown] (activity inputs, API response
    bodies, rejection reasons) are plain JavaScript values. *)

#[warnings="-register-all"]
Inductive JsValue : Type :=
| JUndefined
| JNull
| JBool (b : bool)
| JNumber (n : Z)
| JString (s : string)
| JArray (items : list JsValue)
| JObject (fields : list (string * JsValue))
| JError (message : string).

Module Value.

(** Property access [v[key]]; a missing property reads [undefined]. *)
Fixpoint assoc (key : string) (fields : list (string * JsValue)) : JsValue :=
  match fields with
  | [] => JUndefined
  | (k, v) :: fields' => if String.eqb k key then v else assoc key fields'
  end.

Definition prop (v : JsValue) (key : string) : JsValue :=
  match v with
  | JObject fields => assoc key fields
  | JError message => if String.eqb key "message" then JString message
                      else JUndefined
  | _ => JUndefined
  end.

(** [typeof u === "object" && u !== null], the test io-ts runs before it
    looks at the properties of an interface. *)
Definition is_dictionary (v : JsValue) : bool :=
  match v with
  | JObject _ | JArray _ | JError _ => true
  | _ => false
  end.

Definition is_string (v : JsValue) : bool :=
  match v with JString _ => true | _ => false end.

(** [String(v)], as [toError] applies it to a value that is not an
    [Error]. *)
Fixpoint to_String (v : JsValue) : string :=
  match v with
  | JUndefined => "undefined"
  | JNull => "null"
  | JBool true => "true"
  | JBool false => "false"
  | JNumber n => Js.Number_toString n
  | JString s => s
  | JArray items =>
      Js.Array_join ","
        (map (λ i, match i with
                   | JUndefined | JNull => ""
                   | _ => to_String i
                   end) items)
  | JObject _ => "[object Object]"
  | JError message => "Error: " +:+ message
  end.


(** [JSON.stringify] of a value that is not [undefined]: properties
    holding [undefined] are left out, [undefined] array items read
    [null], an [Error] has no enumerable property. *)
Fixpoint JSON_stringify (v : JsValue) : string :=
  match v with
  | JUndefined | JNull => "null"
  | JBool true => "true"
  | JBool false => "false"
  | JNumber n => Js.Number_toString n
  | JString s => Js.JSON_quote s
  | JArray items =>
      "[" +:+ Js.Array_join "," (map JSON_stringify items) +:+ "]"
  | JObject fields =>
      "{"
      +:+ Js.Array_join ","
            ((fix members (fs : list (string * JsValue)) : list string :=
                match fs with
                | [] => []
                | (k, JUndefined) :: fs' => members fs'
                | (k, x) :: fs' =>
                    (Js.JSON_quote k +:+ ":" +:+ JSON_stringify x)
                    :: members fs'
                end) fields)
      +:+ "}"
  | JError _ => "{}"
  end.

End Value.

(** An [Error] is represented by its message. *)
Record Error : Type := mkError { message : string }.

(** [toError] of fp-ts: an [Error] is kept, anything else is wrapped as
    [new Error(String(e))]. *)
Definition toError (e : JsValue) : Error :=
  match e with
  | JError m => mkError m
  | _ => mkError (Value.to_String e)
  end.

(** ** Promises and [TaskEither] over an explicit world *)

Inductive Settled (A : Type) : Type :=
| Resolved (a : A)
| Rejected (reason : JsValue).
Arguments Resolved {A} a.
Arguments Rejected {A} reason.

(** A lazy promise: running it acts on the world and settles. *)
Definition Promise (W A : Type) : Type := W → Settled A * W.

(** A task that never rejects and yields an [Either]. *)
Definition TaskEither (W L A : Type) : Type := W → (L + A) * W.

Module TE.
Section ops.
Context {W : Type}.

Definition of_ {L A} (a : A) : TaskEither W L A := λ w, (inr a, w).

Definition fromEither {L A} (e : L + A) : TaskEither W L A := λ w, (e, w).

Definition tryCatch {L A} (f : Promise W A) (onrejected : JsValue → L)
  : TaskEither W L A :=
  λ w, match f w with
       | (Resolved a, w') => (inr a, w')
       | (Rejected reason, w') => (inl (onrejected reason), w')
       end.

Definition chain {L A B} (f : A → TaskEither W L B)
    (m : TaskEither W L A) : TaskEither W L B :=
  λ w, match m w with
       | (inl l, w') => (inl l, w')
       | (inr a, w') => f a w'
       end.

Definition map {L A B} (f : A → B) (m : TaskEither W L A)
  : TaskEither W L B :=
  λ w, match m w with
       | (inl l, w') => (inl l, w')
       | (inr a, w') => (inr (f a), w')
       end.

Definition mapLeft {L M A} (f : L → M) (m : TaskEither W L A)
  : TaskEither W M A :=
  λ w, match m w with
       | (inl l, w') => (inl (f l), w')
       | (inr a, w') => (inr a, w')
       end.

Definition bimap {L M A B} (f : L → M) (g : A → B)
    (m : TaskEither W L A) : TaskEither W M B :=
  λ w, match m w with
       | (inl l, w') => (inl (f l), w')
       | (inr a, w') => (inr (g a), w')
       end.

(** [foldTaskEither]: continue with a task on either side. *)
Definition foldTaskEither {L A M B} (onLeft : L → TaskEither W M B)
    (onRight : A → TaskEither W M B) (m : TaskEither W L A)
  : TaskEither W M B :=
  λ w, match m w with
       | (inl l, w') => onLeft l w'
       | (inr a, w') => onRight a w'
       end.

(** [fold] leaves the [Either]; the callbacks may throw, and then the
    promise of the resulting task rejects. *)
Definition fold {L A R} (onLeft : L → Outcome R) (onRight : A → Outcome R)
    (m : TaskEither W L A) : W → Outcome R * W :=
  λ w, match m w with
       | (inl l, w') => (onLeft l, w')
       | (inr a, w') => (onRight a, w')
       end.

(** [Task.map]; a throwing callback rejects the promise as well. *)
Definition mapTask {A B} (f : A → Outcome B) (m : W → Outcome A * W)
  : W → Outcome B * W :=
  λ w, match m w with
       | (Returned a, w') => (f a, w')
       | (Thrown e, w') => (Thrown e, w')
       end.
End ops.
End TE.

(** Method chaining, [m.f(x)] written [m |> f x]. *)
Notation "m |> f" := (f m) (at level 68, left associativity, only parsing).

(** ** Domain records ([generated/models], after the mocks) *)

Inductive BonusActivationStatusEnum : Type := ACTIVE | FAILED.

Module Dsu.
Record t : Type := {
  dsuCreatedAt : Z;
  dsuProtocolId : string;
  familyMembers : Hash.FamilyMembers;
  hasDiscrepancies : bool;
  iseeType : string;
  maxAmount : Z;
  maxTaxBenefit : Z;
  requestId : string
}.
End Dsu.

Module BonusActivationWithFamilyUID.
Record t : Type := {
  id : string;
  applicantFiscalCode : string;
  status : BonusActivationStatusEnum;
  createdAt : Z;
  dsuRequest : Dsu.t;
  familyUID : Hash.FamilyUID
}.

(** [{ ...b, status: s }] *)
Definition with_status (s : BonusActivationStatusEnum) (b : t) : t :=
  {| id := id b; applicantFiscalCode := applicantFiscalCode b; status := s;
     createdAt := createdAt b; dsuRequest := dsuRequest b;
     familyUID := familyUID b |}.
End BonusActivationWithFamilyUID.

Module NewBonusActivation.
Record t : Type := {
  fields : BonusActivationWithFamilyUID.t;
  kind : string
}.
End NewBonusActivation.

Module RetrievedBonusActivation.
Record t : Type := {
  fields : BonusActivationWithFamilyUID.t;
  _self : string;
  _ts : Z;
  kind : string
}.
Definition familyUID (r : t) : Hash.FamilyUID :=
  BonusActivationWithFamilyUID.familyUID (fields r).
End RetrievedBonusActivation.

Module RetrievedBonusLease.
Record t : Type := { id : string; _self : string; _ts : Z; kind : string }.
End RetrievedBonusLease.

(** ** The document store client ([documentdb]) and the models *)

Module DocumentDb.
Record QueryError : Type := { code : Z; body : string }.

(** A query error is a plain object, not an [Error]. *)
Definition QueryError_value (e : QueryError) : JsValue :=
  JObject [("code", JNumber (code e)); ("body", JString (body e))].

Record RequestOptions : Type := { partitionKey : string }.

(** [deleteDocument(uri, options, callback)]: the callback receives the
    query error, if any. *)
Record DocumentClient (W : Type) : Type := {
  deleteDocument : string → RequestOptions → W → option QueryError * W
}.
Arguments deleteDocument {W} _ _ _ _.

(** [getDocumentUri(collectionUri, documentId).uri] *)
Definition getDocumentUri (collectionUri documentId : string) : string :=
  collectionUri +:+ "/docs/" +:+ documentId.
End DocumentDb.

(** [models/eligibility_check.ts] *)
Module EligibilityCheckModel.
Definition ELIGIBILITY_CHECK_COLLECTION_NAME : string := "eligibility-checks".

Record t (W : Type) : Type := {
  dbClient : DocumentDb.DocumentClient W;
  collectionUri : string
}.
Arguments dbClient {W} _.
Arguments collectionUri {W} _.

Definition deleteOneById {W} (this : t W) (documentId : string)
  : Promise W (DocumentDb.QueryError + string) :=
  λ w,
    let documentUri :=
      DocumentDb.getDocumentUri (collectionUri this) documentId in
    match
      DocumentDb.deleteDocument (dbClient this) documentUri
        {| DocumentDb.partitionKey := documentId |} w
    with
    | (Some err, w') => (Resolved (inl err), w')
    | (None, w') => (Resolved (inr documentId), w')
    end.
End EligibilityCheckModel.

(** [models/bonus_lease.ts] and [models/bonus_activation.ts] are not among
    the sources; the handlers take the models as arguments, and so does
    the embedding: a model is the record of the methods the handlers
    call, with the signatures their call sites give them. *)
Module BonusLeaseModel.
Record t (W : Type) : Type := {
  deleteOneById : string → Promise W (DocumentDb.QueryError + string);
  find : string → string →
         Promise W (DocumentDb.QueryError + option RetrievedBonusLease.t)
}.
Arguments deleteOneById {W} _ _.
Arguments find {W} _ _ _.
End BonusLeaseModel.

Module BonusActivationModel.
Record t (W : Type) : Type := {
  createOrUpdate :
    NewBonusActivation.t → string →
    Promise W (DocumentDb.QueryError + RetrievedBonusActivation.t)
}.
Arguments createOrUpdate {W} _ _ _.
End BonusActivationModel.

(** ** [FailedBonusActivationActivity/handler.ts] *)

Module FailedBonusActivation.

Inductive FailedBonusActivationResult : Type :=
| SUCCESS
| INVALID_INPUT
| UNHANDLED_FAILURE (reason : string)
| TRANSIENT.

Definition TransientFailure_is (r : FailedBonusActivationResult) : bool :=
  match r with TRANSIENT => true | _ => false end.

Section handler.
Context {W : Type}.

(** The generated codec [BonusActivationWithFamilyUID] is not among
    the sources: its decoder is an argument. *)
Variable BonusActivationWithFamilyUID_decode :
  JsValue → list string + BonusActivationWithFamilyUID.t.

(** [t.interface({ bonusActivation: BonusActivationWithFamilyUID })] *)
Definition FailedBonusActivationInput_decode (input : JsValue)
  : list string + BonusActivationWithFamilyUID.t :=
  if Value.is_dictionary input
  then BonusActivationWithFamilyUID_decode (Value.prop input "bonusActivation")
  else inl ["Invalid value supplied to FailedBonusActivationInput"].

Definition fromQueryEither {R}
    (lazyPromise : Promise W (DocumentDb.QueryError + R))
  : TaskEither W Error R :=
  TE.tryCatch lazyPromise toError
  |> TE.chain (λ errorOrResult,
       TE.fromEither errorOrResult
       |> TE.mapLeft (λ q, toError (DocumentDb.QueryError_value q))).

Definition relaseLockForUserFamily (bonusLeaseModel : BonusLeaseModel.t W)
    (familyUID : Hash.FamilyUID)
  : TaskEither W FailedBonusActivationResult Hash.FamilyUID :=
  fromQueryEither (BonusLeaseModel.deleteOneById bonusLeaseModel familyUID)
  |> TE.bimap
       (λ err, UNHANDLED_FAILURE ("Error releasing lock: " +:+ message err))
       (λ _, familyUID).

Definition updateBonusAsFailed
    (bonusActivationModel : BonusActivationModel.t W)
    (bonusActivation : BonusActivationWithFamilyUID.t)
  : TaskEither W FailedBonusActivationResult RetrievedBonusActivation.t :=
  fromQueryEither
    (let bonusToUpdate :=
       {| NewBonusActivation.fields :=
            BonusActivationWithFamilyUID.with_status FAILED bonusActivation;
          NewBonusActivation.kind := "INewBonusActivation" |} in
     BonusActivationModel.createOrUpdate bonusActivationModel
       bonusToUpdate (BonusActivationWithFamilyUID.id bonusActivation))
  |> TE.mapLeft (λ err, UNHANDLED_FAILURE (message err)).

Definition deleteEligibilityCheck
    (eligibilityCheckModel : EligibilityCheckModel.t W)
    (bonusActivation : BonusActivationWithFamilyUID.t)
  : TaskEither W FailedBonusActivationResult BonusActivationWithFamilyUID.t :=
  fromQueryEither
    (EligibilityCheckModel.deleteOneById eligibilityCheckModel
       (BonusActivationWithFamilyUID.id bonusActivation))
  |> TE.mapLeft (λ _, TRANSIENT)
  |> TE.map (λ _, bonusActivation).

Definition FailedBonusActivationHandler
    (bonusActivationModel : BonusActivationModel.t W)
    (bonusLeaseModel : BonusLeaseModel.t W)
    (eligibilityCheckModel : EligibilityCheckModel.t W)
    (input : JsValue)
  : W → Outcome FailedBonusActivationResult * W :=
  TE.of_ tt
  |> TE.chain (λ _,
       TE.fromEither (FailedBonusActivationInput_decode input)
       |> TE.mapLeft (λ _, INVALID_INPUT)
       |> TE.map (λ bonusActivation, bonusActivation))
  |> TE.chain (λ bonusActivation,
       deleteEligibilityCheck eligibilityCheckModel bonusActivation)
  |> TE.chain (λ bonusActivation,
       updateBonusAsFailed bonusActivationModel bonusActivation)
  |> TE.chain (λ bonusActivation,
       relaseLockForUserFamily bonusLeaseModel
         (RetrievedBonusActivation.familyUID bonusActivation))
  |> TE.fold (λ l, Returned l) (λ _, Returned SUCCESS)
  |> TE.mapTask (λ result,
       if TransientFailure_is result then Thrown "transient failure"
       else Returned result).
End handler.

End FailedBonusActivation.

(** ** Observing the calls a handler makes

    A spy wraps a model and records each call, in order, next to the
    world, the way the test suites of the repository use jest mocks. *)

Module Spy.
Inductive Call : Type :=
| DeleteDocument (uri : string) (partitionKey : string)
| CreateOrUpdate (document : NewBonusActivation.t) (partitionKey : string)
| LeaseDeleteOneById (documentId : string)
| LeaseFind (documentId : string) (partitionKey : string).

Definition record {W A} (c : Call) (op : W → A * W)
  : W * list Call → A * (W * list Call) :=
  λ '(w, log), let '(a, w') := op w in (a, (w', log ++ [c])).

Definition documentClient {W} (c : DocumentDb.DocumentClient W)
  : DocumentDb.DocumentClient (W * list Call) :=
  {| DocumentDb.deleteDocument uri options :=
       record (DeleteDocument uri (DocumentDb.partitionKey options))
         (DocumentDb.deleteDocument c uri options) |}.

Definition eligibilityCheckModel {W} (m : EligibilityCheckModel.t W)
  : EligibilityCheckModel.t (W * list Call) :=
  {| EligibilityCheckModel.dbClient :=
       documentClient (EligibilityCheckModel.dbClient m);
     EligibilityCheckModel.collectionUri :=
       EligibilityCheckModel.collectionUri m |}.

Definition bonusLeaseModel {W} (m : BonusLeaseModel.t W)
  : BonusLeaseModel.t (W * list Call) :=
  {| BonusLeaseModel.deleteOneById documentId :=
       record (LeaseDeleteOneById documentId)
         (BonusLeaseModel.deleteOneById m documentId);
     BonusLeaseModel.find documentId partitionKey :=
       record (LeaseFind documentId partitionKey)
         (BonusLeaseModel.find m documentId partitionKey) |}.

Definition bonusActivationModel {W} (m : BonusActivationModel.t W)
  : BonusActivationModel.t (W * list Call) :=
  {| BonusActivationModel.createOrUpdate document partitionKey :=
       record (CreateOrUpdate document partitionKey)
         (BonusActivationModel.createOrUpdate m document partitionKey) |}.
End Spy.

(** What [fromQueryEither] makes of a settled model call: the failure, as
    an [Error], or the result. *)
Definition query_result {R} (s : Settled (DocumentDb.QueryError + R))
  : Error + R :=
  match s with
  | Rejected reason => inl (toError reason)
  | Resolved (inl q) => inl (toError (DocumentDb.QueryError_value q))
  | Resolved (inr r) => inr r
  end.

(** ** An in-memory document store

    Documents live under their URI.  Deleting a document that is not
    there answers with a 404 query error, as the document database does.
    [bonusLeaseModel] and [bonusActivationModel] are test doubles to run
    the handlers on, written in the shape of [EligibilityCheckModel];
    they say nothing of what the models of the repository do. *)

Module Memory.
Inductive Document : Type :=
| EligibilityCheckDoc (id : string)
| BonusLeaseDoc (id : string)
| BonusActivationDoc (document : NewBonusActivation.t).

Abbreviation Store := (gmap string Document).

Definition notFound : DocumentDb.QueryError :=
  {| DocumentDb.code := 404; DocumentDb.body := "NotFound" |}.

Definition client : DocumentDb.DocumentClient Store :=
  {| DocumentDb.deleteDocument uri _ (w : Store) :=
       match w !! uri with
       | Some _ => (None, delete uri w)
       | None => (Some notFound, w)
       end |}.

Definition eligibilityChecks : string := "dbs/db/colls/eligibility-checks".
Definition bonusLeases : string := "dbs/db/colls/bonus-leases".
Definition bonusActivations : string := "dbs/db/colls/bonus-activations".

Definition eligibilityCheckModel : EligibilityCheckModel.t Store :=
  {| EligibilityCheckModel.dbClient := client;
     EligibilityCheckModel.collectionUri := eligibilityChecks |}.

Definition bonusLeaseModel : BonusLeaseModel.t Store :=
  {| BonusLeaseModel.deleteOneById documentId (w : Store) :=
       match
         DocumentDb.deleteDocument client
           (DocumentDb.getDocumentUri bonusLeases documentId)
           {| DocumentDb.partitionKey := documentId |} w
       with
       | (Some err, w') => (Resolved (inl err), w')
       | (None, w') => (Resolved (inr documentId), w')
       end;
     BonusLeaseModel.find documentId _ (w : Store) :=
       let uri := DocumentDb.getDocumentUri bonusLeases documentId in
       (Resolved
          (inr match w !! uri with
               | Some (BonusLeaseDoc id) =>
                   Some {| RetrievedBonusLease.id := id;
                           RetrievedBonusLease._self := uri;
                           RetrievedBonusLease._ts := 0;
                           RetrievedBonusLease.kind := "IRetrievedBonusLease" |}
               | _ => None
               end), w) |}.

Definition bonusActivationModel : BonusActivationModel.t Store :=
  {| BonusActivationModel.createOrUpdate document partitionKey (w : Store) :=
       let uri := DocumentDb.getDocumentUri bonusActivations partitionKey in
       (Resolved
          (inr {| RetrievedBonusActivation.fields :=
                    NewBonusActivation.fields document;
                  RetrievedBonusActivation._self := uri;
                  RetrievedBonusActivation._ts := 0;
                  RetrievedBonusActivation.kind :=
                    "IRetrievedBonusActivation" |}),
        <[uri := BonusActivationDoc document]> w) |}.
End Memory.

(** ** The lease store

    A lease is a document whose id is the family identity; its mere
    existence is the lock. *)

Module BonusLease.
Section model.
Context {W : Type}.
Variable dbClient : DocumentDb.DocumentClient W.
Variable collectionUri : string.

(** The store's answer that there is no such document. *)
Definition is_not_found (err : DocumentDb.QueryError) : bool :=
  (DocumentDb.code err =? 404)%Z.

(** Modelled from the spec: [models/bonus_lease.ts] is not among the
    sources.  Section 3: the identity of a BonusLease is the
    FamilyIdentity, and the deletion of a non-existent lease is treated
    as success (idempotent release).  Section 6: [deleteOneById] may fail
    with a structured query error.  The lease is deleted under the family
    identity; the store's answer that there is no such document is a
    success, every other query error is handed on. *)
Definition deleteOneById (documentId : string)
  : Promise W (DocumentDb.QueryError + string) :=
  λ w,
    match
      DocumentDb.deleteDocument dbClient
        (DocumentDb.getDocumentUri collectionUri documentId)
        {| DocumentDb.partitionKey := documentId |} w
    with
    | (Some err, w') =>
        if is_not_found err then (Resolved (inr documentId), w')
        else (Resolved (inl err), w')
    | (None, w') => (Resolved (inr documentId), w')
    end.

(** The lease model whose release is the one above; [find] is left to
    the caller. *)
Definition model
    (find : string → string →
            Promise W (DocumentDb.QueryError + option RetrievedBonusLease.t))
  : BonusLeaseModel.t W :=
  {| BonusLeaseModel.deleteOneById := deleteOneById;
     BonusLeaseModel.find := find |}.
End model.

(** The lease model over the in-memory store. *)
Definition memory : BonusLeaseModel.t Memory.Store :=
  model Memory.client Memory.bonusLeases
    (BonusLeaseModel.find Memory.bonusLeaseModel).

(** A document client whose store is out of reach: every deletion is
    answered with a 503. *)
Definition unavailable : DocumentDb.DocumentClient Memory.Store :=
  {| DocumentDb.deleteDocument _ _ (w : Memory.Store) :=
       (Some {| DocumentDb.code := 503;
                DocumentDb.body := "ServiceUnavailable" |}, w) |}.
End BonusLease.

(** Sample data, after [__mocks__/mocks.ts]. *)
Definition aFamilyUID : Hash.FamilyUID := "aFamilyUid".
Definition aBonusId : string := "AAAAAAAAAAAA".

Definition aDsu : Dsu.t :=
  {| Dsu.dsuCreatedAt := 1593561600000;
     Dsu.dsuProtocolId := "aProtocolId";
     Dsu.familyMembers :=
       [ {| Hash.fiscalCode := aFiscalCode; Hash.name := "MARIO";
            Hash.surname := "ROSSI" |} ];
     Dsu.hasDiscrepancies := false;
     Dsu.iseeType := "aISEEtype";
     Dsu.maxAmount := 200;
     Dsu.maxTaxBenefit := 100;
     Dsu.requestId := "aRequestId" |}.

Definition aBonusActivationWithFamilyUID : BonusActivationWithFamilyUID.t :=
  {| BonusActivationWithFamilyUID.id := aBonusId;
     BonusActivationWithFamilyUID.applicantFiscalCode := aFiscalCode;
     BonusActivationWithFamilyUID.status := ACTIVE;
     BonusActivationWithFamilyUID.createdAt := 1593561600000;
     BonusActivationWithFamilyUID.dsuRequest := aDsu;
     BonusActivationWithFamilyUID.familyUID := aFamilyUID |}.

(** A stand-in for the generated decoder: it accepts the one encoded
    sample below and nothing else. *)
Definition aBonusActivationValue : JsValue :=
  JObject [("id", JString aBonusId);
           ("applicantFiscalCode", JString aFiscalCode);
           ("familyUID", JString aFamilyUID)].

Definition sample_decode (v : JsValue)
  : list string + BonusActivationWithFamilyUID.t :=
  match Value.prop v "id", Value.prop v "applicantFiscalCode",
        Value.prop v "familyUID" with
  | JString i, JString a, JString f =>
      if (String.eqb i aBonusId && String.eqb a aFiscalCode
          && String.eqb f aFamilyUID)%bool
      then inr aBonusActivationWithFamilyUID
      else inl ["Invalid value supplied to BonusActivationWithFamilyUID"]
  | _, _, _ => inl ["Invalid value supplied to BonusActivationWithFamilyUID"]
  end.

Definition aFailedBonusActivationInput : JsValue :=
  JObject [("bonusActivation", aBonusActivationValue)].

(** The store of a requester whose eligibility record is in place and
    whose family holds the lease. *)
Definition aStore : Memory.Store :=
  <[DocumentDb.getDocumentUri Memory.eligibilityChecks aFiscalCode
      := Memory.EligibilityCheckDoc aFiscalCode]>
    (<[DocumentDb.getDocumentUri Memory.bonusLeases aFamilyUID
         := Memory.BonusLeaseDoc aFamilyUID]> ∅).

(** The three store calls of the compensation, as the spies record them. *)
Module Step.
Definition bonusToUpdate (ba : BonusActivationWithFamilyUID.t)
  : NewBonusActivation.t :=
  {| NewBonusActivation.fields :=
       BonusActivationWithFamilyUID.with_status FAILED ba;
     NewBonusActivation.kind := "INewBonusActivation" |}.

Definition deleteEligibility {W} (ecm : EligibilityCheckModel.t W)
    (documentId : string) : Spy.Call :=
  Spy.DeleteDocument
    (DocumentDb.getDocumentUri (EligibilityCheckModel.collectionUri ecm)
       documentId)
    documentId.

Definition upsertFailed (ba : BonusActivationWithFamilyUID.t) : Spy.Call :=
  Spy.CreateOrUpdate (bonusToUpdate ba) (BonusActivationWithFamilyUID.id ba).

Definition releaseLease (familyUID : Hash.FamilyUID) : Spy.Call :=
  Spy.LeaseDeleteOneById familyUID.
End Step.

(** ** [StartBonusActivationOrchestrator/index.ts]

    The orchestrator is a generator: it yields tasks to the durable
    functions host, which resumes it with the result of the task or throws
    the task's fault into it.  A generator is the tree of its possible
    runs. *)

Module Orchestrator.

Record RetryOptions : Type := {
  backoffCoefficient : Z * Z;  (* a ratio: numerator, denominator *)
  firstRetryIntervalInMilliseconds : Z;
  maxNumberOfAttempts : Z;
  maxRetryIntervalInMilliseconds : Z;
  retryTimeoutInMilliseconds : Z
}.

Inductive Task : Type :=
| callActivity (name : string) (input : JsValue)
| callActivityWithRetry (name : string) (retryOptions : RetryOptions)
    (input : JsValue).

Inductive LogLevel : Type := error | verbose.

Inductive Generator (R : Type) : Type :=
| Yield (task : Task) (resume : Outcome JsValue → Generator R)
| Log (level : LogLevel) (line : string) (next : Generator R)
| Return (r : R)
| Throw (message : string).
Arguments Yield {R} task resume.
Arguments Log {R} level line next.
Arguments Return {R} r.
Arguments Throw {R} message.

(** [const x = yield task; rest]: outside any [try] block, a fault
    thrown into the generator at the [yield] ends it. *)
Definition yield_ {R} (task : Task) (rest : JsValue → Generator R)
  : Generator R :=
  Yield task (λ r, match r with
                   | Returned x => rest x
                   | Thrown e => Throw e
                   end).

Definition task_name (t : Task) : string :=
  match t with
  | callActivity name _ => name
  | callActivityWithRetry name _ _ => name
  end.

Section handler.
(** [FiscalCode] (italia-ts-commons) and [SendBonusActivationFailure]
    (the send activity's handler) are not among the sources: their
    type guards are arguments. *)
Variable FiscalCode_is : string → bool.
Variable SendBonusActivationFailure_is : JsValue → bool.

(** [t.interface({ familyUID: t.string, fiscalCode: FiscalCode })];
    a successful decoding hands back the input object. *)
Definition OrchestratorInput_decode (input : JsValue)
  : list string + JsValue :=
  if (Value.is_dictionary input
      && Value.is_string (Value.prop input "familyUID")
      && match Value.prop input "fiscalCode" with
         | JString s => FiscalCode_is s
         | _ => false
         end)%bool
  then inr input
  else inl ["Invalid value supplied to OrchestratorInput"].

Definition retryOptions : RetryOptions :=
  {| backoffCoefficient := (3, 2)%Z;
     firstRetryIntervalInMilliseconds := 1000;
     maxNumberOfAttempts := 10;
     maxRetryIntervalInMilliseconds := 3600 * 100;
     retryTimeoutInMilliseconds := 3600 * 1000 |}.

Definition handler (input : JsValue) : Generator bool :=
  let logPrefix := "StartBonusActivationOrchestrator" in
  match OrchestratorInput_decode input with
  | inl errors =>
      Log error (logPrefix +:+ "|Error decoding input")
        (Log verbose
           (logPrefix +:+ "|Error decoding input|ERROR="
            +:+ Hash.readableReport errors)
           (Return false))
  | inr value =>
      yield_ (callActivityWithRetry "SendBonusActivationActivity"
                retryOptions value)
        (λ undecodedSendBonusActivation,
           let finish : Generator bool :=
             yield_ (callActivity "UnlockBonusActivationActivity"
                       (Value.prop value "familyUID"))
               (λ _, Return true) in
           if SendBonusActivationFailure_is undecodedSendBonusActivation
           then yield_ (callActivity "FailedBonusActivationActivity" value)
                  (λ _, finish)
           else yield_ (callActivity "SuccessBonusActivationActivity" value)
                  (λ _, finish))
  end.
End handler.

(** The host: it performs a yielded task, changing its own state, and
    answers with the task's result or fault. *)
Definition Host (H : Type) : Type := Task → H → Outcome JsValue * H.

(** A run: the tasks yielded, in order, and how the generator ends. *)
Fixpoint run {H R} (host : Host H) (g : Generator R) (h : H)
  : list Task * Outcome R * H :=
  match g with
  | Yield task resume =>
      let '(r, h') := host task h in
      let '(trace, out, h'') := run host (resume r) h' in
      (task :: trace, out, h'')
  | Log _ _ next => run host next h
  | Return r => ([], Returned r, h)
  | Throw e => ([], Thrown e, h)
  end.

Definition is_unlock (t : Task) : bool :=
  String.eqb (task_name t) "UnlockBonusActivationActivity".

(** How many times a run asked for the lease to be released. *)
Definition unlocks (trace : list Task) : nat :=
  length (List.filter is_unlock trace).

(** Stand-ins for the two missing type guards, and two hosts. *)
Definition sample_FiscalCode_is (s : string) : bool :=
  Nat.eqb (String.length s) 16.

Definition sample_Failure_is (v : JsValue) : bool :=
  Value.is_string (Value.prop v "reason").

Definition anOrchestratorInput : JsValue :=
  JObject [("familyUID", JString aFamilyUID);
           ("fiscalCode", JString aFiscalCode)].

(** A host on which the send activity exhausts its retries. *)
Definition faulting_host : Host unit :=
  λ task h,
    if String.eqb (task_name task) "SendBonusActivationActivity"
    then (Thrown "Activity function 'SendBonusActivationActivity' failed", h)
    else (Returned JUndefined, h).

(** A host on which every activity completes; the send activity
    reports a failure of the grant request. *)
Definition completing_host : Host unit :=
  λ task h,
    if String.eqb (task_name task) "SendBonusActivationActivity"
    then (Returned (JObject [("kind", JString "FAILURE");
                             ("reason", JString "rejected")]), h)
    else (Returned JUndefined, h).
End Orchestrator.

(** ** [clients/adeClient.ts] *)

Module AdeClient.

Section codecs.
(** The generated codec [BonusVacanzaError] is not among the sources:
    its type guard is an argument. *)
Variable BonusVacanzaError_is : JsValue → bool.

(** [t.interface({ errorCode: t.literal(code) }).is] *)
Definition errorCode_is (code : string) (v : JsValue) : bool :=
  (Value.is_dictionary v
   && match Value.prop v "errorCode" with
      | JString s => String.eqb s code
      | _ => false
      end)%bool.

Definition BonusVacanzaGenericError_is (v : JsValue) : bool :=
  (BonusVacanzaError_is v && errorCode_is "4000" v)%bool.

Definition BonusVacanzaApplicationGenericError_is (v : JsValue) : bool :=
  (BonusVacanzaError_is v && errorCode_is "3000" v)%bool.

Definition BonusVacanzaCodeAlreadyPresentError_is (v : JsValue) : bool :=
  (BonusVacanzaError_is v && errorCode_is "1000" v)%bool.

Definition BonusVacanzaRequestedByOtherFamilyMemberError_is (v : JsValue)
  : bool :=
  (BonusVacanzaError_is v && errorCode_is "1005" v)%bool.

Definition BonusVacanzaEmptyFamilyError_is (v : JsValue) : bool :=
  (BonusVacanzaError_is v && errorCode_is "900" v)%bool.

Definition BonusVacanzaNoFiscalCodeProvidedProvidedError_is (v : JsValue)
  : bool :=
  (BonusVacanzaError_is v && errorCode_is "907" v)%bool.

Definition BonusVacanzaNoGenerationDateProvidedProvidedError_is
    (v : JsValue) : bool :=
  (BonusVacanzaError_is v && errorCode_is "908" v)%bool.

(** A generic error which is meant to be transient. *)
Definition BonusVacanzaTransientError_is (v : JsValue) : bool :=
  (BonusVacanzaGenericError_is v
   || BonusVacanzaApplicationGenericError_is v)%bool.

(** A validation error regarding provided request data. *)
Definition BonusVacanzaInvalidRequestError_is (v : JsValue) : bool :=
  (BonusVacanzaCodeAlreadyPresentError_is v
   || BonusVacanzaRequestedByOtherFamilyMemberError_is v
   || BonusVacanzaEmptyFamilyError_is v
   || BonusVacanzaNoFiscalCodeProvidedProvidedError_is v
   || BonusVacanzaNoGenerationDateProvidedProvidedError_is v)%bool.
End codecs.

Record NucleoFamiliareElem : Type := { codiceFiscale : string }.

(** The generated type [BonusVacanzaWithoutMac] is not among the
    sources; [serializeBonus] reads [nucleoFamiliare] through [?.], as a
    property that may be missing. *)
Record ApiBonusVacanzaWithoutMac : Type := {
  codiceBuono : string;
  codiceFiscaleDichiarante : string;
  dataGenerazione : Z;
  flagDifformita : Z;
  importoMassimo : Z;
  nucleoFamiliare : option (list NucleoFamiliareElem)
}.

(** [bv.nucleoFamiliare?.map(...).sort(...)]: the whole chain is
    [undefined] when the property is missing. *)
Definition sortedFamilyCodes (bv : ApiBonusVacanzaWithoutMac)
  : option (list string) :=
  match nucleoFamiliare bv with
  | Some members =>
      Some (Js.Array_sort (λ a b, Js.localeCompare a b)
              (map codiceFiscale members))
  | None => None
  end.

(** The spread [...x] inside the array literal iterates [x]; [undefined]
    is not iterable and the spread throws a [TypeError]. *)
Definition serializeBonus (bv : ApiBonusVacanzaWithoutMac) : Outcome string :=
  match sortedFamilyCodes bv with
  | Some codes =>
      Returned
        (Js.Array_join ""
           ([ codiceFiscaleDichiarante bv;
              codiceBuono bv;
              Js.Number_toString (importoMassimo bv);
              Js.Date_toISOString (dataGenerazione bv);
              Js.Number_toString (flagDifformita bv) ]
            ++ codes))
  | None => Thrown "TypeError: undefined is not iterable"
  end.

Definition aBonusVacanza : ApiBonusVacanzaWithoutMac :=
  {| codiceBuono := aBonusId;
     codiceFiscaleDichiarante := aFiscalCode;
     dataGenerazione := 1593561600123;
     flagDifformita := 0;
     importoMassimo := 250;
     nucleoFamiliare :=
       Some [ {| codiceFiscale := anotherFiscalCode |};
              {| codiceFiscale := aFiscalCode |} ] |}.

(** The same bonus without the list of the family. *)
Definition aBonusVacanzaWithoutFamily : ApiBonusVacanzaWithoutMac :=
  {| codiceBuono := aBonusId;
     codiceFiscaleDichiarante := aFiscalCode;
     dataGenerazione := 1593561600123;
     flagDifformita := 0;
     importoMassimo := 250;
     nucleoFamiliare := None |}.

End AdeClient.

(** ** The grant request executor (SendBonusActivationActivity) *)

Module SendBonusActivation.

Record Response : Type := {
  headers : JsValue;
  status : Z;
  value : JsValue
}.

Definition Response_value (r : Response) : JsValue :=
  JObject [("headers", headers r); ("status", JNumber (status r));
           ("value", value r)].

Inductive FailureKind : Type := InvalidRequest | Unhandled.

Inductive SendBonusActivationResult : Type :=
| Success (confirmedGrant : JsValue)
| Failure (kind : FailureKind) (reason : JsValue).

(** The activity returns a result or raises a fault to its host. *)
Inductive Executed : Type :=
| Return (result : SendBonusActivationResult)
| Raise (fault : JsValue).

(** What the API client hands back: a response, the errors of a
    response it could not decode, or a network-level error, timeout or
    rejection. *)
Inductive ApiCall : Type :=
| Answered (response : Response)
| Undecodable (errors : list string)
| Failed_ (reason : JsValue).

Definition is_2xx (s : Z) : bool := ((200 <=? s) && (s <? 300))%Z.

Section classify.
Variable BonusVacanzaError_is : JsValue → bool.
(** The shape of a grant confirmation, a generated codec. *)
Variable GrantConfirmation_is : JsValue → bool.


(** Modelled from the spec: [SendBonusActivationActivity/handler.ts]
    is not among the sources (its tests and the error codecs of
    [adeClient.ts] are).  The response is classified by the table of
    section 4.3, the payload being dispatched by structural match on the
    closed set of known shapes (section 9): a payload of a known
    transient error shape is raised as a fault, never returned; a payload
    of a known validation-error shape is [Failure(InvalidRequest)] with
    the payload as reason; a 2xx with a grant confirmation payload is a
    success; anything else is [Failure(Unhandled)] with the raw response
    serialized as the reason.  A response the client could not decode is
    an unhandled failure as well, its reason the report of the decoder,
    as the tests of the activity expect, and a network-level error,
    timeout or rejection is raised as a fault carrying its reason. *)
Definition SendBonusActivationHandler (call : ApiCall) : Executed :=
  match call with
  | Failed_ reason => Raise reason
  | Undecodable errors =>
      Return (Failure Unhandled (JString (Hash.readableReport errors)))
  | Answered response =>
      let payload := value response in
      if AdeClient.BonusVacanzaTransientError_is BonusVacanzaError_is payload
      then Raise (Response_value response)
      else if AdeClient.BonusVacanzaInvalidRequestError_is
                BonusVacanzaError_is payload
      then Return (Failure InvalidRequest payload)
      else if (is_2xx (status response) && GrantConfirmation_is payload)%bool
      then Return (Success payload)
      else Return
             (Failure Unhandled
                (JString (Value.JSON_stringify (Response_value response))))
  end.
End classify.

(** Sample payloads, after the test suite of the activity. *)
Definition sample_BonusVacanzaError_is (v : JsValue) : bool :=
  (Value.is_string (Value.prop v "errorCode")
   && Value.is_string (Value.prop v "errorMessage"))%bool.

Definition sample_GrantConfirmation_is (v : JsValue) : bool :=
  Value.is_dictionary (Value.prop v "result").

Definition aBonusVacanzaTransientError : JsValue :=
  JObject [("errorCode", JString "3000");
           ("errorMessage", JString "Generic Error")].


Definition aTransientResponse : Response :=
  {| headers := JObject []; status := 500;
     value := aBonusVacanzaTransientError |}.


Definition anUnhandledResponse : Response :=
  {| headers := JObject []; status := 123;
     value := JObject [("foo", JString "bar")] |}.


Definition aSuccessResponse : Response :=
  {| headers := JObject []; status := 200;
     value := JObject [("result", JObject [("codiceBuono", JString aBonusId)])] |}.

End SendBonusActivation.

(** ** Creation of the activation candidate (StartBonusActivation) *)

Module StartBonusActivation.

Inductive CreationOutcome : Type :=
| Created (activation : RetrievedBonusActivation.t)
| Transient
| InternalError.

(** A 409-equivalent: the query error, returned or thrown, whose code is
    409. *)
Definition is_conflict {R} (s : Settled (DocumentDb.QueryError + R)) : bool :=
  match s with
  | Resolved (inl q) => (DocumentDb.code q =? 409)%Z
  | Resolved (inr _) => false
  | Rejected reason =>
      match Value.prop reason "code" with
      | JNumber n => (n =? 409)%Z
      | _ => false
      end
  end.

Definition MAX_ATTEMPTS : nat := 2.

(** The candidate for a given code. *)
Definition candidate (template : BonusActivationWithFamilyUID.t)
    (code : string) : NewBonusActivation.t :=
  {| NewBonusActivation.fields :=
       {| BonusActivationWithFamilyUID.id := code;
          BonusActivationWithFamilyUID.applicantFiscalCode :=
            BonusActivationWithFamilyUID.applicantFiscalCode template;
          BonusActivationWithFamilyUID.status :=
            BonusActivationWithFamilyUID.status template;
          BonusActivationWithFamilyUID.createdAt :=
            BonusActivationWithFamilyUID.createdAt template;
          BonusActivationWithFamilyUID.dsuRequest :=
            BonusActivationWithFamilyUID.dsuRequest template;
          BonusActivationWithFamilyUID.familyUID :=
            BonusActivationWithFamilyUID.familyUID template |};
     NewBonusActivation.kind := "INewBonusActivation" |}.

Section create.
Context {W : Type}.
(** The source of bonus codes and the [create] method of the activation
    model. *)
Variable genRandomBonusCode : W → string * W.
Variable create :
  NewBonusActivation.t →
  Promise W (DocumentDb.QueryError + RetrievedBonusActivation.t).

(** Modelled from the spec: [StartBonusActivation/handler.ts] is not among
    the sources (its test suite is).  Section 4.3: when recording the
    candidate fails because its identifier already exists (a
    409-equivalent), a new identifier is generated and the whole request
    is retried, up to a bounded number of attempts (two in the source);
    each retry must use a distinct, freshly generated identifier, and
    reusing one that collided is a correctness bug: an identifier drawn
    again after it collided is not handed to [create], and the attempt
    is spent.  Exhausting the attempts surfaces as a transient fault;
    any other failure of [create] is an internal error (section 7).
    [collided] holds the identifiers that collided so far. *)
Fixpoint createBonusActivation (attempts : nat) (collided : list string)
    (template : BonusActivationWithFamilyUID.t) (w : W)
  : CreationOutcome * W :=
  match attempts with
  | O => (Transient, w)
  | S attempts' =>
      let '(code, w1) := genRandomBonusCode w in
      if existsb (String.eqb code) collided
      then createBonusActivation attempts' collided template w1
      else
        let '(s, w2) := create (candidate template code) w1 in
        match s with
        | Resolved (inr activation) => (Created activation, w2)
        | _ =>
            if is_conflict s
            then createBonusActivation attempts' (code :: collided)
                   template w2
            else (InternalError, w2)
        end
  end.
End create.

(** What a run did, in order, as spies on the generator and on [create]
    record it next to the world: the identifiers drawn and the documents
    handed to [create]. *)
Inductive Event : Type :=
| Generated (code : string)
| CreateCalled (document : NewBonusActivation.t).

Definition spied_generator {W} (genRandomBonusCode : W → string * W)
  : W * list Event → string * (W * list Event) :=
  λ '(w, log),
    let '(code, w') := genRandomBonusCode w in
    (code, (w', log ++ [Generated code])).

Definition spied_create {W}
    (create : NewBonusActivation.t →
              Promise W (DocumentDb.QueryError + RetrievedBonusActivation.t))
    (document : NewBonusActivation.t)
  : Promise (W * list Event)
      (DocumentDb.QueryError + RetrievedBonusActivation.t) :=
  λ '(w, log),
    let '(s, w') := create document w in
    (s, (w', log ++ [CreateCalled document])).

(** The identifiers of the documents [create] was called with, and the
    identifiers drawn, in order. *)
Definition attempted (events : list Event) : list string :=
  omap (λ e, match e with
             | CreateCalled document =>
                 Some (BonusActivationWithFamilyUID.id
                         (NewBonusActivation.fields document))
             | Generated _ => None
             end) events.

Definition generated (events : list Event) : list string :=
  omap (λ e, match e with
             | Generated code => Some code
             | CreateCalled _ => None
             end) events.

(** What a run keeps, whatever it did before: the identifiers handed to
    [create] are pairwise distinct, none of them collided before, each
    was drawn for its attempt, and there are no more of them than
    attempts. *)
Definition well_attempted (template : BonusActivationWithFamilyUID.t)
    (attempts : nat) (collided : list string) (events : list Event) : Prop :=
  NoDup (attempted events)
  ∧ Forall (λ id, existsb (String.eqb id) collided = false) (attempted events)
  ∧ (length (attempted events) ≤ attempts)%nat
  ∧ (length (generated events) ≤ attempts)%nat
  ∧ attempted events ⊆ generated events
  ∧ Forall (λ e, match e with
                 | CreateCalled document =>
                     document
                     = candidate template
                         (BonusActivationWithFamilyUID.id
                            (NewBonusActivation.fields document))
                 | Generated _ => True
                 end) events.

(** A generator drawing from a supply held next to the store, and
    [create] on the in-memory store: a conflict when the identifier is
    taken. *)
Definition supply_generator : list string * Memory.Store →
                              string * (list string * Memory.Store) :=
  λ '(supply, store),
    match supply with
    | [] => ("", ([], store))
    | code :: rest => (code, (rest, store))
    end.

Definition memory_create (document : NewBonusActivation.t)
  : Promise (list string * Memory.Store)
      (DocumentDb.QueryError + RetrievedBonusActivation.t) :=
  λ '(supply, store),
    let id := BonusActivationWithFamilyUID.id
                (NewBonusActivation.fields document) in
    let uri := DocumentDb.getDocumentUri Memory.bonusActivations id in
    match store !! uri with
    | Some _ =>
        (Rejected (JObject [("code", JNumber 409)]), (supply, store))
    | None =>
        (Resolved
           (inr {| RetrievedBonusActivation.fields :=
                     NewBonusActivation.fields document;
                   RetrievedBonusActivation._self := uri;
                   RetrievedBonusActivation._ts := 0;
                   RetrievedBonusActivation.kind :=
                     "IRetrievedBonusActivation" |}),
         (supply, <[uri := Memory.BonusActivationDoc document]> store))
    end.

(** A store in which the first code of the supply is already taken. *)
Definition aTakenStore : Memory.Store :=
  {[ DocumentDb.getDocumentUri Memory.bonusActivations "AAAAAAAAAAAA"
     := Memory.BonusActivationDoc
          (candidate aBonusActivationWithFamilyUID "AAAAAAAAAAAA") ]}.

End StartBonusActivation.

(** ** API objects ([generated/definitions]) *)

Module Api.

Inductive StatusEnum : Type := ELIGIBLE | INELIGIBLE | FAILURE | CONFLICT.

Inductive ErrorEnum : Type :=
| INTERNAL_ERROR
| DATA_NOT_FOUND
| INVALID_REQUEST
| DATABASE_OFFLINE.

Record FamilyMember : Type := {
  fiscal_code : string;
  name : string;
  surname : string
}.

Record DsuRequest : Type := {
  dsu_created_at : string;
  dsu_protocol_id : string;
  family_members : list FamilyMember;
  has_discrepancies : bool;
  isee_type : string;
  max_amount : option Z;       (* [None]: the property holds [undefined] *)
  max_tax_benefit : option Z;
  request_id : string
}.

(** An eligibility check is an object with a [status]; which of the other
    properties are present depends on the variant of the union. *)
Record EligibilityCheck : Type := {
  status : StatusEnum;
  id : string;
  valid_before : option Z;
  dsu_request : option DsuRequest;
  error : option ErrorEnum;
  error_description : option string
}.

(** [{ ...eligibilityCheck, status: s }] *)
Definition with_status (s : StatusEnum) (c : EligibilityCheck)
  : EligibilityCheck :=
  {| status := s; id := id c; valid_before := valid_before c;
     dsu_request := dsu_request c; error := error c;
     error_description := error_description c |}.

Definition StatusEnum_eqb (a b : StatusEnum) : bool :=
  match a, b with
  | ELIGIBLE, ELIGIBLE | INELIGIBLE, INELIGIBLE
  | FAILURE, FAILURE | CONFLICT, CONFLICT => true
  | _, _ => false
  end.

End Api.

(** ** [ValidateEligibilityCheckActivity/handler.ts] *)

Module ValidateEligibilityCheck.

(** A task whose promise may reject. *)
Definition Rejectable (W A : Type) : Type := W → Outcome A * W.

Section handler.
Context {W : Type}.

(** The generated codec [EligibilityCheck] of the API is not among the
    sources: its decoder is an argument. *)
Variable ApiEligibilityCheck_decode : JsValue → list string + Api.EligibilityCheck.

(** [chain] with a callback that may throw before it returns its task:
    the promise then rejects. *)
Definition chain {L A B} (f : A → Outcome (TaskEither W L B))
    (m : TaskEither W L A) : Rejectable W (L + B) :=
  λ w, match m w with
       | (inl l, w') => (Returned (inl l), w')
       | (inr a, w') =>
           match f a with
           | Returned next => let '(r, w'') := next w' in (Returned r, w'')
           | Thrown e => (Thrown e, w')
           end
       end.

(** The family members of an eligible check, as [generateFamilyUID]
    takes them; reading them off a check without [dsu_request] throws. *)
Definition familyMembers_of (eligibilityCheck : Api.EligibilityCheck)
  : Outcome Hash.FamilyMembers :=
  match Api.dsu_request eligibilityCheck with
  | Some dsu_request =>
      Returned
        (map (λ familyMember,
                {| Hash.fiscalCode := Api.fiscal_code familyMember;
                   Hash.name := Api.name familyMember;
                   Hash.surname := Api.surname familyMember |})
           (Api.family_members dsu_request))
  | None =>
      Thrown "TypeError: Cannot read property 'family_members' of undefined"
  end.

(** The handler; next to the outcome, the lines it wrote with
    [context.log.error]. *)
Definition getValidateEligibilityCheckActivityHandler
    (bonusLeaseModel : BonusLeaseModel.t W) (input : JsValue)
  : W → Outcome Api.EligibilityCheck * list string * W :=
  λ w,
    let validated :=
      TE.fromEither (ApiEligibilityCheck_decode input)
      |> TE.mapLeft (λ err,
           mkError ("Decoding Error: [" +:+ Hash.readableReport err +:+ "]"))
      |> chain (λ eligibilityCheck,
           if negb (Api.StatusEnum_eqb (Api.status eligibilityCheck)
                      Api.ELIGIBLE)
           then Returned (TE.fromEither (inr eligibilityCheck))
           else
             match familyMembers_of eligibilityCheck with
             | Thrown e => Thrown e
             | Returned members =>
                 match Hash.generateFamilyUID members with
                 | Thrown e => Thrown e
                 | Returned familyUID =>
                     Returned
                       (TE.tryCatch
                          (BonusLeaseModel.find bonusLeaseModel familyUID
                             familyUID)
                          (λ _, mkError "Error calling bonusLeaseModel.find")
                        |> TE.foldTaskEither
                             (λ error, TE.fromEither (inl error))
                             (λ queryResult,
                                TE.fromEither
                                  match queryResult with
                                  | inl queryError =>
                                      inl (mkError
                                             ("Query Error: code=["
                                              +:+ Js.Number_toString
                                                    (DocumentDb.code queryError)
                                              +:+ "]"))
                                  | inr None => inr eligibilityCheck
                                  | inr (Some _) =>
                                      inr (Api.with_status Api.CONFLICT
                                             eligibilityCheck)
                                  end))
                 end
             end) in
    match validated w with
    | (Returned (inl error), w') =>
        (Thrown (message error),
         ["ValidateEligibilityCheckActivity|ERROR|Error: " +:+ message error],
         w')
    | (Returned (inr validatedEligibilityCheck), w') =>
        (Returned validatedEligibilityCheck, [], w')
    | (Thrown e, w') => (Thrown e, [], w')
    end.
End handler.

(** Sample data: an eligible check for the mock family, and a decoder
    standing in for the generated one. *)
Definition anEligibleCheck : Api.EligibilityCheck :=
  {| Api.status := Api.ELIGIBLE;
     Api.id := aFiscalCode;
     Api.valid_before := Some 1593648000000%Z;
     Api.dsu_request :=
       Some {| Api.dsu_created_at := "2020-05-25T00:00:00.000Z";
               Api.dsu_protocol_id := "aDsuProtocolId";
               Api.family_members :=
                 [ {| Api.fiscal_code := aFiscalCode; Api.name := "Mario";
                      Api.surname := "Rossi" |} ];
               Api.has_discrepancies := false;
               Api.isee_type := "iseeType";
               Api.max_amount := Some 150%Z;
               Api.max_tax_benefit := Some 30%Z;
               Api.request_id := "aRequestId" |};
     Api.error := None;
     Api.error_description := None |}.

Definition sample_decode (v : JsValue) : list string + Api.EligibilityCheck :=
  match Value.prop v "status", Value.prop v "id" with
  | JString s, JString i =>
      if (String.eqb s "ELIGIBLE" && String.eqb i aFiscalCode)%bool
      then inr anEligibleCheck
      else inl ["Invalid value supplied to EligibilityCheck"]
  | _, _ => inl ["Invalid value supplied to EligibilityCheck"]
  end.

Definition anEligibleCheckValue : JsValue :=
  JObject [("status", JString "ELIGIBLE"); ("id", JString aFiscalCode)].

(** A store in which the family of the sample check holds the lease: the
    lease sits under the digest of the family's fiscal codes. *)
Definition aStoreWithFamilyLease : Memory.Store :=
  {[ DocumentDb.getDocumentUri Memory.bonusLeases (Hash.toHash aFiscalCode)
     := Memory.BonusLeaseDoc (Hash.toHash aFiscalCode) ]}.

End ValidateEligibilityCheck.

(** ** [utils/conversions.ts]: from the DSU answer to an eligibility check *)

Module Conversions.

Inductive EsitoEnum : Type :=
| OK
| DATI_NON_TROVATI
| RICHIESTA_INVALIDA
| ERRORE_INTERNO.

Inductive SiNoTypeEnum : Type := SI | NO.

Record Componente : Type := {
  CodiceFiscale : string;
  Cognome : string;
  Nome : string
}.

Record DatiIndicatoreT : Type := {
  Componenti : option (list Componente);
  DataPresentazioneDSU : string;
  PresenzaDifformita : option SiNoTypeEnum;
  ProtocolloDSU : option string;
  SottoSoglia : SiNoTypeEnum;
  TipoIndicatore : string
}.

Record ConsultazioneSogliaIndicatoreResponse : Type := {
  DatiIndicatore : option DatiIndicatoreT;
  DescrizioneErrore : option string;
  Esito : EsitoEnum;
  IdRichiesta : Z
}.

(** The generated codecs [MaxBonusAmount150], [MaxBonusAmount250] and
    [MaxBonusAmount500] are not among the sources.  A value of this type
    stands for what [MaxBonusAmountNNN.decode({})] hands back, named
    after its codec. *)
Inductive MaxBonusAmount : Type :=
| MaxBonusAmount150
| MaxBonusAmount250
| MaxBonusAmount500.

(** The maximum amount, in euro, of the bonus value a codec decodes to:
    the amount the codec is named after. *)
Definition max_amount (b : MaxBonusAmount) : Z :=
  match b with
  | MaxBonusAmount150 => 150
  | MaxBonusAmount250 => 250
  | MaxBonusAmount500 => 500
  end.

(** A property that should hold a number, as it is read off an object. *)
Definition number_prop (v : JsValue) (key : string) : option Z :=
  match Value.prop v key with
  | JNumber n => Some n
  | _ => None
  end.

(** Returns the maximum bonus amount in Euros from the total number of
    family members. *)
Definition calculateMaxBonusAmountFromFamilyMemberCount
    (familyMemberCount : Z) : Outcome MaxBonusAmount :=
  if (familyMemberCount >? 2)%Z then Returned MaxBonusAmount500
  else if (familyMemberCount =? 2)%Z then Returned MaxBonusAmount250
  else if (familyMemberCount =? 1)%Z then Returned MaxBonusAmount150
  else Thrown ("FATAL: family member count is not greater than 0 ["
               +:+ Js.Number_toString familyMemberCount +:+ "]").

(** [EligibilityCheckFailure.encode] *)
Definition failure (error : Api.ErrorEnum) (error_description id : string)
  : Api.EligibilityCheck :=
  {| Api.status := Api.FAILURE; Api.id := id; Api.valid_before := None;
     Api.dsu_request := None; Api.error := Some error;
     Api.error_description := Some error_description |}.

(** [x || fallback] on an optional string: the empty string is falsy. *)
Definition or_else (x : option string) (fallback : string) : string :=
  match x with
  | Some s => if String.eqb s "" then fallback else s
  | None => fallback
  end.

(** [data.DatiIndicatore?.Componenti || []] *)
Definition roster (data : ConsultazioneSogliaIndicatoreResponse)
  : list Componente :=
  match DatiIndicatore data with
  | Some d => default [] (Componenti d)
  | None => []
  end.

Section conversions.
(** Generated codecs that are not among the sources: the type guard and
    the error report of [FamilyMemberCount], the type guard of
    [FamilyMember], and the tax benefit a decoded bonus value carries. *)
Variable FamilyMemberCount_is : Z → bool.
Variable FamilyMemberCount_errors : Z → list string.
Variable FamilyMember_is : Api.FamilyMember → bool.
Variable max_tax_benefit : MaxBonusAmount → Z.

(** [decode] hands back an io-ts [Validation], an [Either] of fp-ts: an
    object whose own properties are [_tag] and [value], the decoded bonus
    value sitting under [value]. *)
Definition Validation_object (bonusValue : MaxBonusAmount) : JsValue :=
  JObject
    [ ("_tag", JString "Right");
      ("value",
       JObject [ ("max_amount", JNumber (max_amount bonusValue));
                 ("max_tax_benefit", JNumber (max_tax_benefit bonusValue)) ]) ].

Definition toEligibilityCheckFromDSU
    (data : ConsultazioneSogliaIndicatoreResponse) (fiscalCode : string)
    (validBefore : Z) : Outcome Api.EligibilityCheck :=
  match roster data with
  | [] =>
      Returned
        (failure Api.INTERNAL_ERROR "DatiIndicatore.Componenti is empty"
           fiscalCode)
  | first :: others =>
      let familyMembers := first :: others in
      let count := Z.of_nat (length familyMembers) in
      if negb (FamilyMemberCount_is count)
      then
        Returned
          (failure Api.INTERNAL_ERROR
             ("Family member count is out of range ["
              +:+ Hash.readableReport (FamilyMemberCount_errors count) +:+ "]")
             fiscalCode)
      else
        match calculateMaxBonusAmountFromFamilyMemberCount count with
        | Thrown e => Thrown e
        | Returned bonusValue =>
            let validFamilyMembers :=
              match DatiIndicatore data with
              | Some d =>
                  match Componenti d with
                  | Some components =>
                      List.filter FamilyMember_is
                        (map (λ c, {| Api.fiscal_code := CodiceFiscale c;
                                      Api.name := Nome c;
                                      Api.surname := Cognome c |})
                           components)
                  | None => []
                  end
              | None => []
              end in
            match Esito data with
            | OK =>
                match DatiIndicatore data with
                | Some d =>
                    match SottoSoglia d with
                    | SI =>
                        Returned
                          {| Api.status := Api.ELIGIBLE;
                             Api.id := fiscalCode;
                             Api.valid_before := Some validBefore;
                             Api.dsu_request :=
                               Some
                                 {| Api.dsu_created_at :=
                                      DataPresentazioneDSU d;
                                    Api.dsu_protocol_id :=
                                      or_else (ProtocolloDSU d) "";
                                    Api.family_members := validFamilyMembers;
                                    Api.has_discrepancies :=
                                      match PresenzaDifformita d with
                                      | Some SI => true
                                      | _ => false
                                      end;
                                    Api.isee_type := TipoIndicatore d;
                                    Api.max_amount :=
                                      number_prop
                                        (Validation_object bonusValue)
                                        "max_amount";
                                    Api.max_tax_benefit :=
                                      number_prop
                                        (Validation_object bonusValue)
                                        "max_tax_benefit";
                                    Api.request_id :=
                                      Js.Number_toString (IdRichiesta data) |};
                             Api.error := None;
                             Api.error_description := None |}
                    | NO =>
                        Returned
                          {| Api.status := Api.INELIGIBLE;
                             Api.id := fiscalCode;
                             Api.valid_before := None;
                             Api.dsu_request := None;
                             Api.error := None;
                             Api.error_description := None |}
                    end
                | None =>
                    Returned
                      {| Api.status := Api.INELIGIBLE;
                         Api.id := fiscalCode;
                         Api.valid_before := None;
                         Api.dsu_request := None;
                         Api.error := None;
                         Api.error_description := None |}
                end
            | esito =>
                Returned
                  (failure
                     match esito with
                     | DATI_NON_TROVATI => Api.DATA_NOT_FOUND
                     | RICHIESTA_INVALIDA => Api.INVALID_REQUEST
                     | _ => Api.INTERNAL_ERROR
                     end
                     (or_else (DescrizioneErrore data) "Esito value is not OK")
                     fiscalCode)
            end
        end
  end.
End conversions.


End Conversions.

(** ** Further observations on the embedded code *)

(** The lines an orchestrator run writes with [context.log], in order. *)
Module OrchestratorLog.
Fixpoint logged {H R} (host : Orchestrator.Host H)
    (g : Orchestrator.Generator R) (h : H)
  : list (Orchestrator.LogLevel * string) :=
  match g with
  | Orchestrator.Yield task resume =>
      let '(r, h') := host task h in logged host (resume r) h'
  | Orchestrator.Log level line next => (level, line) :: logged host next h
  | Orchestrator.Return _ => []
  | Orchestrator.Throw _ => []
  end.

(** What the orchestrator may hand to the host: the send activity, with
    the retry options, and otherwise plain activity calls; the unlock
    activity gets a string. *)
Definition well_formed_task (t : Orchestrator.Task) : Prop :=
  match t with
  | Orchestrator.callActivityWithRetry name options _ =>
      name = "SendBonusActivationActivity"
      ∧ Orchestrator.maxNumberOfAttempts options = 10%Z
  | Orchestrator.callActivity name input =>
      name ≠ "SendBonusActivationActivity"
      ∧ (name = "UnlockBonusActivationActivity" → ∃ s, input = JString s)
  end.
End OrchestratorLog.

(** The seven error codecs of [adeClient.ts], as type guards. *)
Definition error_codecs (BonusVacanzaError_is : JsValue → bool)
  : list (JsValue → bool) :=
  [ AdeClient.BonusVacanzaGenericError_is BonusVacanzaError_is;
    AdeClient.BonusVacanzaApplicationGenericError_is BonusVacanzaError_is;
    AdeClient.BonusVacanzaCodeAlreadyPresentError_is BonusVacanzaError_is;
    AdeClient.BonusVacanzaRequestedByOtherFamilyMemberError_is
      BonusVacanzaError_is;
    AdeClient.BonusVacanzaEmptyFamilyError_is BonusVacanzaError_is;
    AdeClient.BonusVacanzaNoFiscalCodeProvidedProvidedError_is
      BonusVacanzaError_is;
    AdeClient.BonusVacanzaNoGenerationDateProvidedProvidedError_is
      BonusVacanzaError_is ].

(** How many of the codecs accept a payload. *)
Definition accepting (guards : list (JsValue → bool)) (v : JsValue) : nat :=
  length (List.filter (λ g, g v) guards).

(** A lower-case hexadecimal digit. *)
Definition is_hex_digit (c : ascii) : bool :=
  let n := N_of_ascii c in
  ((48 <=? n) && (n <=? 57) || (97 <=? n) && (n <=? 102))%N.

(** The status an activity's outcome carries, or its fault. *)
Definition verdict (o : Outcome Api.EligibilityCheck) : Outcome Api.StatusEnum :=
  match o with
  | Returned check => Returned (Api.status check)
  | Thrown e => Thrown e
  end.



(** Two eligible checks for the same family, its members listed in two
    orders, and a decoder standing in for the generated one on them. *)
Definition aCheckOf (members : list Api.FamilyMember) : Api.EligibilityCheck :=
  {| Api.status := Api.ELIGIBLE;
     Api.id := aFiscalCode;
     Api.valid_before := Some 1593648000000%Z;
     Api.dsu_request :=
       Some {| Api.dsu_created_at := "2020-05-25T00:00:00.000Z";
               Api.dsu_protocol_id := "aDsuProtocolId";
               Api.family_members := members;
               Api.has_discrepancies := false;
               Api.isee_type := "iseeType";
               Api.max_amount := Some 250%Z;
               Api.max_tax_benefit := Some 50%Z;
               Api.request_id := "aRequestId" |};
     Api.error := None;
     Api.error_description := None |}.

Definition apiMario : Api.FamilyMember :=
  {| Api.fiscal_code := aFiscalCode; Api.name := "Mario";
     Api.surname := "Rossi" |}.
Definition apiChiara : Api.FamilyMember :=
  {| Api.fiscal_code := anotherFiscalCode; Api.name := "Chiara";
     Api.surname := "Bianchi" |}.

Definition order_decode (v : JsValue) : list string + Api.EligibilityCheck :=
  match v with
  | JString "mario first" => inr (aCheckOf [apiMario; apiChiara])
  | JString "chiara first" => inr (aCheckOf [apiChiara; apiMario])
  | _ => inl ["Invalid value supplied to EligibilityCheck"]
  end.

(** The answer of the DSU service says the indicator is below the
    threshold. *)
Definition below_threshold
    (data : Conversions.ConsultazioneSogliaIndicatoreResponse) : bool :=
  match Conversions.DatiIndicatore data with
  | Some d =>
      match Conversions.SottoSoglia d with
      | Conversions.SI => true
      | Conversions.NO => false
      end
  | None => false
  end.

(** A component of the DSU answer as a family member of the API. *)
Definition member_of_component (c : Conversions.Componente) : Api.FamilyMember :=
  {| Api.fiscal_code := Conversions.CodiceFiscale c;
     Api.name := Conversions.Nome c;
     Api.surname := Conversions.Cognome c |}.

(** A DSU answer of three components, below the threshold. *)
Definition aThreeMemberAnswer : Conversions.ConsultazioneSogliaIndicatoreResponse :=
  {| Conversions.DatiIndicatore :=
       Some {| Conversions.Componenti :=
                 Some [ {| Conversions.CodiceFiscale := aFiscalCode;
                           Conversions.Cognome := "Rossi";
                           Conversions.Nome := "Mario" |};
                        {| Conversions.CodiceFiscale := anotherFiscalCode;
                           Conversions.Cognome := "Bianchi";
                           Conversions.Nome := "Chiara" |};
                        {| Conversions.CodiceFiscale := "not a fiscal code";
                           Conversions.Cognome := "Verdi";
                           Conversions.Nome := "Anna" |} ];
               Conversions.DataPresentazioneDSU := "2020-05-25";
               Conversions.PresenzaDifformita := Some Conversions.NO;
               Conversions.ProtocolloDSU := Some "INPS-ISEE-2020-000000001-00";
               Conversions.SottoSoglia := Conversions.SI;
               Conversions.TipoIndicatore := "ISEE Standard" |};
     Conversions.DescrizioneErrore := None;
     Conversions.Esito := Conversions.OK;
     Conversions.IdRichiesta := 123 |}.

(** The same answer with an outcome that is not OK and an empty
    description. *)
Definition aNotFoundAnswer : Conversions.ConsultazioneSogliaIndicatoreResponse :=
  {| Conversions.DatiIndicatore := Conversions.DatiIndicatore aThreeMemberAnswer;
     Conversions.DescrizioneErrore := Some "";
     Conversions.Esito := Conversions.DATI_NON_TROVATI;
     Conversions.IdRichiesta := 123 |}.

(** Stand-ins for the generated type guards: up to nineteen members, and
    a fiscal code of sixteen characters. *)
Definition sample_FamilyMemberCount_is (n : Z) : bool := (n <? 20)%Z.
Definition sample_FamilyMember_is (m : Api.FamilyMember) : bool :=
  Nat.eqb (String.length (Api.fiscal_code m)) 16.
Definition sample_max_tax_benefit (b : Conversions.MaxBonusAmount) : Z :=
  match b with
  | Conversions.MaxBonusAmount150 => 30
  | Conversions.MaxBonusAmount250 => 50
  | Conversions.MaxBonusAmount500 => 100
  end.

(** ** [utils/codecs/eligibility_check_codecs.ts]

    The codecs convert between the API objects and the domain objects of
    an eligibility check.  Each is a union of three variants told apart
    by their literal [status] and by the properties they require, so a
    value of one variant is not taken for another; the literal status is
    left out of the records. *)

Module Codecs.

Inductive ErrorEnum : Type :=
| DATABASE_OFFLINE
| DATA_NOT_FOUND
| INTERNAL_ERROR
| INVALID_REQUEST.

Module EligibleApi.
Record t : Type := {
  family_members : list Api.FamilyMember;
  id : string;
  max_amount : Z;
  max_tax_benefit : Z;
  valid_before : Z
}.
End EligibleApi.

Module Eligible.
Record t : Type := {
  familyMembers : Hash.FamilyMembers;
  id : string;
  maxAmount : Z;
  maxTaxBenefit : Z;
  validBefore : Z
}.
End Eligible.

Module IneligibleApi.
Record t : Type := { id : string }.
End IneligibleApi.

Module Ineligible.
Record t : Type := { id : string }.
End Ineligible.

Module FailureApi.
Record t : Type := {
  error : Api.ErrorEnum;
  error_description : string;
  id : string
}.
End FailureApi.

Module Failure.
Record t : Type := {
  error : ErrorEnum;
  errorDescription : string;
  id : string
}.
End Failure.

Inductive EligibilityCheckApi : Type :=
| ApiEligible (o : EligibleApi.t)
| ApiIneligible (o : IneligibleApi.t)
| ApiFailure (o : FailureApi.t).

Inductive EligibilityCheck : Type :=
| ModelEligible (o : Eligible.t)
| ModelIneligible (o : Ineligible.t)
| ModelFailure (o : Failure.t).

(** [t.failure(value, context)] *)
Definition failure {A} (name : string) : list string + A :=
  inl ["Invalid value supplied to " +:+ name].

Section codecs.
(** The generated codecs are not among the sources: the type guard of
    each, which is also what its [validate] accepts, is an argument. *)
Variable EligibilityCheckSuccessEligibleApi_is : EligibleApi.t → bool.
Variable EligibilityCheckSuccessEligible_is : Eligible.t → bool.
Variable EligibilityCheckSuccessIneligibleApi_is : IneligibleApi.t → bool.
Variable EligibilityCheckSuccessIneligible_is : Ineligible.t → bool.
Variable EligibilityCheckFailureApi_is : FailureApi.t → bool.
Variable EligibilityCheckFailure_is : Failure.t → bool.

Definition ModelEligibilityCheckSuccessEligibleFromApi_decode
    (apiObject : EligibleApi.t) : list string + Eligible.t :=
  let fromApiObject :=
    {| Eligible.familyMembers :=
         map (λ fm, {| Hash.fiscalCode := Api.fiscal_code fm;
                       Hash.name := Api.name fm;
                       Hash.surname := Api.surname fm |})
           (EligibleApi.family_members apiObject);
       Eligible.id := EligibleApi.id apiObject;
       Eligible.maxAmount := EligibleApi.max_amount apiObject;
       Eligible.maxTaxBenefit := EligibleApi.max_tax_benefit apiObject;
       Eligible.validBefore := EligibleApi.valid_before apiObject |} in
  if EligibilityCheckSuccessEligible_is fromApiObject then inr fromApiObject
  else failure "ModelEligibilityCheckSuccessEligibleFromApi".

Definition ApiEligibilityCheckSuccessEligibleFromModel_decode
    (domainObject : Eligible.t) : list string + EligibleApi.t :=
  let fromDomainObject :=
    {| EligibleApi.family_members :=
         map (λ fm, {| Api.fiscal_code := Hash.fiscalCode fm;
                       Api.name := Hash.name fm;
                       Api.surname := Hash.surname fm |})
           (Eligible.familyMembers domainObject);
       EligibleApi.id := Eligible.id domainObject;
       EligibleApi.max_amount := Eligible.maxAmount domainObject;
       EligibleApi.max_tax_benefit := Eligible.maxTaxBenefit domainObject;
       EligibleApi.valid_before := Eligible.validBefore domainObject |} in
  if EligibilityCheckSuccessEligibleApi_is fromDomainObject
  then inr fromDomainObject
  else failure "ApiEligibilityCheckSuccessEligibleFromModel".

Definition ModelEligibilityCheckSuccessIneligibleFromApi_decode
    (apiObject : IneligibleApi.t) : list string + Ineligible.t :=
  let fromApiObject := {| Ineligible.id := IneligibleApi.id apiObject |} in
  if EligibilityCheckSuccessIneligible_is fromApiObject then inr fromApiObject
  else failure "ModelEligibilityCheckSuccessIneligibleFromApi".

Definition ApiEligibilityCheckSuccessIneligibleFromModel_decode
    (domainObject : Ineligible.t) : list string + IneligibleApi.t :=
  let fromDomainObject :=
    {| IneligibleApi.id := Ineligible.id domainObject |} in
  if EligibilityCheckSuccessIneligibleApi_is fromDomainObject
  then inr fromDomainObject
  else failure "ApiEligibilityCheckSuccessIneligibleFromModel".

Definition ModelEligibilityCheckFailureFromApi_decode
    (apiObject : FailureApi.t) : list string + Failure.t :=
  let fromApiObject :=
    {| Failure.error :=
         match FailureApi.error apiObject with
         | Api.DATABASE_OFFLINE => DATABASE_OFFLINE
         | Api.DATA_NOT_FOUND => DATA_NOT_FOUND
         | Api.INTERNAL_ERROR => INTERNAL_ERROR
         | Api.INVALID_REQUEST => INVALID_REQUEST
         end;
       Failure.errorDescription := FailureApi.error_description apiObject;
       Failure.id := FailureApi.id apiObject |} in
  if EligibilityCheckFailure_is fromApiObject then inr fromApiObject
  else failure "ModelEligibilityCheckFailureFromApi".

Definition ApiEligibilityCheckFailureFromModel_decode
    (domainObject : Failure.t) : list string + FailureApi.t :=
  let fromDomainObject :=
    {| FailureApi.error :=
         match Failure.error domainObject with
         | DATABASE_OFFLINE => Api.DATABASE_OFFLINE
         | DATA_NOT_FOUND => Api.DATA_NOT_FOUND
         | INTERNAL_ERROR => Api.INTERNAL_ERROR
         | INVALID_REQUEST => Api.INVALID_REQUEST
         end;
       FailureApi.error_description := Failure.errorDescription domainObject;
       FailureApi.id := Failure.id domainObject |} in
  if EligibilityCheckFailureApi_is fromDomainObject then inr fromDomainObject
  else failure "ApiEligibilityCheckFailureFromModel".

(** An object no guard accepts reaches [assertNever], which throws; the
    exception is caught and the decoding fails. *)
Definition ModelEligibilityCheckFromApi_decode (apiObject : EligibilityCheckApi)
  : list string + EligibilityCheck :=
  match apiObject with
  | ApiEligible o =>
      if EligibilityCheckSuccessEligibleApi_is o
      then match ModelEligibilityCheckSuccessEligibleFromApi_decode o with
           | inr m => inr (ModelEligible m)
           | inl e => inl e
           end
      else failure "ModelEligibilityCheckFromApi"
  | ApiIneligible o =>
      if EligibilityCheckSuccessIneligibleApi_is o
      then match ModelEligibilityCheckSuccessIneligibleFromApi_decode o with
           | inr m => inr (ModelIneligible m)
           | inl e => inl e
           end
      else failure "ModelEligibilityCheckFromApi"
  | ApiFailure o =>
      if EligibilityCheckFailureApi_is o
      then match ModelEligibilityCheckFailureFromApi_decode o with
           | inr m => inr (ModelFailure m)
           | inl e => inl e
           end
      else failure "ModelEligibilityCheckFromApi"
  end.

Definition ApiEligibilityCheckFromModel_decode (domainObject : EligibilityCheck)
  : list string + EligibilityCheckApi :=
  match domainObject with
  | ModelEligible o =>
      if EligibilityCheckSuccessEligible_is o
      then match ApiEligibilityCheckSuccessEligibleFromModel_decode o with
           | inr a => inr (ApiEligible a)
           | inl e => inl e
           end
      else failure "EligibilityCheckToApiObject"
  | ModelIneligible o =>
      if EligibilityCheckSuccessIneligible_is o
      then match ApiEligibilityCheckSuccessIneligibleFromModel_decode o with
           | inr a => inr (ApiIneligible a)
           | inl e => inl e
           end
      else failure "EligibilityCheckToApiObject"
  | ModelFailure o =>
      if EligibilityCheckFailure_is o
      then match ApiEligibilityCheckFailureFromModel_decode o with
           | inr a => inr (ApiFailure a)
           | inl e => inl e
           end
      else failure "EligibilityCheckToApiObject"
  end.
End codecs.

(** Sample objects, after the test suite of the codecs. *)
Definition anElibigleApiObject : EligibilityCheckApi :=
  ApiEligible
    {| EligibleApi.family_members :=
         [ {| Api.fiscal_code := aFiscalCode; Api.name := "Mario";
              Api.surname := "Rossi" |} ];
       EligibleApi.id := aFiscalCode;
       EligibleApi.max_amount := 200;
       EligibleApi.max_tax_benefit := 50;
       EligibleApi.valid_before := 1593648000000 |}.

Definition anEligibleDomainObject : EligibilityCheck :=
  ModelEligible
    {| Eligible.familyMembers :=
         [ {| Hash.fiscalCode := aFiscalCode; Hash.name := "Mario";
              Hash.surname := "Rossi" |} ];
       Eligible.id := aFiscalCode;
       Eligible.maxAmount := 200;
       Eligible.maxTaxBenefit := 50;
       Eligible.validBefore := 1593648000000 |}.

(** Stand-ins for the generated guards: amounts within their ranges, and
    everything else accepted. *)
Definition sample_EligibleApi_is (o : EligibleApi.t) : bool :=
  ((150 <=? EligibleApi.max_amount o) && (EligibleApi.max_amount o <=? 500))%Z.
Definition sample_Eligible_is (o : Eligible.t) : bool :=
  ((150 <=? Eligible.maxAmount o) && (Eligible.maxAmount o <=? 500))%Z.

End Codecs.

(** * Properties *)

Example sha256_abc :
  Sha256.hexdigest "abc"
  = "ba7816bf8f01cfea414140de5dae2223b00361a396177a9cb410ff61f20015ad".
Proof. vm_compute. reflexivity. Qed.

Example sha256_empty :
  Sha256.hexdigest ""
  = "e3b0c44298fc1c149afbf4c8996fb92427ae41e4649b934ca495991b7852b855".
Proof. vm_compute. reflexivity. Qed.

Example sha256_two_blocks :
  Sha256.hexdigest
    "aaaaaaaaaaaaaaaaaaaaaaaaaaaaaaaaaaaaaaaaaaaaaaaaaaaaaaaaaaaaaaaa"
  = "ffe054fe7ae0cb6dc65c3af9b61d5209f439851db43d0ba5997337df154668eb".
Proof. vm_compute. reflexivity. Qed.

Example sha256_fifty_six :
  Sha256.hexdigest
    "aaaaaaaaaaaaaaaaaaaaaaaaaaaaaaaaaaaaaaaaaaaaaaaaaaaaaaaa"
  = "b35439a4ac6f0948b6d6f9e3c6af0f5f590ce20f1bde7090ef7970686ec6738a".
Proof. vm_compute. reflexivity. Qed.

Example Number_toString_examples :
  Js.Number_toString 150 = "150" ∧ Js.Number_toString 0 = "0"
  ∧ Js.Number_toString (-7) = "-7" ∧ Js.Number_toString 1000 = "1000".
Proof. vm_compute. repeat split. Qed.

(** ** Facts about the built-ins *)

Section sort_facts.
Context {A : Type} (comparefn : A → A → Z).

Lemma sort_insert_Permutation x l :
  Js.sort_insert comparefn x l ≡ₚ x :: l.
Proof.
  induction l as [|y l IH]; simpl; [done|].
  destruct (comparefn x y <=? 0)%Z; [done|].
  rewrite IH. apply perm_swap.
Qed.

Lemma Array_sort_Permutation l : Js.Array_sort comparefn l ≡ₚ l.
Proof.
  induction l as [|x l IH]; simpl; [done|].
  rewrite sort_insert_Permutation. by rewrite IH.
Qed.

Context `{!Transitive (before comparefn), !Total (before comparefn)}.

Lemma sort_insert_StronglySorted x l :
  StronglySorted (before comparefn) l →
  StronglySorted (before comparefn) (Js.sort_insert comparefn x l).
Proof.
  induction 1 as [|y l Hl IH Hy]; simpl.
  { repeat constructor. }
  destruct (comparefn x y <=? 0)%Z eqn:Hxy.
  - apply Z.leb_le in Hxy. constructor; [by constructor|].
    constructor; [done|].
    eapply Forall_impl; [exact Hy|]. intros z Hz. by trans y.
  - apply Z.leb_gt in Hxy. constructor; [done|].
    rewrite sort_insert_Permutation. constructor; [|done].
    destruct (total (before comparefn) x y) as [Hle|Hle]; [|done].
    unfold before in Hle. lia.
Qed.

Lemma Array_sort_StronglySorted l :
  StronglySorted (before comparefn) (Js.Array_sort comparefn l).
Proof.
  induction l as [|x l IH]; simpl; [constructor|].
  by apply sort_insert_StronglySorted.
Qed.

(** With an antisymmetric comparator the sorted array depends only on
    the elements and their multiplicities. *)
Lemma Array_sort_canonical `{!AntiSymm (=) (before comparefn)} l1 l2 :
  l1 ≡ₚ l2 → Js.Array_sort comparefn l1 = Js.Array_sort comparefn l2.
Proof.
  intros Hp. apply (StronglySorted_unique (before comparefn));
    [apply Array_sort_StronglySorted..|].
  by rewrite !Array_sort_Permutation.
Qed.
End sort_facts.

Lemma localeCompare_before a b :
  before Js.localeCompare a b ↔ String.le a b.
Proof.
  unfold before, Js.localeCompare, String.le, String.leb.
  destruct (String.compare a b); simpl; split; intros; try done; lia.
Qed.

#[local] Instance localeCompare_trans : Transitive (before Js.localeCompare).
Proof.
  intros a b c. rewrite !localeCompare_before. apply transitivity.
Qed.

#[local] Instance localeCompare_total : Total (before Js.localeCompare).
Proof.
  intros a b. rewrite !localeCompare_before. apply total, _.
Qed.

#[local] Instance localeCompare_antisym :
  AntiSymm (=) (before Js.localeCompare).
Proof.
  intros a b. rewrite !localeCompare_before. apply anti_symm, _.
Qed.

Lemma Array_join_empty_sep l : Js.Array_join "" l = foldr String.app "" l.
Proof.
  induction l as [|x [|y l] IH]; simpl in *; [done| |].
  - unfold String.app. induction x; simpl; congruence.
  - by rewrite <- IH.
Qed.

Lemma Array_join_app l1 l2 :
  Js.Array_join "" (l1 ++ l2) = Js.Array_join "" l1 +:+ Js.Array_join "" l2.
Proof.
  rewrite !Array_join_empty_sep. induction l1 as [|x l1 IH]; simpl; [done|].
  rewrite IH. unfold String.app. induction x; simpl; congruence.
Qed.

Example Date_toISOString_examples :
  Js.Date_toISOString 0 = "1970-01-01T00:00:00.000Z"
  ∧ Js.Date_toISOString 1593561600123 = "2020-07-01T00:00:00.123Z"
  ∧ Js.Date_toISOString 951827696789 = "2000-02-29T12:34:56.789Z"
  ∧ Js.Date_toISOString (-1) = "1969-12-31T23:59:59.999Z"
  ∧ Js.Date_toISOString (-62198755200000) = "-000001-01-01T00:00:00.000Z"
  ∧ Js.Date_toISOString 253402300800000 = "+010000-01-01T00:00:00.000Z".
Proof. vm_compute. repeat split. Qed.

(** ** [generateFamilyUID] *)

Lemma generateFamilyUID_digest (ms : Hash.FamilyMembers) :
  Hash.generateFamilyUID ms
  = Returned
      (Hash.toHash
         (Js.Array_join ""
            (Js.Array_sort Js.localeCompare (map Hash.fiscalCode ms)))).
Proof. reflexivity. Qed.

Lemma sorted_codes_characterised (ms : Hash.FamilyMembers) :
  let sorted := Js.Array_sort Js.localeCompare (map Hash.fiscalCode ms) in
  StronglySorted String.le sorted ∧ sorted ≡ₚ map Hash.fiscalCode ms.
Proof.
  split; [|apply Array_sort_Permutation].
  generalize (Array_sort_StronglySorted Js.localeCompare
                (map Hash.fiscalCode ms)).
  induction 1 as [|x l Hl IH Hx]; constructor; [done|].
  eapply Forall_impl; [exact Hx|]. intros y. apply localeCompare_before.
Qed.

(** C4, as stated, fails: a roster that repeats a member has the same set
    of fiscal codes as the roster without the repetition, yet the joined
    string that is hashed differs, and so does the FamilyUID. *)
Lemma generateFamilyUID_ignores_no_duplicate :
  same_fiscal_code_set [mario] [mario; mario]
  ∧ Hash.generateFamilyUID [mario] ≠ Hash.generateFamilyUID [mario; mario].
Proof.
  split.
  - intros c. simpl. rewrite !elem_of_cons. tauto.
  - vm_compute. discriminate.
Qed.

(** C4 (amended): generateFamilyUID is a deterministic function of the
    sorted list of the members' fiscal codes, duplicates kept.  Any two
    rosters listing the same fiscal codes with the same multiplicities, in
    whatever order, get the same FamilyUID, and the function returns (it
    does not throw). *)
Theorem generateFamilyUID_order_independent (r1 r2 : Hash.FamilyMembers) :
  same_fiscal_code_list r1 r2 →
  Hash.generateFamilyUID r1 = Hash.generateFamilyUID r2
  ∧ ∃ uid, Hash.generateFamilyUID r1 = Returned uid.
Proof.
  intros Hperm. rewrite !generateFamilyUID_digest. split; [|by eexists].
  do 3 f_equal. by apply (Array_sort_canonical Js.localeCompare).
Qed.

Lemma generateFamilyUID_order_independent_witness :
  same_fiscal_code_list [mario; chiara] [chiara; mario]
  ∧ Hash.generateFamilyUID [mario; chiara]
    = Hash.generateFamilyUID [chiara; mario].
Proof.
  assert (H : same_fiscal_code_list [mario; chiara] [chiara; mario])
    by (unfold same_fiscal_code_list; simpl; apply perm_swap).
  split; [exact H|].
  exact (proj1 (generateFamilyUID_order_independent _ _ H)).
Defined.

(** ** The compensation handler *)

Section compensation.
Context {W : Type}.
Variable decode : JsValue → list string + BonusActivationWithFamilyUID.t.
Variable bam : BonusActivationModel.t W.
Variable blm : BonusLeaseModel.t W.
Variable ecm : EligibilityCheckModel.t W.

Import FailedBonusActivation.

Lemma spied_deleteOneById documentId w log :
  EligibilityCheckModel.deleteOneById (Spy.eligibilityCheckModel ecm)
    documentId (w, log)
  = let '(s, w') := EligibilityCheckModel.deleteOneById ecm documentId w in
    (s, (w', log ++ [Step.deleteEligibility ecm documentId])).
Proof.
  unfold EligibilityCheckModel.deleteOneById, Step.deleteEligibility. simpl.
  destruct (DocumentDb.deleteDocument _ _ _ w) as [[err|] w']; reflexivity.
Qed.

Lemma fromQueryEither_run {V R} (p : Promise V (DocumentDb.QueryError + R)) v :
  fromQueryEither p v = (query_result (p v).1, (p v).2).
Proof.
  unfold fromQueryEither, TE.chain, TE.tryCatch, TE.mapLeft, TE.fromEither.
  destruct (p v) as [[[q|r]|reason] v']; reflexivity.
Qed.

(** Every run of the handler on a decodable input, by cases on how the
    three store calls settle. *)
Lemma handler_run input ba w :
  FailedBonusActivationInput_decode decode input = inr ba →
  FailedBonusActivationHandler decode (Spy.bonusActivationModel bam)
    (Spy.bonusLeaseModel blm) (Spy.eligibilityCheckModel ecm) input (w, [])
  = let id := BonusActivationWithFamilyUID.id ba in
    let c1 := Step.deleteEligibility ecm id in
    let c2 := Step.upsertFailed ba in
    let '(s1, w1) := EligibilityCheckModel.deleteOneById ecm id w in
    match query_result s1 with
    | inl _ => (Thrown "transient failure", (w1, [c1]))
    | inr _ =>
        let '(s2, w2) :=
          BonusActivationModel.createOrUpdate bam (Step.bonusToUpdate ba)
            id w1 in
        match query_result s2 with
        | inl e => (Returned (UNHANDLED_FAILURE (message e)), (w2, [c1; c2]))
        | inr retrieved =>
            let uid := RetrievedBonusActivation.familyUID retrieved in
            let c3 := Step.releaseLease uid in
            let '(s3, w3) := BonusLeaseModel.deleteOneById blm uid w2 in
            match query_result s3 with
            | inl e =>
                (Returned
                   (UNHANDLED_FAILURE
                      ("Error releasing lock: " +:+ message e)),
                 (w3, [c1; c2; c3]))
            | inr _ => (Returned SUCCESS, (w3, [c1; c2; c3]))
            end
        end
    end.
Proof.
  intros Hdec.
  unfold FailedBonusActivationHandler, deleteEligibilityCheck,
    updateBonusAsFailed, relaseLockForUserFamily.
  unfold TE.mapTask, TE.fold, TE.chain, TE.of_, TE.map, TE.mapLeft,
    TE.bimap, TE.fromEither.
  rewrite Hdec. cbn beta iota.
  rewrite fromQueryEither_run, spied_deleteOneById.
  destruct (EligibilityCheckModel.deleteOneById ecm _ w) as [s1 w1].
  cbn [fst snd]. destruct (query_result s1) as [e1|r1]; [reflexivity|].
  rewrite fromQueryEither_run. cbn.
  fold (Step.bonusToUpdate ba).
  destruct (BonusActivationModel.createOrUpdate bam _ _ w1) as [s2 w2].
  cbn [fst snd]. destruct (query_result s2) as [e2|r2]; [reflexivity|].
  rewrite fromQueryEither_run. cbn.
  destruct (BonusLeaseModel.deleteOneById blm _ w2) as [s3 w3].
  cbn [fst snd]. destruct (query_result s3) as [e3|r3]; reflexivity.
Qed.
End compensation.

(** X19: on a decodable input the compensation handler calls the store
    in the fixed order (delete the eligibility record, upsert the
    activation, release the lease) and stops at the first call that
    fails: a failure of the first call is classified TRANSIENT and is
    thrown ("transient failure") with no further call made; a failure of
    the second is returned as UNHANDLED_FAILURE with the lease left alone;
    a failure of the third is returned as UNHANDLED_FAILURE; SUCCESS is
    returned only after the three calls went through.  The document that
    is upserted is the input activation with its status set to FAILED and
    its kind to INewBonusActivation, every other field kept, under the
    activation's id as partition key. *)
Theorem compensation_calls_in_order {W : Type}
    (decode : JsValue → list string + BonusActivationWithFamilyUID.t)
    (bam : BonusActivationModel.t W) (blm : BonusLeaseModel.t W)
    (ecm : EligibilityCheckModel.t W) (input : JsValue)
    (ba : BonusActivationWithFamilyUID.t) (w : W) :
  FailedBonusActivation.FailedBonusActivationInput_decode decode input
  = inr ba →
  let run :=
    FailedBonusActivation.FailedBonusActivationHandler decode
      (Spy.bonusActivationModel bam) (Spy.bonusLeaseModel blm)
      (Spy.eligibilityCheckModel ecm) input (w, []) in
  let id := BonusActivationWithFamilyUID.id ba in
  let c1 := Step.deleteEligibility ecm id in
  let c2 := Step.upsertFailed ba in
  run
  = (let '(s1, w1) := EligibilityCheckModel.deleteOneById ecm id w in
     match query_result s1 with
     | inl _ => (Thrown "transient failure", (w1, [c1]))
     | inr _ =>
         let '(s2, w2) :=
           BonusActivationModel.createOrUpdate bam (Step.bonusToUpdate ba)
             id w1 in
         match query_result s2 with
         | inl e =>
             (Returned (FailedBonusActivation.UNHANDLED_FAILURE (message e)),
              (w2, [c1; c2]))
         | inr retrieved =>
             let uid := RetrievedBonusActivation.familyUID retrieved in
             let c3 := Step.releaseLease uid in
             let '(s3, w3) := BonusLeaseModel.deleteOneById blm uid w2 in
             match query_result s3 with
             | inl e =>
                 (Returned
                    (FailedBonusActivation.UNHANDLED_FAILURE
                       ("Error releasing lock: " +:+ message e)),
                  (w3, [c1; c2; c3]))
             | inr _ =>
                 (Returned FailedBonusActivation.SUCCESS, (w3, [c1; c2; c3]))
             end
         end
     end)
  ∧ (run.1 = Returned FailedBonusActivation.SUCCESS →
     ∃ uid, run.2.2 = [c1; c2; Step.releaseLease uid])
  ∧ run.1 ≠ Returned FailedBonusActivation.TRANSIENT
  ∧ (∀ document partitionKey,
       Spy.CreateOrUpdate document partitionKey ∈ run.2.2 →
       partitionKey = id
       ∧ NewBonusActivation.kind document = "INewBonusActivation"
       ∧ BonusActivationWithFamilyUID.status
           (NewBonusActivation.fields document) = FAILED
       ∧ BonusActivationWithFamilyUID.id
           (NewBonusActivation.fields document) = id
       ∧ BonusActivationWithFamilyUID.applicantFiscalCode
           (NewBonusActivation.fields document)
         = BonusActivationWithFamilyUID.applicantFiscalCode ba
       ∧ BonusActivationWithFamilyUID.createdAt
           (NewBonusActivation.fields document)
         = BonusActivationWithFamilyUID.createdAt ba
       ∧ BonusActivationWithFamilyUID.dsuRequest
           (NewBonusActivation.fields document)
         = BonusActivationWithFamilyUID.dsuRequest ba
       ∧ BonusActivationWithFamilyUID.familyUID
           (NewBonusActivation.fields document)
         = BonusActivationWithFamilyUID.familyUID ba).
Proof.
  intros Hdec run id c1 c2.
  pose proof (handler_run decode bam blm ecm input ba w Hdec) as Hrun.
  fold run in Hrun. cbn zeta in Hrun. fold id c1 c2 in Hrun.
  split; [exact Hrun|]. rewrite Hrun. clear Hrun run.
  assert (Hupsert : ∀ (calls : list Spy.Call) document partitionKey,
    (calls = [c1] ∨ calls = [c1; c2]
     ∨ ∃ u, calls = [c1; c2; Step.releaseLease u]) →
    Spy.CreateOrUpdate document partitionKey ∈ calls →
    partitionKey = id
    ∧ NewBonusActivation.kind document = "INewBonusActivation"
    ∧ BonusActivationWithFamilyUID.status
        (NewBonusActivation.fields document) = FAILED
    ∧ BonusActivationWithFamilyUID.id
        (NewBonusActivation.fields document) = id
    ∧ BonusActivationWithFamilyUID.applicantFiscalCode
        (NewBonusActivation.fields document)
      = BonusActivationWithFamilyUID.applicantFiscalCode ba
    ∧ BonusActivationWithFamilyUID.createdAt
        (NewBonusActivation.fields document)
      = BonusActivationWithFamilyUID.createdAt ba
    ∧ BonusActivationWithFamilyUID.dsuRequest
        (NewBonusActivation.fields document)
      = BonusActivationWithFamilyUID.dsuRequest ba
    ∧ BonusActivationWithFamilyUID.familyUID
        (NewBonusActivation.fields document)
      = BonusActivationWithFamilyUID.familyUID ba).
  { intros calls document partitionKey Hcalls Hin.
    assert (Heq : Spy.CreateOrUpdate document partitionKey = c2).
    { unfold c1, Step.deleteEligibility, Step.releaseLease in Hcalls.
      destruct Hcalls as [->|[->|[u ->]]];
        rewrite !elem_of_cons, elem_of_nil in Hin;
        intuition (try discriminate; done). }
    unfold c2, Step.upsertFailed in Heq. injection Heq as -> ->.
    repeat split. }
  destruct (EligibilityCheckModel.deleteOneById ecm id w) as [s1 w1].
  destruct (query_result s1).
  { split; [done|]. split; [done|]. intros document pk Hin.
    apply (Hupsert _ _ _ (or_introl eq_refl) Hin). }
  destruct (BonusActivationModel.createOrUpdate bam _ id w1) as [s2 w2].
  destruct (query_result s2) as [e|retrieved].
  { split; [done|]. split; [done|]. intros document pk Hin.
    apply (Hupsert _ _ _ (or_intror (or_introl eq_refl)) Hin). }
  destruct (BonusLeaseModel.deleteOneById blm _ w2) as [s3 w3].
  destruct (query_result s3).
  - split; [done|]. split; [done|]. intros document pk Hin.
    apply (Hupsert _ _ _ (or_intror (or_intror (ex_intro _ _ eq_refl))) Hin).
  - split; [intros _; by eexists|]. split; [done|]. intros document pk Hin.
    apply (Hupsert _ _ _ (or_intror (or_intror (ex_intro _ _ eq_refl))) Hin).
Qed.

(** A store in which a document also sits under the bonus code in the
    eligibility collection, so that the three calls all go through: the
    second writes the mock activation, ACTIVE on input, as FAILED. *)
Lemma compensation_calls_in_order_witness :
  FailedBonusActivation.FailedBonusActivationInput_decode sample_decode
    aFailedBonusActivationInput
  = inr aBonusActivationWithFamilyUID
  ∧ BonusActivationWithFamilyUID.status aBonusActivationWithFamilyUID = ACTIVE
  ∧ ∀ document partitionKey,
      Spy.CreateOrUpdate document partitionKey
      ∈ (FailedBonusActivation.FailedBonusActivationHandler sample_decode
           (Spy.bonusActivationModel Memory.bonusActivationModel)
           (Spy.bonusLeaseModel Memory.bonusLeaseModel)
           (Spy.eligibilityCheckModel Memory.eligibilityCheckModel)
           aFailedBonusActivationInput
           (<[DocumentDb.getDocumentUri Memory.eligibilityChecks aBonusId
                := Memory.EligibilityCheckDoc aBonusId]> aStore, [])).2.2 →
      BonusActivationWithFamilyUID.status (NewBonusActivation.fields document)
      = FAILED.
Proof.
  assert (H : FailedBonusActivation.FailedBonusActivationInput_decode
                sample_decode aFailedBonusActivationInput
              = inr aBonusActivationWithFamilyUID) by reflexivity.
  split; [exact H|]. split; [reflexivity|].
  intros document partitionKey Hin.
  exact (proj1 (proj2 (proj2
    (proj2 (proj2 (proj2 (compensation_calls_in_order sample_decode
      Memory.bonusActivationModel Memory.bonusLeaseModel
      Memory.eligibilityCheckModel aFailedBonusActivationInput
      aBonusActivationWithFamilyUID _ H))) document partitionKey Hin)))).
Defined.

Example compensation_happy_path :
  let run :=
    FailedBonusActivation.FailedBonusActivationHandler sample_decode
      (Spy.bonusActivationModel Memory.bonusActivationModel)
      (Spy.bonusLeaseModel Memory.bonusLeaseModel)
      (Spy.eligibilityCheckModel Memory.eligibilityCheckModel)
      aFailedBonusActivationInput
      (<[DocumentDb.getDocumentUri Memory.eligibilityChecks aBonusId
           := Memory.EligibilityCheckDoc aBonusId]> aStore, []) in
  run.1 = Returned FailedBonusActivation.SUCCESS
  ∧ run.2.2
    = [ Spy.DeleteDocument "dbs/db/colls/eligibility-checks/docs/AAAAAAAAAAAA"
          "AAAAAAAAAAAA";
        Step.upsertFailed aBonusActivationWithFamilyUID;
        Spy.LeaseDeleteOneById "aFamilyUid" ]
  ∧ run.2.1 !! DocumentDb.getDocumentUri Memory.bonusLeases aFamilyUID = None.
Proof. vm_compute. repeat split. Qed.

(** C1 (the code departs from the claim): the first step asks the store
    to delete the document whose id is the bonus code of the activation,
    [bonusActivation.id], not the record kept under the requester's
    fiscal code.  On the mock activation the requester's record is still
    there afterwards, and the missing document under the bonus code makes
    the step fail (TRANSIENT, thrown) rather than succeed. *)
Theorem eligibility_record_deleted_under_bonus_code :
  let run :=
    FailedBonusActivation.FailedBonusActivationHandler sample_decode
      (Spy.bonusActivationModel Memory.bonusActivationModel)
      (Spy.bonusLeaseModel Memory.bonusLeaseModel)
      (Spy.eligibilityCheckModel Memory.eligibilityCheckModel)
      aFailedBonusActivationInput (aStore, []) in
  BonusActivationWithFamilyUID.applicantFiscalCode aBonusActivationWithFamilyUID
  = "AAABBB80A01C123D"
  ∧ run.2.2
    = [ Spy.DeleteDocument "dbs/db/colls/eligibility-checks/docs/AAAAAAAAAAAA"
          "AAAAAAAAAAAA" ]
  ∧ run.2.1 !! DocumentDb.getDocumentUri Memory.eligibilityChecks
                "AAABBB80A01C123D"
    = Some (Memory.EligibilityCheckDoc "AAABBB80A01C123D")
  ∧ run.1 = Thrown "transient failure".
Proof. vm_compute. repeat split. Qed.

(** Whatever the store, the document the first step deletes is named by
    the bonus code. *)
Lemma first_step_targets_bonus_code {W : Type}
    (decode : JsValue → list string + BonusActivationWithFamilyUID.t)
    (bam : BonusActivationModel.t W) (blm : BonusLeaseModel.t W)
    (ecm : EligibilityCheckModel.t W) input ba w :
  FailedBonusActivation.FailedBonusActivationInput_decode decode input
  = inr ba →
  head (FailedBonusActivation.FailedBonusActivationHandler decode
          (Spy.bonusActivationModel bam) (Spy.bonusLeaseModel blm)
          (Spy.eligibilityCheckModel ecm) input (w, [])).2.2
  = Some (Step.deleteEligibility ecm (BonusActivationWithFamilyUID.id ba)).
Proof.
  intros Hdec. rewrite (handler_run decode bam blm ecm input ba w Hdec).
  cbn zeta.
  destruct (EligibilityCheckModel.deleteOneById ecm _ w) as [s1 w1].
  destruct (query_result s1); [done|].
  destruct (BonusActivationModel.createOrUpdate bam _ _ w1) as [s2 w2].
  destruct (query_result s2) as [e|retrieved]; [done|].
  destruct (BonusLeaseModel.deleteOneById blm _ w2) as [s3 w3].
  by destruct (query_result s3).
Qed.

(** The release step, for every lease model: it succeeds exactly when the
    model's [deleteOneById] resolves to a right value, and every other
    settlement, whatever the error, becomes an UNHANDLED_FAILURE. *)
Lemma relaseLockForUserFamily_run {W : Type} (blm : BonusLeaseModel.t W)
    (familyUID : Hash.FamilyUID) (w : W) :
  FailedBonusActivation.relaseLockForUserFamily blm familyUID w
  = let '(s, w') := BonusLeaseModel.deleteOneById blm familyUID w in
    match query_result s with
    | inl e =>
        (inl (FailedBonusActivation.UNHANDLED_FAILURE
                ("Error releasing lock: " +:+ message e)), w')
    | inr _ => (inr familyUID, w')
    end.
Proof.
  unfold FailedBonusActivation.relaseLockForUserFamily, TE.bimap.
  rewrite fromQueryEither_run.
  destruct (BonusLeaseModel.deleteOneById blm familyUID w) as [s w'].
  cbn [fst snd]. by destruct (query_result s).
Qed.

(** C3: the release step of the compensation over the lease store.
    Releasing the lease of a family that holds none is a success and
    leaves the store as it was; releasing a lease that is held succeeds
    and removes it, so that a second release succeeds as well; and the
    step answers UNHANDLED_FAILURE only when the store itself reported an
    error other than the absence of the lease. *)
Theorem release_of_absent_lease_is_success :
  (∀ (familyUID : Hash.FamilyUID) (store : Memory.Store),
     let release :=
       FailedBonusActivation.relaseLockForUserFamily BonusLease.memory
         familyUID in
     let uri := DocumentDb.getDocumentUri Memory.bonusLeases familyUID in
     (store !! uri = None → release store = (inr familyUID, store))
     ∧ release store = (inr familyUID, delete uri store)
     ∧ release (release store).2 = (inr familyUID, (release store).2))
  ∧ (∀ (W : Type) (dbClient : DocumentDb.DocumentClient W)
       (collectionUri : string)
       (find : string → string →
               Promise W
                 (DocumentDb.QueryError + option RetrievedBonusLease.t))
       (familyUID : Hash.FamilyUID) (w : W),
       let release :=
         FailedBonusActivation.relaseLockForUserFamily
           (BonusLease.model dbClient collectionUri find) familyUID in
       let answer :=
         DocumentDb.deleteDocument dbClient
           (DocumentDb.getDocumentUri collectionUri familyUID)
           {| DocumentDb.partitionKey := familyUID |} w in
       (release w).2 = answer.2
       ∧ ((release w).1 = inr familyUID
          ↔ answer.1 = None
            ∨ ∃ err, answer.1 = Some err ∧ DocumentDb.code err = 404%Z)
       ∧ ((∃ reason,
             (release w).1
             = inl (FailedBonusActivation.UNHANDLED_FAILURE reason))
          ↔ ∃ err, answer.1 = Some err ∧ DocumentDb.code err ≠ 404%Z)).
Proof.
  split.
  - intros familyUID store release uri.
    assert (Hrelease : release store = (inr familyUID, delete uri store)).
    { unfold release. rewrite relaseLockForUserFamily_run.
      unfold BonusLease.memory, BonusLease.model, BonusLease.deleteOneById.
      cbn [BonusLeaseModel.deleteOneById DocumentDb.deleteDocument
           Memory.client].
      fold uri. destruct (store !! uri) as [doc|] eqn:Hlookup.
      - reflexivity.
      - cbn. by rewrite delete_id. }
    split; [|split].
    + intros Hnone. rewrite Hrelease. by rewrite delete_id.
    + exact Hrelease.
    + rewrite Hrelease. cbn [snd]. unfold release.
      rewrite relaseLockForUserFamily_run.
      unfold BonusLease.memory, BonusLease.model, BonusLease.deleteOneById.
      cbn [BonusLeaseModel.deleteOneById DocumentDb.deleteDocument
           Memory.client].
      fold uri. by rewrite lookup_delete_eq.
  - intros W dbClient collectionUri find familyUID w release answer.
    unfold release. rewrite relaseLockForUserFamily_run.
    unfold BonusLease.model, BonusLease.deleteOneById,
      BonusLease.is_not_found.
    cbn [BonusLeaseModel.deleteOneById]. fold answer.
    destruct answer as [[err|] w']; cbn [fst snd].
    + destruct (DocumentDb.code err =? 404)%Z eqn:Hcode;
        [apply Z.eqb_eq in Hcode|apply Z.eqb_neq in Hcode]; cbn.
      * split; [reflexivity|]. split.
        -- split; [|done]. intros _. right. by exists err.
        -- split; [intros [reason ?]; discriminate|].
           intros (err' & ? & ?). by simplify_eq.
      * split; [reflexivity|]. split.
        -- split; [discriminate|].
           intros [?|(err' & ? & ?)]; [discriminate|by simplify_eq].
        -- split; [|by eexists]. intros _. by exists err.
    + cbn. split; [reflexivity|]. split.
      * split; [|done]. intros _. by left.
      * split; [intros [reason ?]; discriminate|].
        intros (err' & ? & ?). discriminate.
Qed.

(** The two cases on concrete stores: no lease to release, and a store
    that cannot be reached. *)
Example release_on_sample_stores :
  FailedBonusActivation.relaseLockForUserFamily BonusLease.memory aFamilyUID
    (∅ : Memory.Store)
  = (inr aFamilyUID, ∅)
  ∧ FailedBonusActivation.relaseLockForUserFamily
      (BonusLease.model BonusLease.unavailable Memory.bonusLeases
         (BonusLeaseModel.find Memory.bonusLeaseModel))
      aFamilyUID aStore
    = (inl (FailedBonusActivation.UNHANDLED_FAILURE
              "Error releasing lock: [object Object]"), aStore).
Proof. split; reflexivity. Qed.

(** ** The orchestrator *)

Section orchestrator.
Import Orchestrator.
Context {H : Type}.
Variable FiscalCode_is : string → bool.
Variable Failure_is : JsValue → bool.
Variable host : Host H.

Lemma run_yield {R} task (rest : JsValue → Generator R) h :
  run host (yield_ task rest) h
  = let '(r, h') := host task h in
    match r with
    | Returned x =>
        let '(trace, out, h'') := run host (rest x) h' in
        (task :: trace, out, h'')
    | Thrown e => ([task], Thrown e, h')
    end.
Proof.
  unfold yield_. simpl. destruct (host task h) as [[x|e] h']; reflexivity.
Qed.

(** Every run of the orchestrator on a decodable input, by cases on the
    answers of the host. *)
Lemma handler_trace input value h :
  OrchestratorInput_decode FiscalCode_is input = inr value →
  run host (handler FiscalCode_is Failure_is input) h
  = let send :=
      callActivityWithRetry "SendBonusActivationActivity" retryOptions
        value in
    let unlock :=
      callActivity "UnlockBonusActivationActivity"
        (Value.prop value "familyUID") in
    let '(r1, h1) := host send h in
    match r1 with
    | Thrown e => ([send], Thrown e, h1)
    | Returned sent =>
        let branch :=
          callActivity
            (if Failure_is sent then "FailedBonusActivationActivity"
             else "SuccessBonusActivationActivity") value in
        let '(r2, h2) := host branch h1 in
        match r2 with
        | Thrown e => ([send; branch], Thrown e, h2)
        | Returned _ =>
            let '(r3, h3) := host unlock h2 in
            ([send; branch; unlock],
             match r3 with
             | Returned _ => Returned true
             | Thrown e => Thrown e
             end, h3)
        end
    end.
Proof.
  intros Hdec. unfold handler. rewrite Hdec. rewrite run_yield. cbn zeta.
  destruct (host _ h) as [[sent|e] h1]; [|reflexivity].
  destruct (Failure_is sent); rewrite run_yield;
    (destruct (host _ h1) as [[x|e] h2]; [|reflexivity]);
    rewrite run_yield; destruct (host _ h2) as [[y|e] h3]; reflexivity.
Qed.
End orchestrator.

(** C2, as stated, fails: on a decodable input, when the send activity
    ends in a fault (its retries exhausted) the orchestrator ends with
    that fault and never asks for the lease to be released. *)
Lemma lease_release_not_unconditional :
  let '(trace, out, _) :=
    Orchestrator.run Orchestrator.faulting_host
      (Orchestrator.handler Orchestrator.sample_FiscalCode_is
         Orchestrator.sample_Failure_is Orchestrator.anOrchestratorInput) tt in
  Orchestrator.OrchestratorInput_decode Orchestrator.sample_FiscalCode_is
    Orchestrator.anOrchestratorInput
  = inr Orchestrator.anOrchestratorInput
  ∧ Orchestrator.unlocks trace = 0
  ∧ out = Thrown "Activity function 'SendBonusActivationActivity' failed".
Proof. vm_compute. repeat split. Qed.

(** C2 (amended): on a decodable input, if neither the send activity nor
    the activity of the branch taken (failed or success) ends in a fault,
    the orchestrator asks for the release of the family's lease exactly
    once, as its last task, whichever branch was taken, and returns
    [true] once the release completed.  If one of the two ends in a
    fault, the orchestrator ends with that fault and no release is asked
    for. *)
Theorem lease_released_once_when_activities_complete {H : Type}
    (FiscalCode_is : string → bool) (Failure_is : JsValue → bool)
    (host : Orchestrator.Host H) (input value : JsValue) (h : H) :
  Orchestrator.OrchestratorInput_decode FiscalCode_is input = inr value →
  let send :=
    Orchestrator.callActivityWithRetry "SendBonusActivationActivity"
      Orchestrator.retryOptions value in
  let branch sent :=
    Orchestrator.callActivity
      (if Failure_is sent then "FailedBonusActivationActivity"
       else "SuccessBonusActivationActivity") value in
  let unlock :=
    Orchestrator.callActivity "UnlockBonusActivationActivity"
      (Value.prop value "familyUID") in
  let '(trace, out, _) :=
    Orchestrator.run host (Orchestrator.handler FiscalCode_is Failure_is input)
      h in
  match host send h with
  | (Thrown e, _) =>
      trace = [send] ∧ Orchestrator.unlocks trace = 0 ∧ out = Thrown e
  | (Returned sent, h1) =>
      match host (branch sent) h1 with
      | (Thrown e, _) =>
          trace = [send; branch sent] ∧ Orchestrator.unlocks trace = 0
          ∧ out = Thrown e
      | (Returned _, h2) =>
          trace = [send; branch sent; unlock]
          ∧ Orchestrator.unlocks trace = 1
          ∧ (out = Returned true ↔ is_returned (host unlock h2).1 = true)
      end
  end.
Proof.
  intros Hdec send branch unlock.
  rewrite (handler_trace FiscalCode_is Failure_is host input value h Hdec).
  cbn zeta. fold send unlock.
  destruct (host send h) as [[sent|e] h1]; [|by repeat split].
  unfold branch. clear branch.
  destruct (Failure_is sent);
    (destruct (host _ h1) as [[x|e] h2];
     [destruct (host unlock h2) as [[y|e] h3]|]).
  all: split; [reflexivity|]. all: split; [reflexivity|].
  all: try reflexivity.
  all: simpl; split; intros; try reflexivity; discriminate.
Qed.

Lemma lease_released_once_when_activities_complete_witness :
  Orchestrator.OrchestratorInput_decode Orchestrator.sample_FiscalCode_is
    Orchestrator.anOrchestratorInput
  = inr Orchestrator.anOrchestratorInput
  ∧ Orchestrator.unlocks
      (Orchestrator.run Orchestrator.completing_host
         (Orchestrator.handler Orchestrator.sample_FiscalCode_is
            Orchestrator.sample_Failure_is Orchestrator.anOrchestratorInput)
         tt).1.1
    = 1.
Proof.
  assert (Hdec : Orchestrator.OrchestratorInput_decode
                   Orchestrator.sample_FiscalCode_is
                   Orchestrator.anOrchestratorInput
                 = inr Orchestrator.anOrchestratorInput) by reflexivity.
  split; [exact Hdec|].
  pose proof (lease_released_once_when_activities_complete
                Orchestrator.sample_FiscalCode_is
                Orchestrator.sample_Failure_is Orchestrator.completing_host
                Orchestrator.anOrchestratorInput
                Orchestrator.anOrchestratorInput tt Hdec) as Hthm.
  cbn zeta in Hthm.
  destruct (Orchestrator.run _ _ tt) as [[trace out] h'].
  simpl in Hthm. exact (proj1 (proj2 Hthm)).
Defined.

(** ** The compensation, as the orchestrator calls it *)


(** Whatever the host: once the send activity reported a failure, a fault
    of the compensation activity ends the orchestration; the activity was
    asked for once, by a plain callActivity. *)
Lemma failed_activity_fault_ends_orchestration {H : Type}
    (FiscalCode_is : string → bool) (Failure_is : JsValue → bool)
    (host : Orchestrator.Host H) (input value sent : JsValue) (h h1 h2 : H)
    (e : string) :
  Orchestrator.OrchestratorInput_decode FiscalCode_is input = inr value →
  host (Orchestrator.callActivityWithRetry "SendBonusActivationActivity"
          Orchestrator.retryOptions value) h
  = (Returned sent, h1) →
  Failure_is sent = true →
  host (Orchestrator.callActivity "FailedBonusActivationActivity" value) h1
  = (Thrown e, h2) →
  Orchestrator.run host (Orchestrator.handler FiscalCode_is Failure_is input) h
  = ([ Orchestrator.callActivityWithRetry "SendBonusActivationActivity"
         Orchestrator.retryOptions value;
       Orchestrator.callActivity "FailedBonusActivationActivity" value ],
     Thrown e, h2).
Proof.
  intros Hdec Hsend Hfailure Hfailed.
  rewrite (handler_trace FiscalCode_is Failure_is host input value h Hdec).
  cbn zeta. rewrite Hsend, Hfailure, Hfailed. reflexivity.
Qed.

(** ** [serializeBonus] *)

Lemma Array_sort_localeCompare_sorted (l : list string) :
  StronglySorted String.le (Js.Array_sort Js.localeCompare l).
Proof.
  generalize (Array_sort_StronglySorted Js.localeCompare l).
  induction 1 as [|x l' Hl IH Hx]; constructor; [done|].
  eapply Forall_impl; [exact Hx|]. intros y. apply localeCompare_before.
Qed.

Lemma Array_join_cons x l :
  Js.Array_join "" (x :: l) = x +:+ Js.Array_join "" l.
Proof. by rewrite !Array_join_empty_sep. Qed.

Example serializeBonus_sample :
  AdeClient.serializeBonus AdeClient.aBonusVacanza
  = Returned
      ("AAABBB80A01C123DAAAAAAAAAAAA2502020-07-01T00:00:00.123Z0"
       +:+ "AAABBB80A01C123DCCCDDD80A01C123D").
Proof. vm_compute. reflexivity. Qed.

Lemma serializeBonus_run (bv : AdeClient.ApiBonusVacanzaWithoutMac) :
  AdeClient.serializeBonus bv
  = match AdeClient.nucleoFamiliare bv with
    | Some members =>
        Returned
          (AdeClient.codiceFiscaleDichiarante bv
           +:+ AdeClient.codiceBuono bv
           +:+ Js.Number_toString (AdeClient.importoMassimo bv)
           +:+ Js.Date_toISOString (AdeClient.dataGenerazione bv)
           +:+ Js.Number_toString (AdeClient.flagDifformita bv)
           +:+ foldr String.app ""
                 (Js.Array_sort Js.localeCompare
                    (map AdeClient.codiceFiscale members)))
    | None => Thrown "TypeError: undefined is not iterable"
    end.
Proof.
  unfold AdeClient.serializeBonus, AdeClient.sortedFamilyCodes.
  destruct (AdeClient.nucleoFamiliare bv) as [members|]; [|reflexivity].
  change ([?a; ?b; ?c; ?d; ?e] ++ ?l) with (a :: b :: c :: d :: e :: l).
  rewrite !Array_join_cons. by rewrite Array_join_empty_sep.
Qed.

(** C8 (the code departs from the claim): on a bonus whose list of
    family members is missing the optional chain gives [undefined], the
    spread of [undefined] throws, and no string is returned, where the
    claim has the five leading fields concatenated. *)
Theorem serializeBonus_throws_without_family :
  AdeClient.nucleoFamiliare AdeClient.aBonusVacanzaWithoutFamily = None
  ∧ is_returned (AdeClient.serializeBonus AdeClient.aBonusVacanzaWithoutFamily)
    = false
  ∧ ∀ s, AdeClient.serializeBonus AdeClient.aBonusVacanzaWithoutFamily
         ≠ Returned s.
Proof. split; [reflexivity|]. split; [reflexivity|]. intros s. discriminate. Qed.

(** X20: for every bonus whose list of family members is present,
    serializeBonus returns the concatenation, with nothing in between, of
    the applicant's fiscal code, the bonus code, the maximum
    amount in decimal, the generation date as an ISO-8601 string, the
    discrepancy flag in decimal, and the fiscal codes of the family members
    in lexicographic order (a sorted rearrangement of the members'
    codes). *)
Theorem serializeBonus_is_ordered_concatenation
    (bv : AdeClient.ApiBonusVacanzaWithoutMac)
    (members : list AdeClient.NucleoFamiliareElem) :
  AdeClient.nucleoFamiliare bv = Some members →
  ∃ sorted : list string,
    StronglySorted String.le sorted
    ∧ sorted ≡ₚ map AdeClient.codiceFiscale members
    ∧ AdeClient.serializeBonus bv
      = Returned
          (AdeClient.codiceFiscaleDichiarante bv
           +:+ AdeClient.codiceBuono bv
           +:+ Js.Number_toString (AdeClient.importoMassimo bv)
           +:+ Js.Date_toISOString (AdeClient.dataGenerazione bv)
           +:+ Js.Number_toString (AdeClient.flagDifformita bv)
           +:+ foldr String.app "" sorted).
Proof.
  intros Hmembers.
  exists (Js.Array_sort Js.localeCompare
            (map AdeClient.codiceFiscale members)).
  split; [apply Array_sort_localeCompare_sorted|].
  split; [apply Array_sort_Permutation|].
  by rewrite serializeBonus_run, Hmembers.
Qed.

Lemma serializeBonus_is_ordered_concatenation_witness :
  AdeClient.nucleoFamiliare AdeClient.aBonusVacanza
  = Some [ {| AdeClient.codiceFiscale := anotherFiscalCode |};
           {| AdeClient.codiceFiscale := aFiscalCode |} ]
  ∧ ∃ sorted : list string,
      StronglySorted String.le sorted
      ∧ sorted ≡ₚ [anotherFiscalCode; aFiscalCode]
      ∧ AdeClient.serializeBonus AdeClient.aBonusVacanza
        = Returned
            (aFiscalCode +:+ aBonusId +:+ Js.Number_toString 250
             +:+ Js.Date_toISOString 1593561600123 +:+ Js.Number_toString 0
             +:+ foldr String.app "" sorted).
Proof.
  assert (H : AdeClient.nucleoFamiliare AdeClient.aBonusVacanza
              = Some [ {| AdeClient.codiceFiscale := anotherFiscalCode |};
                       {| AdeClient.codiceFiscale := aFiscalCode |} ])
    by reflexivity.
  split; [exact H|].
  exact (serializeBonus_is_ordered_concatenation AdeClient.aBonusVacanza _ H).
Defined.

(** ** The grant request executor *)

Section error_codes.
Variable BonusVacanzaError_is : JsValue → bool.

(** The two groups of [adeClient.ts], by error code. *)
Lemma BonusVacanzaTransientError_codes v :
  AdeClient.BonusVacanzaTransientError_is BonusVacanzaError_is v = true
  ↔ BonusVacanzaError_is v = true
    ∧ ∃ code, code ∈ ["4000"; "3000"]
              ∧ AdeClient.errorCode_is code v = true.
Proof.
  unfold AdeClient.BonusVacanzaTransientError_is,
    AdeClient.BonusVacanzaGenericError_is,
    AdeClient.BonusVacanzaApplicationGenericError_is.
  rewrite !orb_true_iff, !andb_true_iff. split.
  - intros [[? ?]|[? ?]]; (split; [done|]); eexists; split; try eassumption;
      set_solver.
  - intros [? (code & Hin & ?)].
    rewrite !elem_of_cons, elem_of_nil in Hin.
    destruct Hin as [->|[->|[]]]; tauto.
Qed.

Lemma BonusVacanzaInvalidRequestError_codes v :
  AdeClient.BonusVacanzaInvalidRequestError_is BonusVacanzaError_is v = true
  ↔ BonusVacanzaError_is v = true
    ∧ ∃ code, code ∈ ["1000"; "1005"; "900"; "907"; "908"]
              ∧ AdeClient.errorCode_is code v = true.
Proof.
  unfold AdeClient.BonusVacanzaInvalidRequestError_is,
    AdeClient.BonusVacanzaCodeAlreadyPresentError_is,
    AdeClient.BonusVacanzaRequestedByOtherFamilyMemberError_is,
    AdeClient.BonusVacanzaEmptyFamilyError_is,
    AdeClient.BonusVacanzaNoFiscalCodeProvidedProvidedError_is,
    AdeClient.BonusVacanzaNoGenerationDateProvidedProvidedError_is.
  rewrite !orb_true_iff, !andb_true_iff. split.
  - intros [[[[[? ?]|[? ?]]|[? ?]]|[? ?]]|[? ?]]; (split; [done|]);
      eexists; (split; [|eassumption]); set_solver.
  - intros [? (code & Hin & ?)].
    rewrite !elem_of_cons, elem_of_nil in Hin.
    destruct Hin as [->|[->|[->|[->|[->|[]]]]]]; tauto.
Qed.

(** A payload carries one error code: the two groups are disjoint. *)
Lemma errorCode_is_functional c1 c2 v :
  AdeClient.errorCode_is c1 v = true → AdeClient.errorCode_is c2 v = true →
  c1 = c2.
Proof.
  unfold AdeClient.errorCode_is. rewrite !andb_true_iff.
  destruct (Value.prop v "errorCode"); try (intros [_ ?]; discriminate).
  intros [_ H1%String.eqb_eq] [_ H2%String.eqb_eq]. congruence.
Qed.

Lemma transient_not_invalid v :
  AdeClient.BonusVacanzaTransientError_is BonusVacanzaError_is v = true →
  AdeClient.BonusVacanzaInvalidRequestError_is BonusVacanzaError_is v
  = false.
Proof.
  intros Ht. apply not_true_is_false. intros Hi.
  apply BonusVacanzaTransientError_codes in Ht as [_ (c1 & Hc1 & H1)].
  apply BonusVacanzaInvalidRequestError_codes in Hi as [_ (c2 & Hc2 & H2)].
  pose proof (errorCode_is_functional _ _ _ H1 H2) as ->.
  rewrite !elem_of_cons, elem_of_nil in Hc1.
  rewrite !elem_of_cons, elem_of_nil in Hc2.
  destruct Hc1 as [->|[->|[]]];
    destruct Hc2 as [?|[?|[?|[?|[?|[]]]]]]; discriminate.
Qed.
End error_codes.



(** The cases of the activity's test suite. *)
Example send_activity_test_cases :
  let handler :=
    SendBonusActivation.SendBonusActivationHandler
      SendBonusActivation.sample_BonusVacanzaError_is
      SendBonusActivation.sample_GrantConfirmation_is in
  handler (SendBonusActivation.Answered SendBonusActivation.aSuccessResponse)
  = SendBonusActivation.Return
      (SendBonusActivation.Success
         (SendBonusActivation.value SendBonusActivation.aSuccessResponse))
  ∧ handler (SendBonusActivation.Answered
               SendBonusActivation.aTransientResponse)
    = SendBonusActivation.Raise
        (SendBonusActivation.Response_value
           SendBonusActivation.aTransientResponse)
  ∧ handler (SendBonusActivation.Undecodable
               ["value [10] at [root] is not a valid [string]"])
    = SendBonusActivation.Return
        (SendBonusActivation.Failure SendBonusActivation.Unhandled
           (JString
              (Hash.readableReport
                 ["value [10] at [root] is not a valid [string]"])))
  ∧ handler (SendBonusActivation.Failed_ (JString "error message"))
    = SendBonusActivation.Raise (JString "error message").
Proof. repeat split. Qed.

Example unhandled_reason_is_serialized_response :
  Value.JSON_stringify
    (SendBonusActivation.Response_value SendBonusActivation.anUnhandledResponse)
  = "{" +:+ Js.JSON_quote "headers" +:+ ":{}," +:+ Js.JSON_quote "status"
    +:+ ":123," +:+ Js.JSON_quote "value" +:+ ":{" +:+ Js.JSON_quote "foo"
    +:+ ":" +:+ Js.JSON_quote "bar" +:+ "}}".
Proof. vm_compute. reflexivity. Qed.

(** Control characters are escaped as [JSON.stringify] escapes them. *)
Example JSON_escape_control_characters :
  Js.JSON_escape
    (String "010"%char (String "009"%char (String "001"%char
       (String "031"%char (String "092"%char "a")))))
  = String "092"%char "n" +:+ String "092"%char "t"
    +:+ String "092"%char "u0001" +:+ String "092"%char "u001f"
    +:+ String "092"%char (String "092"%char "a").
Proof. vm_compute. reflexivity. Qed.

(** ** Creation of the activation candidate *)

Section creation.
Context {W : Type}.
Variable genRandomBonusCode : W → string * W.
Variable create :
  NewBonusActivation.t →
  Promise W (DocumentDb.QueryError + RetrievedBonusActivation.t).
Variable template : BonusActivationWithFamilyUID.t.

Import StartBonusActivation.

Local Abbreviation spied_run attempts collided world :=
  (createBonusActivation (spied_generator genRandomBonusCode)
     (spied_create create) attempts collided template world).

Lemma attempted_Generated code events :
  attempted (Generated code :: events) = attempted events.
Proof. reflexivity. Qed.

Lemma attempted_CreateCalled document events :
  attempted (CreateCalled document :: events)
  = BonusActivationWithFamilyUID.id (NewBonusActivation.fields document)
    :: attempted events.
Proof. reflexivity. Qed.

Lemma generated_Generated code events :
  generated (Generated code :: events) = code :: generated events.
Proof. reflexivity. Qed.

Lemma generated_CreateCalled document events :
  generated (CreateCalled document :: events) = generated events.
Proof. reflexivity. Qed.

Lemma not_collided_cons id code collided :
  existsb (String.eqb id) (code :: collided) = false →
  id ≠ code ∧ existsb (String.eqb id) collided = false.
Proof.
  simpl. rewrite orb_false_iff. intros [Hne ?]. split; [|done].
  by apply String.eqb_neq.
Qed.

Lemma well_attempted_skip attempts collided code events :
  well_attempted template attempts collided events →
  well_attempted template (S attempts) collided (Generated code :: events).
Proof.
  intros (Hnodup & Hfresh & Hlen & Hgen & Hsub & Hdocs).
  unfold well_attempted.
  rewrite attempted_Generated, generated_Generated.
  split; [done|]. split; [done|]. split; [lia|]. split; [simpl; lia|].
  split; [|by constructor].
  intros id Hin. apply elem_of_cons. right. by apply Hsub.
Qed.

Lemma well_attempted_stop attempts collided code :
  existsb (String.eqb code) collided = false →
  well_attempted template (S attempts) collided
    [Generated code; CreateCalled (candidate template code)].
Proof.
  intros Hcode. unfold well_attempted.
  rewrite attempted_Generated, attempted_CreateCalled, generated_Generated,
    generated_CreateCalled.
  change (attempted []) with (@nil string).
  change (generated []) with (@nil string).
  cbn [candidate NewBonusActivation.fields BonusActivationWithFamilyUID.id].
  split; [apply NoDup_singleton|]. split; [by constructor|].
  split; [simpl; lia|]. split; [simpl; lia|]. split; [done|].
  by repeat constructor.
Qed.

Lemma well_attempted_retry attempts collided code events :
  existsb (String.eqb code) collided = false →
  well_attempted template attempts (code :: collided) events →
  well_attempted template (S attempts) collided
    (Generated code :: CreateCalled (candidate template code) :: events).
Proof.
  intros Hcode (Hnodup & Hfresh & Hlen & Hgen & Hsub & Hdocs).
  unfold well_attempted.
  rewrite attempted_Generated, attempted_CreateCalled, generated_Generated,
    generated_CreateCalled.
  cbn [candidate NewBonusActivation.fields BonusActivationWithFamilyUID.id].
  split.
  { apply NoDup_cons. split; [|done].
    intros Hin. rewrite Forall_forall in Hfresh.
    by destruct (not_collided_cons _ _ _ (Hfresh _ Hin)). }
  split.
  { constructor; [done|].
    eapply Forall_impl; [exact Hfresh|].
    intros id Hid. by destruct (not_collided_cons _ _ _ Hid). }
  split; [simpl; lia|]. split; [simpl; lia|]. split.
  { intros id. rewrite !elem_of_cons. intros [->|Hin]; [by left|].
    right. by apply Hsub. }
  by repeat constructor.
Qed.

Lemma createBonusActivation_never_reuses attempts :
  ∀ collided w log,
    ∃ events,
      (spied_run attempts collided (w, log)).2.2 = log ++ events
      ∧ well_attempted template attempts collided events.
Proof.
  induction attempts as [|attempts IH]; intros collided w log.
  { exists []. rewrite app_nil_r. split; [reflexivity|].
    repeat split; try constructor; done. }
  cbn [createBonusActivation]. unfold spied_generator at 1.
  destruct (genRandomBonusCode w) as [code w1].
  destruct (existsb (String.eqb code) collided) eqn:Hcollided.
  - destruct (IH collided w1 (log ++ [Generated code]))
      as (events & Hlog & Hkept).
    exists (Generated code :: events).
    rewrite Hlog, <- app_assoc. split; [reflexivity|].
    by apply well_attempted_skip.
  - unfold spied_create at 1.
    destruct (create (candidate template code) w1) as [s w2].
    assert (Hstop :
      ∃ events,
        (log ++ [Generated code]) ++ [CreateCalled (candidate template code)]
        = log ++ events
        ∧ well_attempted template (S attempts) collided events).
    { exists [Generated code; CreateCalled (candidate template code)].
      rewrite <- app_assoc. split; [reflexivity|].
      by apply well_attempted_stop. }
    assert (Hretry :
      ∃ events,
        (spied_run attempts (code :: collided)
           (w2, (log ++ [Generated code])
                ++ [CreateCalled (candidate template code)])).2.2
        = log ++ events
        ∧ well_attempted template (S attempts) collided events).
    { destruct (IH (code :: collided) w2
                  ((log ++ [Generated code])
                   ++ [CreateCalled (candidate template code)]))
        as (events & Hlog & Hkept).
      exists (Generated code :: CreateCalled (candidate template code)
              :: events).
      rewrite Hlog, <- !app_assoc. split; [reflexivity|].
      by apply well_attempted_retry. }
    destruct s as [[q|activation]|reason]; [| exact Hstop |].
    + destruct (is_conflict _); [exact Hretry|exact Hstop].
    + destruct (is_conflict _); [exact Hretry|exact Hstop].
Qed.

(** The run on a first attempt that collides, step by step. *)
Lemma createBonusActivation_after_collision w :
  let first := genRandomBonusCode w in
  let created1 := create (candidate template first.1) first.2 in
  let second := genRandomBonusCode created1.2 in
  let created2 := create (candidate template second.1) second.2 in
  is_conflict created1.1 = true →
  spied_run MAX_ATTEMPTS [] (w, [])
  = if String.eqb second.1 first.1
    then (Transient,
          (second.2,
           [ Generated first.1; CreateCalled (candidate template first.1);
             Generated second.1 ]))
    else (match created2.1 with
          | Resolved (inr activation) => Created activation
          | s => if is_conflict s then Transient else InternalError
          end,
          (created2.2,
           [ Generated first.1; CreateCalled (candidate template first.1);
             Generated second.1;
             CreateCalled (candidate template second.1) ])).
Proof.
  intros first created1 second created2 Hconflict.
  unfold MAX_ATTEMPTS. cbn [createBonusActivation existsb].
  unfold spied_generator at 1. fold first.
  destruct first as [c1 w1] eqn:Hfirst. cbn [fst snd] in *.
  unfold spied_create at 1. fold created1.
  destruct created1 as [s1 w2] eqn:Hc1. cbn [fst snd] in *.
  assert (Hnext :
    (let '(code, w3) :=
       spied_generator genRandomBonusCode
         (w2, ([] ++ [Generated c1]) ++ [CreateCalled (candidate template c1)])
     in
     if existsb (String.eqb code) [c1]
     then (Transient, w3)
     else
       let '(s, w4) := spied_create create (candidate template code) w3 in
       match s with
       | Resolved (inr activation) => (Created activation, w4)
       | _ => if is_conflict s then (Transient, w4) else (InternalError, w4)
       end)
    = if String.eqb second.1 c1
      then (Transient,
            (second.2,
             [ Generated c1; CreateCalled (candidate template c1);
               Generated second.1 ]))
      else (match created2.1 with
            | Resolved (inr activation) => Created activation
            | s => if is_conflict s then Transient else InternalError
            end,
            (created2.2,
             [ Generated c1; CreateCalled (candidate template c1);
               Generated second.1;
               CreateCalled (candidate template second.1) ]))).
  { unfold spied_generator, spied_create. unfold created2. fold second.
    destruct second as [c2 w3]. cbn [fst snd existsb].
    rewrite orb_false_r. destruct (String.eqb c2 c1); [reflexivity|].
    destruct (create (candidate template c2) w3) as [s2 w4]. cbn [fst snd].
    destruct s2 as [[q|activation]|reason]; try reflexivity;
      match goal with
      | |- context [is_conflict ?x] => by destruct (is_conflict x)
      end. }
  destruct s1 as [[q|activation]|reason]; [|discriminate Hconflict|];
    rewrite Hconflict; exact Hnext.
Qed.
End creation.

(** C6: when the first attempt to record the candidate fails with an
    identifier collision (409), a second identifier is drawn and the
    creation makes at most one more attempt, two in total; the
    identifiers handed to [create] are pairwise distinct, each the one
    drawn for its attempt, and the colliding one is never handed to
    [create] again; when the second attempt cannot be made or collides
    too the outcome is a transient fault, and a success is reported only
    if the second call of [create] itself succeeded. *)
Theorem creation_retries_with_fresh_code {W : Type}
    (genRandomBonusCode : W → string * W)
    (create : NewBonusActivation.t →
              Promise W (DocumentDb.QueryError + RetrievedBonusActivation.t))
    (template : BonusActivationWithFamilyUID.t) (w : W) :
  let first := genRandomBonusCode w in
  let created1 :=
    create (StartBonusActivation.candidate template first.1) first.2 in
  let second := genRandomBonusCode created1.2 in
  let created2 :=
    create (StartBonusActivation.candidate template second.1) second.2 in
  let run :=
    StartBonusActivation.createBonusActivation
      (StartBonusActivation.spied_generator genRandomBonusCode)
      (StartBonusActivation.spied_create create)
      StartBonusActivation.MAX_ATTEMPTS [] template (w, []) in
  let events := run.2.2 in
  StartBonusActivation.is_conflict created1.1 = true →
  StartBonusActivation.generated events = [first.1; second.1]
  ∧ StartBonusActivation.attempted events
    = first.1 :: (if String.eqb second.1 first.1 then [] else [second.1])
  ∧ NoDup (StartBonusActivation.attempted events)
  ∧ (length (StartBonusActivation.attempted events)
     ≤ StartBonusActivation.MAX_ATTEMPTS)%nat
  ∧ (∀ document,
       StartBonusActivation.CreateCalled document ∈ events →
       document
       = StartBonusActivation.candidate template
           (BonusActivationWithFamilyUID.id
              (NewBonusActivation.fields document))
       ∧ BonusActivationWithFamilyUID.id (NewBonusActivation.fields document)
         ∈ StartBonusActivation.generated events)
  ∧ (second.1 = first.1 → run.1 = StartBonusActivation.Transient)
  ∧ (StartBonusActivation.is_conflict created2.1 = true →
     run.1 = StartBonusActivation.Transient)
  ∧ (∀ activation,
       run.1 = StartBonusActivation.Created activation ↔
       second.1 ≠ first.1 ∧ created2.1 = Resolved (inr activation)).
Proof.
  intros first created1 second created2 run events Hconflict.
  pose proof (createBonusActivation_after_collision genRandomBonusCode create
                template w Hconflict) as Hrun.
  cbn zeta in Hrun. fold first created1 second created2 run in Hrun.
  destruct (createBonusActivation_never_reuses genRandomBonusCode create
              template StartBonusActivation.MAX_ATTEMPTS [] w [])
    as (events' & Hlog & Hnodup & _ & Hlen & _ & Hsub & Hdocs).
  cbn beta in Hsub, Hdocs.
  fold run in Hlog. simpl in Hlog. fold events in Hlog. subst events'.
  assert (Hdocuments : ∀ document,
    StartBonusActivation.CreateCalled document ∈ events →
    document
    = StartBonusActivation.candidate template
        (BonusActivationWithFamilyUID.id (NewBonusActivation.fields document))
    ∧ BonusActivationWithFamilyUID.id (NewBonusActivation.fields document)
      ∈ StartBonusActivation.generated events).
  { intros document Hin. rewrite Forall_forall in Hdocs.
    split; [exact (Hdocs _ Hin)|]. apply Hsub.
    unfold StartBonusActivation.attempted. apply list_elem_of_omap.
    by exists (StartBonusActivation.CreateCalled document). }
  unfold events in *. clear events. rewrite Hrun in *. clear Hrun.
  destruct (String.eqb second.1 first.1) eqn:Heq;
    [apply String.eqb_eq in Heq|apply String.eqb_neq in Heq];
    cbn [fst snd] in *.
  - split; [reflexivity|]. split; [reflexivity|]. split; [exact Hnodup|].
    split; [exact Hlen|]. split; [exact Hdocuments|].
    split; [done|]. split; [done|].
    intros activation. split; [discriminate|]. intros [Hne _]. by destruct Hne.
  - split; [reflexivity|]. split; [reflexivity|]. split; [exact Hnodup|].
    split; [exact Hlen|]. split; [exact Hdocuments|].
    split; [intros Heq'; by destruct Heq|]. split.
    + intros H2. destruct created2.1 as [[q|a]|reason];
        try discriminate H2; by rewrite H2.
    + intros activation. split.
      * intros Hcreated. split; [exact Heq|].
        destruct created2.1 as [[q|a]|reason]; [|congruence|];
          match type of Hcreated with
          | (if ?b then _ else _) = _ => destruct b; discriminate Hcreated
          end.
      * intros [_ ->]. reflexivity.
Qed.

Lemma creation_retries_with_fresh_code_witness :
  StartBonusActivation.is_conflict
    (StartBonusActivation.memory_create
       (StartBonusActivation.candidate aBonusActivationWithFamilyUID
          "AAAAAAAAAAAA")
       (["BBBBBBBBBBBB"], StartBonusActivation.aTakenStore)).1
  = true
  ∧ StartBonusActivation.attempted
      (StartBonusActivation.createBonusActivation
         (StartBonusActivation.spied_generator
            StartBonusActivation.supply_generator)
         (StartBonusActivation.spied_create
            StartBonusActivation.memory_create)
         StartBonusActivation.MAX_ATTEMPTS [] aBonusActivationWithFamilyUID
         ((["AAAAAAAAAAAA"; "BBBBBBBBBBBB"],
           StartBonusActivation.aTakenStore), [])).2.2
    = ["AAAAAAAAAAAA"; "BBBBBBBBBBBB"].
Proof.
  assert (Hc : StartBonusActivation.is_conflict
                 (StartBonusActivation.memory_create
                    (StartBonusActivation.candidate
                       aBonusActivationWithFamilyUID "AAAAAAAAAAAA")
                    (["BBBBBBBBBBBB"], StartBonusActivation.aTakenStore)).1
               = true) by (vm_compute; reflexivity).
  split; [exact Hc|].
  exact (proj1 (proj2 (creation_retries_with_fresh_code
    StartBonusActivation.supply_generator StartBonusActivation.memory_create
    aBonusActivationWithFamilyUID
    (["AAAAAAAAAAAA"; "BBBBBBBBBBBB"], StartBonusActivation.aTakenStore)
    Hc))).
Defined.

(** On the in-memory store: the second attempt succeeds under the second
    identifier; a generator that repeats the colliding identifier does not
    get it handed to [create] a second time, and the creation ends in a
    transient fault. *)
Example creation_second_attempt_succeeds :
  let run supply :=
    StartBonusActivation.createBonusActivation
      (StartBonusActivation.spied_generator
         StartBonusActivation.supply_generator)
      (StartBonusActivation.spied_create StartBonusActivation.memory_create)
      StartBonusActivation.MAX_ATTEMPTS [] aBonusActivationWithFamilyUID
      ((supply, StartBonusActivation.aTakenStore), []) in
  (∃ activation,
     (run ["AAAAAAAAAAAA"; "BBBBBBBBBBBB"]).1
     = StartBonusActivation.Created activation
     ∧ BonusActivationWithFamilyUID.id
         (RetrievedBonusActivation.fields activation)
       = "BBBBBBBBBBBB")
  ∧ (run ["AAAAAAAAAAAA"; "AAAAAAAAAAAA"]).1 = StartBonusActivation.Transient
  ∧ StartBonusActivation.attempted (run ["AAAAAAAAAAAA"; "AAAAAAAAAAAA"]).2.2
    = ["AAAAAAAAAAAA"].
Proof.
  split; [eexists; split; vm_compute; reflexivity|].
  split; vm_compute; reflexivity.
Qed.

(** ** The validation activity *)

(** C9: on an input the activity accepts, a check whose status is not
    ELIGIBLE is returned unchanged, with no look-up made; for an ELIGIBLE
    check the activity looks up the lease of the FamilyUID generated from
    the check's own family members (the digest of their fiscal codes,
    sorted and joined), and the output is the input itself exactly when
    there is no such lease and the input with its status replaced by
    CONFLICT, every other field kept, exactly when there is one (the
    activity throws when the look-up itself fails). *)
Theorem validation_changes_only_status {W : Type}
    (decode : JsValue → list string + Api.EligibilityCheck)
    (bonusLeaseModel : BonusLeaseModel.t W) (input : JsValue)
    (eligibilityCheck : Api.EligibilityCheck) (w : W) :
  decode input = inr eligibilityCheck →
  let run :=
    ValidateEligibilityCheck.getValidateEligibilityCheckActivityHandler
      decode bonusLeaseModel input w in
  (Api.status eligibilityCheck ≠ Api.ELIGIBLE →
   run = (Returned eligibilityCheck, [], w))
  ∧ (Api.status eligibilityCheck = Api.ELIGIBLE →
     ∀ dsu_request,
       Api.dsu_request eligibilityCheck = Some dsu_request →
       let familyUID :=
         Hash.toHash
           (Js.Array_join ""
              (Js.Array_sort Js.localeCompare
                 (map Api.fiscal_code (Api.family_members dsu_request)))) in
       let found :=
         BonusLeaseModel.find bonusLeaseModel familyUID familyUID w in
       Hash.generateFamilyUID
         (map (λ familyMember,
                 {| Hash.fiscalCode := Api.fiscal_code familyMember;
                    Hash.name := Api.name familyMember;
                    Hash.surname := Api.surname familyMember |})
            (Api.family_members dsu_request))
       = Returned familyUID
       ∧ (found.1 = Resolved (inr None) →
          run = (Returned eligibilityCheck, [], found.2))
       ∧ (∀ lease,
            found.1 = Resolved (inr (Some lease)) →
            run = (Returned (Api.with_status Api.CONFLICT eligibilityCheck),
                   [], found.2)
            ∧ Api.with_status Api.CONFLICT eligibilityCheck
              ≠ eligibilityCheck)
       ∧ (∀ queryError,
            found.1 = Resolved (inl queryError) →
            run.1.1
            = Thrown ("Query Error: code=["
                      +:+ Js.Number_toString (DocumentDb.code queryError)
                      +:+ "]"))
       ∧ (∀ reason,
            found.1 = Rejected reason →
            run.1.1 = Thrown "Error calling bonusLeaseModel.find"))
  ∧ (∀ s,
       let output := Api.with_status s eligibilityCheck in
       Api.status output = s
       ∧ Api.id output = Api.id eligibilityCheck
       ∧ Api.valid_before output = Api.valid_before eligibilityCheck
       ∧ Api.dsu_request output = Api.dsu_request eligibilityCheck
       ∧ Api.error output = Api.error eligibilityCheck
       ∧ Api.error_description output
         = Api.error_description eligibilityCheck).
Proof.
  intros Hdec run.
  unfold run, ValidateEligibilityCheck.getValidateEligibilityCheckActivityHandler,
    ValidateEligibilityCheck.chain, TE.mapLeft, TE.fromEither.
  rewrite Hdec. split; [|split].
  - intros Hs. destruct (Api.status eligibilityCheck); done.
  - intros Hs dsu_request Hdsu.
    unfold ValidateEligibilityCheck.familyMembers_of.
    rewrite Hs, Hdsu. cbn [Api.StatusEnum_eqb negb].
    rewrite !generateFamilyUID_digest, !map_map.
    cbn [Hash.fiscalCode].
    set (familyUID := Hash.toHash _).
    split; [reflexivity|].
    unfold TE.foldTaskEither, TE.tryCatch, TE.fromEither.
    destruct (BonusLeaseModel.find bonusLeaseModel familyUID familyUID w)
      as [[[q|[lease|]]|reason] w']; cbn [fst snd];
      repeat split; intros; try discriminate; simplify_eq; try reflexivity.
    intros Heq. apply (f_equal Api.status) in Heq. simpl in Heq. congruence.
  - intros s. repeat split.
Qed.

(** The ELIGIBLE branch at work: the family of the sample check holds
    the lease, and the check comes back with status CONFLICT. *)
Lemma validation_changes_only_status_witness :
  ValidateEligibilityCheck.sample_decode
    ValidateEligibilityCheck.anEligibleCheckValue
  = inr ValidateEligibilityCheck.anEligibleCheck
  ∧ Api.status ValidateEligibilityCheck.anEligibleCheck = Api.ELIGIBLE
  ∧ ValidateEligibilityCheck.getValidateEligibilityCheckActivityHandler
      ValidateEligibilityCheck.sample_decode Memory.bonusLeaseModel
      ValidateEligibilityCheck.anEligibleCheckValue
      ValidateEligibilityCheck.aStoreWithFamilyLease
    = (Returned (Api.with_status Api.CONFLICT
                   ValidateEligibilityCheck.anEligibleCheck),
       [], ValidateEligibilityCheck.aStoreWithFamilyLease).
Proof.
  assert (Hdec : ValidateEligibilityCheck.sample_decode
                   ValidateEligibilityCheck.anEligibleCheckValue
                 = inr ValidateEligibilityCheck.anEligibleCheck)
    by reflexivity.
  assert (Hfound :
    (BonusLeaseModel.find Memory.bonusLeaseModel (Hash.toHash aFiscalCode)
       (Hash.toHash aFiscalCode)
       ValidateEligibilityCheck.aStoreWithFamilyLease).1
    = Resolved
        (inr (Some
                {| RetrievedBonusLease.id := Hash.toHash aFiscalCode;
                   RetrievedBonusLease._self :=
                     DocumentDb.getDocumentUri Memory.bonusLeases
                       (Hash.toHash aFiscalCode);
                   RetrievedBonusLease._ts := 0;
                   RetrievedBonusLease.kind := "IRetrievedBonusLease" |})))
    by (vm_compute; reflexivity).
  split; [exact Hdec|]. split; [reflexivity|].
  exact (proj1
           (proj1 (proj2 (proj2
              (proj1 (proj2 (validation_changes_only_status
                 ValidateEligibilityCheck.sample_decode Memory.bonusLeaseModel
                 ValidateEligibilityCheck.anEligibleCheckValue
                 ValidateEligibilityCheck.anEligibleCheck
                 ValidateEligibilityCheck.aStoreWithFamilyLease Hdec))
                 eq_refl _ eq_refl))) _ Hfound)).
Defined.

Example validation_conflict_when_lease_held :
  let familyUID :=
    Hash.toHash aFiscalCode in
  let held : Memory.Store :=
    {[ DocumentDb.getDocumentUri Memory.bonusLeases familyUID
       := Memory.BonusLeaseDoc familyUID ]} in
  (ValidateEligibilityCheck.getValidateEligibilityCheckActivityHandler
     ValidateEligibilityCheck.sample_decode Memory.bonusLeaseModel
     ValidateEligibilityCheck.anEligibleCheckValue held).1.1
  = Returned (Api.with_status Api.CONFLICT
                ValidateEligibilityCheck.anEligibleCheck)
  ∧ (ValidateEligibilityCheck.getValidateEligibilityCheckActivityHandler
       ValidateEligibilityCheck.sample_decode Memory.bonusLeaseModel
       ValidateEligibilityCheck.anEligibleCheckValue aStore).1.1
    = Returned ValidateEligibilityCheck.anEligibleCheck.
Proof. vm_compute. split; reflexivity. Qed.

(** ** The bonus amount *)

Lemma calculateMaxBonusAmount_positive (n : Z) :
  (0 < n)%Z →
  ∃ b, Conversions.calculateMaxBonusAmountFromFamilyMemberCount n = Returned b.
Proof.
  intros Hn. unfold Conversions.calculateMaxBonusAmountFromFamilyMemberCount.
  destruct (n >? 2)%Z eqn:H2; [by eexists|].
  destruct (n =? 2)%Z eqn:H2'; [by eexists|].
  destruct (n =? 1)%Z eqn:H1; [by eexists|].
  rewrite Z.gtb_ltb in H2. apply Z.ltb_ge in H2.
  apply Z.eqb_neq in H2'. apply Z.eqb_neq in H1. lia.
Qed.



(** * Further properties of the embedded code *)

(** ** The compensation handler, continued *)

(** X1: an input that does not decode is answered INVALID_INPUT; the
    handler makes no call on any model and leaves the world as it is. *)
Theorem compensation_rejects_undecodable_input {W : Type}
    (decode : JsValue → list string + BonusActivationWithFamilyUID.t)
    (bam : BonusActivationModel.t W) (blm : BonusLeaseModel.t W)
    (ecm : EligibilityCheckModel.t W) (input : JsValue)
    (errors : list string) (w : W) :
  FailedBonusActivation.FailedBonusActivationInput_decode decode input
  = inl errors →
  FailedBonusActivation.FailedBonusActivationHandler decode
    (Spy.bonusActivationModel bam) (Spy.bonusLeaseModel blm)
    (Spy.eligibilityCheckModel ecm) input (w, [])
  = (Returned FailedBonusActivation.INVALID_INPUT, (w, [])).
Proof.
  intros Hdec. unfold FailedBonusActivation.FailedBonusActivationHandler.
  unfold TE.mapTask, TE.fold, TE.chain, TE.of_, TE.map, TE.mapLeft,
    TE.fromEither.
  by rewrite Hdec.
Qed.

Lemma compensation_rejects_undecodable_input_witness :
  FailedBonusActivation.FailedBonusActivationInput_decode sample_decode
    (JString "foo")
  = inl ["Invalid value supplied to FailedBonusActivationInput"]
  ∧ FailedBonusActivation.FailedBonusActivationHandler sample_decode
      (Spy.bonusActivationModel Memory.bonusActivationModel)
      (Spy.bonusLeaseModel Memory.bonusLeaseModel)
      (Spy.eligibilityCheckModel Memory.eligibilityCheckModel)
      (JString "foo") (aStore, [])
    = (Returned FailedBonusActivation.INVALID_INPUT, (aStore, [])).
Proof.
  assert (H : FailedBonusActivation.FailedBonusActivationInput_decode
                sample_decode (JString "foo")
              = inl ["Invalid value supplied to FailedBonusActivationInput"])
    by reflexivity.
  split; [exact H|].
  exact (compensation_rejects_undecodable_input sample_decode
           Memory.bonusActivationModel Memory.bonusLeaseModel
           Memory.eligibilityCheckModel (JString "foo") _ aStore H).
Defined.



(** ** The family identifier, continued *)

Lemma round_keeps_eight st k :
  length st.1 = 8 → length (Sha256.round st k).1 = 8.
Proof.
  destruct st as [v w]. simpl.
  destruct v as [|a [|b [|c [|d [|e [|f [|g [|h [|i v]]]]]]]]];
    simpl; intros; try discriminate; reflexivity.
Qed.

Lemma fold_left_invariant {A B : Type} (P : A → Prop) (f : A → B → A)
    (l : list B) (a : A) :
  P a → (∀ a b, P a → P (f a b)) → P (fold_left f l a).
Proof.
  intros Ha Hf. revert a Ha.
  induction l as [|b l IH]; intros a Ha; simpl; auto.
Qed.

Lemma compress_keeps_eight h block :
  length h = 8 → length (Sha256.compress h block) = 8.
Proof.
  intros Hh. unfold Sha256.compress.
  pose proof (fold_left_invariant (λ st, length st.1 = 8) Sha256.round
                Sha256.K (h, Sha256.words_of_block block) Hh
                round_keeps_eight) as Hv.
  destruct (fold_left Sha256.round Sha256.K _) as [v w]. simpl in Hv.
  rewrite length_zip_with. lia.
Qed.

Lemma hash_bytes_eight_words msg : length (Sha256.hash_bytes msg) = 8.
Proof.
  unfold Sha256.hash_bytes.
  apply (fold_left_invariant (λ h, length h = 8) Sha256.compress).
  - reflexivity.
  - intros h b. apply compress_keeps_eight.
Qed.

Lemma string_length_app (a b : string) :
  String.length (a +:+ b) = String.length a + String.length b.
Proof. unfold String.app. induction a; simpl; congruence. Qed.

Lemma hex_char_is_hex d :
  (0 ≤ d < 16)%Z → is_hex_digit (Sha256.hex_char d) = true.
Proof.
  intros Hd.
  assert (Hcases : d ∈ seqZ 0 16) by (apply elem_of_seqZ; lia).
  cbv [seqZ] in Hcases. simpl in Hcases.
  repeat (apply elem_of_cons in Hcases as [->|Hcases]; [reflexivity|]).
  by apply elem_of_nil in Hcases.
Qed.

Lemma hex_word_shape x :
  String.length (Sha256.hex_word x) = 8
  ∧ forallb is_hex_digit (String.list_ascii_of_string (Sha256.hex_word x))
    = true.
Proof.
  unfold Sha256.hex_word. cbn [seq rev app fold_right]. split; [reflexivity|].
  cbn [String.list_ascii_of_string forallb].
  rewrite !hex_char_is_hex; [reflexivity|apply Z.mod_pos_bound; lia..].
Qed.

Lemma list_ascii_of_string_app (a b : string) :
  String.list_ascii_of_string (a +:+ b)
  = String.list_ascii_of_string a ++ String.list_ascii_of_string b.
Proof. unfold String.app. induction a; simpl; congruence. Qed.

(** X3: the digest [toHash] returns is always 64 lower-case hexadecimal
    characters, whatever the string hashed, so the FamilyUID that
    generateFamilyUID returns is one too, for every roster, the empty one
    included: it is never the empty string. *)
Theorem familyUID_is_64_hex_digits :
  (∀ s : string,
     String.length (Hash.toHash s) = 64
     ∧ forallb is_hex_digit (String.list_ascii_of_string (Hash.toHash s))
       = true)
  ∧ ∀ familyMembers : Hash.FamilyMembers,
      ∃ uid, Hash.generateFamilyUID familyMembers = Returned uid
             ∧ String.length uid = 64
             ∧ forallb is_hex_digit (String.list_ascii_of_string uid) = true.
Proof.
  assert (Hhash : ∀ s : string,
     String.length (Hash.toHash s) = 64
     ∧ forallb is_hex_digit (String.list_ascii_of_string (Hash.toHash s))
       = true).
  { intros s. unfold Hash.toHash, Sha256.hexdigest.
    pose proof (hash_bytes_eight_words (Sha256.bytes_of_string s)) as Hlen.
    revert Hlen. generalize (Sha256.hash_bytes (Sha256.bytes_of_string s)).
    intros ws.
    assert (Hgen : ∀ ws : list Z,
      String.length (fold_right (λ w acc, Sha256.hex_word w +:+ acc) "" ws)
      = 8 * length ws
      ∧ forallb is_hex_digit
          (String.list_ascii_of_string
             (fold_right (λ w acc, Sha256.hex_word w +:+ acc) "" ws))
        = true).
    { clear. induction ws as [|x ws [IHl IHh]]; [done|].
      cbn [fold_right length]. destruct (hex_word_shape x) as [Hl Hh].
      rewrite string_length_app, list_ascii_of_string_app, forallb_app.
      rewrite Hl, IHl, Hh, IHh. split; [lia|reflexivity]. }
    intros Hlen. destruct (Hgen ws) as [Hl Hh]. rewrite Hl, Hlen. done. }
  split; [exact Hhash|].
  intros familyMembers. rewrite generateFamilyUID_digest.
  eexists. split; [reflexivity|]. apply Hhash.
Qed.

(** ** [serializeBonus], continued *)

(** X4: the serialization does not depend on the order in which the
    family members are listed: two bonuses equal in every other field and
    listing the same members in a different order serialize to the same
    string. *)
Theorem serializeBonus_ignores_member_order
    (bv : AdeClient.ApiBonusVacanzaWithoutMac)
    (listed members : list AdeClient.NucleoFamiliareElem) :
  AdeClient.nucleoFamiliare bv = Some listed →
  members ≡ₚ listed →
  AdeClient.serializeBonus
    {| AdeClient.codiceBuono := AdeClient.codiceBuono bv;
       AdeClient.codiceFiscaleDichiarante :=
         AdeClient.codiceFiscaleDichiarante bv;
       AdeClient.dataGenerazione := AdeClient.dataGenerazione bv;
       AdeClient.flagDifformita := AdeClient.flagDifformita bv;
       AdeClient.importoMassimo := AdeClient.importoMassimo bv;
       AdeClient.nucleoFamiliare := Some members |}
  = AdeClient.serializeBonus bv
  ∧ is_returned (AdeClient.serializeBonus bv) = true.
Proof.
  intros Hlisted Hperm. rewrite !serializeBonus_run, Hlisted.
  cbn [AdeClient.codiceBuono AdeClient.codiceFiscaleDichiarante
       AdeClient.dataGenerazione AdeClient.flagDifformita
       AdeClient.importoMassimo AdeClient.nucleoFamiliare].
  split; [|reflexivity].
  assert (Hsorted :
    Js.Array_sort Js.localeCompare (map AdeClient.codiceFiscale members)
    = Js.Array_sort Js.localeCompare (map AdeClient.codiceFiscale listed)).
  { apply (Array_sort_canonical Js.localeCompare). by apply Permutation_map. }
  by rewrite Hsorted.
Qed.

Lemma serializeBonus_ignores_member_order_witness :
  AdeClient.nucleoFamiliare AdeClient.aBonusVacanza
  = Some [ {| AdeClient.codiceFiscale := anotherFiscalCode |};
           {| AdeClient.codiceFiscale := aFiscalCode |} ]
  ∧ [ {| AdeClient.codiceFiscale := aFiscalCode |};
      {| AdeClient.codiceFiscale := anotherFiscalCode |} ]
    ≡ₚ [ {| AdeClient.codiceFiscale := anotherFiscalCode |};
         {| AdeClient.codiceFiscale := aFiscalCode |} ]
  ∧ AdeClient.serializeBonus
      {| AdeClient.codiceBuono := aBonusId;
         AdeClient.codiceFiscaleDichiarante := aFiscalCode;
         AdeClient.dataGenerazione := 1593561600123;
         AdeClient.flagDifformita := 0;
         AdeClient.importoMassimo := 250;
         AdeClient.nucleoFamiliare :=
           Some [ {| AdeClient.codiceFiscale := aFiscalCode |};
                  {| AdeClient.codiceFiscale := anotherFiscalCode |} ] |}
    = AdeClient.serializeBonus AdeClient.aBonusVacanza.
Proof.
  assert (H : AdeClient.nucleoFamiliare AdeClient.aBonusVacanza
              = Some [ {| AdeClient.codiceFiscale := anotherFiscalCode |};
                       {| AdeClient.codiceFiscale := aFiscalCode |} ])
    by reflexivity.
  assert (Hp : [ {| AdeClient.codiceFiscale := aFiscalCode |};
                 {| AdeClient.codiceFiscale := anotherFiscalCode |} ]
               ≡ₚ [ {| AdeClient.codiceFiscale := anotherFiscalCode |};
                    {| AdeClient.codiceFiscale := aFiscalCode |} ])
    by apply perm_swap.
  split; [exact H|]. split; [exact Hp|].
  exact (proj1 (serializeBonus_ignores_member_order AdeClient.aBonusVacanza
                  _ _ H Hp)).
Defined.

(** ** The error codecs, continued *)

Lemma errorCode_is_string code v :
  AdeClient.errorCode_is code v = true →
  Value.prop v "errorCode" = JString code.
Proof.
  unfold AdeClient.errorCode_is. rewrite andb_true_iff.
  destruct (Value.prop v "errorCode"); try (intros [_ ?]; discriminate).
  by intros [_ ->%String.eqb_eq].
Qed.

(** X5: the seven error codecs exclude one another: whatever the payload
    and whatever the base shape [BonusVacanzaError] accepts, at most one of
    them accepts it, so a payload is never both a transient error and an
    invalid request. *)
Theorem error_codecs_exclude_one_another
    (BonusVacanzaError_is : JsValue → bool) (v : JsValue) :
  accepting (error_codecs BonusVacanzaError_is) v ≤ 1
  ∧ (AdeClient.BonusVacanzaTransientError_is BonusVacanzaError_is v
     && AdeClient.BonusVacanzaInvalidRequestError_is BonusVacanzaError_is v)%bool
    = false.
Proof.
  split.
  - unfold accepting, error_codecs,
      AdeClient.BonusVacanzaGenericError_is,
      AdeClient.BonusVacanzaApplicationGenericError_is,
      AdeClient.BonusVacanzaCodeAlreadyPresentError_is,
      AdeClient.BonusVacanzaRequestedByOtherFamilyMemberError_is,
      AdeClient.BonusVacanzaEmptyFamilyError_is,
      AdeClient.BonusVacanzaNoFiscalCodeProvidedProvidedError_is,
      AdeClient.BonusVacanzaNoGenerationDateProvidedProvidedError_is.
    cbn [List.filter].
    destruct (BonusVacanzaError_is v); cbn [andb]; [|simpl; lia].
    unfold AdeClient.errorCode_is.
    destruct (Value.is_dictionary v); cbn [andb]; [|simpl; lia].
    destruct (Value.prop v "errorCode") as [| |b|n|s|items|fields|m];
      try (simpl; lia).
    destruct (String.eqb s "4000") eqn:E1;
      [apply String.eqb_eq in E1 as ->; simpl; lia|].
    destruct (String.eqb s "3000") eqn:E2;
      [apply String.eqb_eq in E2 as ->; simpl; lia|].
    destruct (String.eqb s "1000") eqn:E3;
      [apply String.eqb_eq in E3 as ->; simpl; lia|].
    destruct (String.eqb s "1005") eqn:E4;
      [apply String.eqb_eq in E4 as ->; simpl; lia|].
    destruct (String.eqb s "900") eqn:E5;
      [apply String.eqb_eq in E5 as ->; simpl; lia|].
    destruct (String.eqb s "907") eqn:E6;
      [apply String.eqb_eq in E6 as ->; simpl; lia|].
    destruct (String.eqb s "908"); simpl; lia.
  - destruct (AdeClient.BonusVacanzaTransientError_is _ v) eqn:Ht; [|done].
    by rewrite (transient_not_invalid _ _ Ht).
Qed.

(** X6: a payload is taken for a transient error or an invalid request
    only if it has the base shape and its [errorCode] is a string, one of
    the seven codes; a numeric code such as 4000, or a missing one,
    matches neither group. *)
Theorem error_groups_need_a_string_code
    (BonusVacanzaError_is : JsValue → bool) (v : JsValue) :
  (AdeClient.BonusVacanzaTransientError_is BonusVacanzaError_is v
   || AdeClient.BonusVacanzaInvalidRequestError_is BonusVacanzaError_is v)%bool
  = true →
  BonusVacanzaError_is v = true
  ∧ ∃ code, Value.prop v "errorCode" = JString code
            ∧ code ∈ ["4000"; "3000"; "1000"; "1005"; "900"; "907"; "908"].
Proof.
  rewrite orb_true_iff. intros [Ht|Hi].
  - apply BonusVacanzaTransientError_codes in Ht as [Hb (code & Hin & Hc)].
    split; [done|]. exists code. split; [by apply errorCode_is_string|].
    rewrite !elem_of_cons, elem_of_nil in Hin. rewrite !elem_of_cons. tauto.
  - apply BonusVacanzaInvalidRequestError_codes in Hi
      as [Hb (code & Hin & Hc)].
    split; [done|]. exists code. split; [by apply errorCode_is_string|].
    rewrite !elem_of_cons, elem_of_nil in Hin. rewrite !elem_of_cons. tauto.
Qed.

Lemma error_groups_need_a_string_code_witness :
  (AdeClient.BonusVacanzaTransientError_is
     SendBonusActivation.sample_BonusVacanzaError_is
     SendBonusActivation.aBonusVacanzaTransientError
   || AdeClient.BonusVacanzaInvalidRequestError_is
        SendBonusActivation.sample_BonusVacanzaError_is
        SendBonusActivation.aBonusVacanzaTransientError)%bool
  = true
  ∧ SendBonusActivation.sample_BonusVacanzaError_is
      SendBonusActivation.aBonusVacanzaTransientError
    = true.
Proof.
  assert (H : (AdeClient.BonusVacanzaTransientError_is
                 SendBonusActivation.sample_BonusVacanzaError_is
                 SendBonusActivation.aBonusVacanzaTransientError
               || AdeClient.BonusVacanzaInvalidRequestError_is
                    SendBonusActivation.sample_BonusVacanzaError_is
                    SendBonusActivation.aBonusVacanzaTransientError)%bool
              = true) by reflexivity.
  split; [exact H|].
  exact (proj1 (error_groups_need_a_string_code
                  SendBonusActivation.sample_BonusVacanzaError_is
                  SendBonusActivation.aBonusVacanzaTransientError H)).
Defined.

(** ** The orchestrator, continued *)

Lemma OrchestratorInput_decode_inr FiscalCode_is input value :
  Orchestrator.OrchestratorInput_decode FiscalCode_is input = inr value →
  value = input
  ∧ (∃ s, Value.prop input "familyUID" = JString s)
  ∧ ∃ c, Value.prop input "fiscalCode" = JString c ∧ FiscalCode_is c = true.
Proof.
  unfold Orchestrator.OrchestratorInput_decode.
  destruct (Value.is_dictionary input); [|discriminate].
  destruct (Value.prop input "familyUID") as [| | | |s| | |] eqn:Hf;
    try discriminate.
  destruct (Value.prop input "fiscalCode") as [| | | |c| | |] eqn:Hc;
    try discriminate.
  cbn. destruct (FiscalCode_is c) eqn:Hfc; [|discriminate].
  intros [= <-]. split; [reflexivity|]. split; [by exists s|by exists c].
Qed.

(** X7: on an input that does not decode the orchestrator returns
    [false] at once: it yields no task to the host, so no activity runs
    and no lease is touched, and it logs the decoding error twice, once as
    an error and once, with the report, as a verbose line. *)
Theorem orchestrator_stops_on_undecodable_input {H : Type}
    (FiscalCode_is : string → bool) (Failure_is : JsValue → bool)
    (host : Orchestrator.Host H) (input : JsValue) (errors : list string)
    (h : H) :
  Orchestrator.OrchestratorInput_decode FiscalCode_is input = inl errors →
  Orchestrator.run host (Orchestrator.handler FiscalCode_is Failure_is input) h
  = ([], Returned false, h)
  ∧ OrchestratorLog.logged host
      (Orchestrator.handler FiscalCode_is Failure_is input) h
    = [ (Orchestrator.error,
         "StartBonusActivationOrchestrator|Error decoding input");
        (Orchestrator.verbose,
         "StartBonusActivationOrchestrator|Error decoding input|ERROR="
         +:+ Hash.readableReport errors) ].
Proof.
  intros Hdec. unfold Orchestrator.handler. rewrite Hdec. split; reflexivity.
Qed.

Lemma orchestrator_stops_on_undecodable_input_witness :
  Orchestrator.OrchestratorInput_decode Orchestrator.sample_FiscalCode_is
    (JObject [("familyUID", JString aFamilyUID)])
  = inl ["Invalid value supplied to OrchestratorInput"]
  ∧ Orchestrator.run Orchestrator.completing_host
      (Orchestrator.handler Orchestrator.sample_FiscalCode_is
         Orchestrator.sample_Failure_is
         (JObject [("familyUID", JString aFamilyUID)])) tt
    = ([], Returned false, tt).
Proof.
  assert (Hdec : Orchestrator.OrchestratorInput_decode
                   Orchestrator.sample_FiscalCode_is
                   (JObject [("familyUID", JString aFamilyUID)])
                 = inl ["Invalid value supplied to OrchestratorInput"])
    by reflexivity.
  split; [exact Hdec|].
  exact (proj1 (orchestrator_stops_on_undecodable_input
                  Orchestrator.sample_FiscalCode_is
                  Orchestrator.sample_Failure_is Orchestrator.completing_host
                  _ _ tt Hdec)).
Defined.

(** X8: whatever the input and the answers of the host, a run of the
    orchestrator yields at most three tasks, whose names follow the
    sequence send, failed, unlock or send, success, unlock (never both
    branch activities); only the send activity is called with retries
    (ten attempts at most), and the unlock activity always receives a
    string. *)
Theorem orchestrator_trace_shape {H : Type}
    (FiscalCode_is : string → bool) (Failure_is : JsValue → bool)
    (host : Orchestrator.Host H) (input : JsValue) (h : H) :
  let trace :=
    (Orchestrator.run host
       (Orchestrator.handler FiscalCode_is Failure_is input) h).1.1 in
  (map Orchestrator.task_name trace
     `prefix_of` [ "SendBonusActivationActivity";
                   "FailedBonusActivationActivity";
                   "UnlockBonusActivationActivity" ]
   ∨ map Orchestrator.task_name trace
       `prefix_of` [ "SendBonusActivationActivity";
                     "SuccessBonusActivationActivity";
                     "UnlockBonusActivationActivity" ])
  ∧ Forall OrchestratorLog.well_formed_task trace.
Proof.
  intros trace. unfold trace. clear trace.
  destruct (Orchestrator.OrchestratorInput_decode FiscalCode_is input)
    as [errors|value] eqn:Hdec.
  { unfold Orchestrator.handler. rewrite Hdec. simpl.
    split; [left; apply prefix_nil|constructor]. }
  rewrite (handler_trace FiscalCode_is Failure_is host input value h Hdec).
  apply OrchestratorInput_decode_inr in Hdec as (-> & [s Hs] & _).
  cbn zeta. rewrite Hs.
  assert (Hsend : OrchestratorLog.well_formed_task
                    (Orchestrator.callActivityWithRetry
                       "SendBonusActivationActivity"
                       Orchestrator.retryOptions input)) by done.
  assert (Hunlock : OrchestratorLog.well_formed_task
                      (Orchestrator.callActivity
                         "UnlockBonusActivationActivity" (JString s)))
    by (split; [done|eauto]).
  assert (Hbranch : ∀ name,
            name ∈ [ "FailedBonusActivationActivity";
                     "SuccessBonusActivationActivity" ] →
            OrchestratorLog.well_formed_task
              (Orchestrator.callActivity name input)).
  { intros name Hname. rewrite !elem_of_cons, elem_of_nil in Hname.
    destruct Hname as [->|[->|[]]]; (split; [discriminate|intros [=]]). }
  destruct (host _ h) as [[sent|e] h1].
  2: { cbn. split; [left; by eexists|].
       constructor; [exact Hsend|constructor]. }
  destruct (Failure_is sent).
  - destruct (host _ h1) as [[x|e] h2];
      [destruct (host _ h2) as [r3 h3]|]; cbn.
    + split; [left; by exists []|].
      constructor; [exact Hsend|].
      constructor; [apply Hbranch; rewrite !elem_of_cons; auto|].
      constructor; [exact Hunlock|constructor].
    + split; [left; by eexists|].
      constructor; [exact Hsend|].
      constructor; [apply Hbranch; rewrite !elem_of_cons; auto|constructor].
  - destruct (host _ h1) as [[x|e] h2];
      [destruct (host _ h2) as [r3 h3]|]; cbn.
    + split; [right; by exists []|].
      constructor; [exact Hsend|].
      constructor; [apply Hbranch; rewrite !elem_of_cons; auto|].
      constructor; [exact Hunlock|constructor].
    + split; [right; by eexists|].
      constructor; [exact Hsend|].
      constructor; [apply Hbranch; rewrite !elem_of_cons; auto|constructor].
Qed.

(** ** The validation activity, continued *)

(** X9: an input that does not decode makes the activity throw
    "Decoding Error: [...]" with the report of the decoder, after logging
    the error once; the lease model is not called. *)
Theorem validation_throws_on_undecodable_input {W : Type}
    (decode : JsValue → list string + Api.EligibilityCheck)
    (bonusLeaseModel : BonusLeaseModel.t W) (input : JsValue)
    (errors : list string) (w : W) :
  decode input = inl errors →
  let message :=
    "Decoding Error: [" +:+ Hash.readableReport errors +:+ "]" in
  ValidateEligibilityCheck.getValidateEligibilityCheckActivityHandler decode
    (Spy.bonusLeaseModel bonusLeaseModel) input (w, [])
  = (Thrown message,
     ["ValidateEligibilityCheckActivity|ERROR|Error: " +:+ message],
     (w, [])).
Proof.
  intros Hdec message.
  unfold ValidateEligibilityCheck.getValidateEligibilityCheckActivityHandler,
    ValidateEligibilityCheck.chain, TE.mapLeft, TE.fromEither.
  by rewrite Hdec.
Qed.

Lemma validation_throws_on_undecodable_input_witness :
  ValidateEligibilityCheck.sample_decode (JObject [])
  = inl ["Invalid value supplied to EligibilityCheck"]
  ∧ (ValidateEligibilityCheck.getValidateEligibilityCheckActivityHandler
       ValidateEligibilityCheck.sample_decode
       (Spy.bonusLeaseModel Memory.bonusLeaseModel) (JObject [])
       (aStore, [])).1.1
    = Thrown "Decoding Error: [Invalid value supplied to EligibilityCheck]".
Proof.
  assert (Hdec : ValidateEligibilityCheck.sample_decode (JObject [])
                 = inl ["Invalid value supplied to EligibilityCheck"])
    by reflexivity.
  split; [exact Hdec|].
  exact (f_equal (λ r, r.1.1)
           (validation_throws_on_undecodable_input
              ValidateEligibilityCheck.sample_decode Memory.bonusLeaseModel
              (JObject []) _ aStore Hdec)).
Defined.

(** X10: the activity only reads.  Whatever the input, it calls the lease
    model at most once, and that call is a [find] whose document id and
    partition key are one and the same FamilyUID; it never deletes, and
    it makes no call at all unless the check decodes with status
    ELIGIBLE. *)
Theorem validation_only_reads {W : Type}
    (decode : JsValue → list string + Api.EligibilityCheck)
    (bonusLeaseModel : BonusLeaseModel.t W) (input : JsValue) (w : W) :
  let calls :=
    (ValidateEligibilityCheck.getValidateEligibilityCheckActivityHandler
       decode (Spy.bonusLeaseModel bonusLeaseModel) input (w, [])).2.2 in
  (calls = [] ∨ ∃ familyUID, calls = [Spy.LeaseFind familyUID familyUID])
  ∧ (calls ≠ [] →
     ∃ check, decode input = inr check ∧ Api.status check = Api.ELIGIBLE).
Proof.
  intros calls. unfold calls. clear calls.
  unfold ValidateEligibilityCheck.getValidateEligibilityCheckActivityHandler,
    ValidateEligibilityCheck.chain, TE.mapLeft, TE.fromEither.
  destruct (decode input) as [errors|check]; [by split; [left|]|].
  destruct (Api.status check) eqn:Hs; cbn [Api.StatusEnum_eqb negb];
    try (by split; [left|]).
  destruct (ValidateEligibilityCheck.familyMembers_of check) as [members|e];
    [|by split; [left|]].
  rewrite generateFamilyUID_digest.
  unfold TE.foldTaskEither, TE.tryCatch, TE.fromEither. cbn.
  destruct (BonusLeaseModel.find bonusLeaseModel _ _ w)
    as [[[q|[lease|]]|reason] w']; cbn;
    (split; [right; by eexists|intros _; by eexists]).
Qed.

(** X11: the verdict does not depend on the order of the family members.
    Two ELIGIBLE checks whose rosters list the same fiscal codes, in any
    order, look up the same lease, so on the same world the activity
    gives both the same status (or the same fault), writes the same log
    and leaves the same world. *)
Theorem validation_ignores_member_order {W : Type}
    (decode : JsValue → list string + Api.EligibilityCheck)
    (bonusLeaseModel : BonusLeaseModel.t W) (input1 input2 : JsValue)
    (check1 check2 : Api.EligibilityCheck)
    (members1 members2 : Hash.FamilyMembers) (w : W) :
  decode input1 = inr check1 →
  decode input2 = inr check2 →
  Api.status check1 = Api.ELIGIBLE →
  Api.status check2 = Api.ELIGIBLE →
  ValidateEligibilityCheck.familyMembers_of check1 = Returned members1 →
  ValidateEligibilityCheck.familyMembers_of check2 = Returned members2 →
  same_fiscal_code_list members1 members2 →
  let run1 :=
    ValidateEligibilityCheck.getValidateEligibilityCheckActivityHandler
      decode bonusLeaseModel input1 w in
  let run2 :=
    ValidateEligibilityCheck.getValidateEligibilityCheckActivityHandler
      decode bonusLeaseModel input2 w in
  verdict run1.1.1 = verdict run2.1.1
  ∧ run1.1.2 = run2.1.2
  ∧ run1.2 = run2.2.
Proof.
  intros Hd1 Hd2 Hs1 Hs2 Hm1 Hm2 Hperm run1 run2. unfold run1, run2.
  unfold ValidateEligibilityCheck.getValidateEligibilityCheckActivityHandler,
    ValidateEligibilityCheck.chain, TE.mapLeft, TE.fromEither.
  rewrite Hd1, Hd2, Hs1, Hs2, Hm1, Hm2. cbn [Api.StatusEnum_eqb negb].
  rewrite !generateFamilyUID_digest.
  rewrite (Array_sort_canonical Js.localeCompare _ _ Hperm).
  unfold TE.foldTaskEither, TE.tryCatch, TE.fromEither.
  destruct (BonusLeaseModel.find bonusLeaseModel _ _ w)
    as [[[q|[lease|]]|reason] w']; cbn; by rewrite ?Hs1, ?Hs2.
Qed.

Lemma validation_ignores_member_order_witness :
  same_fiscal_code_list [mario; chiara] [chiara; mario]
  ∧ verdict
      (ValidateEligibilityCheck.getValidateEligibilityCheckActivityHandler
         order_decode Memory.bonusLeaseModel (JString "mario first")
         aStore).1.1
    = verdict
        (ValidateEligibilityCheck.getValidateEligibilityCheckActivityHandler
           order_decode Memory.bonusLeaseModel (JString "chiara first")
           aStore).1.1.
Proof.
  assert (Hperm : same_fiscal_code_list [mario; chiara] [chiara; mario])
    by (unfold same_fiscal_code_list; simpl; apply perm_swap).
  split; [exact Hperm|].
  exact (proj1 (validation_ignores_member_order order_decode
                  Memory.bonusLeaseModel (JString "mario first")
                  (JString "chiara first") _ _ [mario; chiara]
                  [chiara; mario] aStore eq_refl eq_refl eq_refl eq_refl
                  eq_refl eq_refl Hperm)).
Defined.

(** ** From the DSU answer to an eligibility check, continued *)

Section dsu.
Variable FamilyMemberCount_is : Z → bool.
Variable FamilyMemberCount_errors : Z → list string.
Variable FamilyMember_is : Api.FamilyMember → bool.
Variable max_tax_benefit : Conversions.MaxBonusAmount → Z.

Local Abbreviation convert :=
  (Conversions.toEligibilityCheckFromDSU FamilyMemberCount_is
     FamilyMemberCount_errors FamilyMember_is max_tax_benefit).

Lemma roster_nonempty_has_indicator data :
  Conversions.roster data ≠ [] →
  ∃ d, Conversions.DatiIndicatore data = Some d
       ∧ Conversions.Componenti d = Some (Conversions.roster data).
Proof.
  unfold Conversions.roster.
  destruct (Conversions.DatiIndicatore data) as [d|]; [|done].
  destruct (Conversions.Componenti d) as [cs|] eqn:Hc; simpl; [|done].
  intros _. exists d. by rewrite Hc.
Qed.

(** The conversion on a roster that is not empty and whose size the
    domain type accepts. *)
Lemma convert_accepted data fiscalCode validBefore :
  Conversions.roster data ≠ [] →
  FamilyMemberCount_is (Z.of_nat (length (Conversions.roster data))) = true →
  ∃ d bonusValue,
    Conversions.DatiIndicatore data = Some d
    ∧ Conversions.calculateMaxBonusAmountFromFamilyMemberCount
        (Z.of_nat (length (Conversions.roster data)))
      = Returned bonusValue
    ∧ convert data fiscalCode validBefore
      = Returned
          match Conversions.Esito data with
          | Conversions.OK =>
              if below_threshold data
              then
                {| Api.status := Api.ELIGIBLE;
                   Api.id := fiscalCode;
                   Api.valid_before := Some validBefore;
                   Api.dsu_request :=
                     Some
                       {| Api.dsu_created_at :=
                            Conversions.DataPresentazioneDSU d;
                          Api.dsu_protocol_id :=
                            Conversions.or_else (Conversions.ProtocolloDSU d) "";
                          Api.family_members :=
                            List.filter FamilyMember_is
                              (map member_of_component
                                 (Conversions.roster data));
                          Api.has_discrepancies :=
                            match Conversions.PresenzaDifformita d with
                            | Some Conversions.SI => true
                            | _ => false
                            end;
                          Api.isee_type := Conversions.TipoIndicatore d;
                          Api.max_amount := None;
                          Api.max_tax_benefit := None;
                          Api.request_id :=
                            Js.Number_toString (Conversions.IdRichiesta data)
                       |};
                   Api.error := None;
                   Api.error_description := None |}
              else
                {| Api.status := Api.INELIGIBLE;
                   Api.id := fiscalCode;
                   Api.valid_before := None;
                   Api.dsu_request := None;
                   Api.error := None;
                   Api.error_description := None |}
          | esito =>
              Conversions.failure
                match esito with
                | Conversions.DATI_NON_TROVATI => Api.DATA_NOT_FOUND
                | Conversions.RICHIESTA_INVALIDA => Api.INVALID_REQUEST
                | _ => Api.INTERNAL_ERROR
                end
                (Conversions.or_else (Conversions.DescrizioneErrore data)
                   "Esito value is not OK")
                fiscalCode
          end.
Proof.
  intros Hne Hcount.
  destruct (roster_nonempty_has_indicator data Hne) as (d & Hd & Hc).
  destruct (calculateMaxBonusAmount_positive
              (Z.of_nat (length (Conversions.roster data)))) as [b Hb].
  { destruct (Conversions.roster data); [done|simpl; lia]. }
  exists d, b. split; [done|]. split; [done|].
  unfold Conversions.toEligibilityCheckFromDSU, below_threshold.
  destruct (Conversions.roster data) as [|first others] eqn:Hr; [done|].
  rewrite Hcount, Hb, Hd, Hc. cbn [negb].
  destruct (Conversions.Esito data); try reflexivity.
  destruct (Conversions.SottoSoglia d); reflexivity.
Qed.
Lemma convert_rejected data fiscalCode validBefore :
  Conversions.roster data ≠ [] →
  FamilyMemberCount_is (Z.of_nat (length (Conversions.roster data))) = false →
  convert data fiscalCode validBefore
  = Returned
      (Conversions.failure Api.INTERNAL_ERROR
         ("Family member count is out of range ["
          +:+ Hash.readableReport
                (FamilyMemberCount_errors
                   (Z.of_nat (length (Conversions.roster data))))
          +:+ "]")
         fiscalCode).
Proof.
  intros Hne Hcount. unfold Conversions.toEligibilityCheckFromDSU.
  destruct (Conversions.roster data) as [|first others]; [done|].
  by rewrite Hcount.
Qed.

Lemma convert_empty data fiscalCode validBefore :
  Conversions.roster data = [] →
  convert data fiscalCode validBefore
  = Returned
      (Conversions.failure Api.INTERNAL_ERROR
         "DatiIndicatore.Componenti is empty" fiscalCode).
Proof.
  intros Hr. unfold Conversions.toEligibilityCheckFromDSU. by rewrite Hr.
Qed.

Lemma or_else_nonempty x fallback :
  fallback ≠ "" → Conversions.or_else x fallback ≠ "".
Proof.
  intros Hf. unfold Conversions.or_else. destruct x as [s|]; [|done].
  destruct (String.eqb s "") eqn:Hs; [done|]. by apply String.eqb_neq.
Qed.


End dsu.


(** X13: which status the check gets.  It is ELIGIBLE exactly when the
    roster is not empty, its size is accepted, the outcome is OK and the
    indicator is below the threshold; INELIGIBLE exactly when all of that
    holds but the threshold; FAILURE exactly when the roster is empty, its
    size is rejected or the outcome is not OK. *)
Theorem dsu_check_status
    (FamilyMemberCount_is : Z → bool)
    (FamilyMemberCount_errors : Z → list string)
    (FamilyMember_is : Api.FamilyMember → bool)
    (max_tax_benefit : Conversions.MaxBonusAmount → Z)
    (data : Conversions.ConsultazioneSogliaIndicatoreResponse)
    (fiscalCode : string) (validBefore : Z) :
  let accepted :=
    Conversions.roster data ≠ []
    ∧ FamilyMemberCount_is (Z.of_nat (length (Conversions.roster data)))
      = true in
  ∃ check,
    Conversions.toEligibilityCheckFromDSU FamilyMemberCount_is
      FamilyMemberCount_errors FamilyMember_is max_tax_benefit data
      fiscalCode validBefore
    = Returned check
    ∧ (Api.status check = Api.ELIGIBLE ↔
       accepted ∧ Conversions.Esito data = Conversions.OK
       ∧ below_threshold data = true)
    ∧ (Api.status check = Api.INELIGIBLE ↔
       accepted ∧ Conversions.Esito data = Conversions.OK
       ∧ below_threshold data = false)
    ∧ (Api.status check = Api.FAILURE ↔
       ¬ accepted ∨ Conversions.Esito data ≠ Conversions.OK).
Proof.
  intros accepted. unfold accepted. clear accepted.
  destruct (decide (Conversions.roster data = [])) as [Hr|Hr].
  { eexists. split; [by apply convert_empty|]. simpl.
    intuition congruence. }
  destruct (FamilyMemberCount_is
              (Z.of_nat (length (Conversions.roster data)))) eqn:Hcount.
  2: { eexists. split; [by apply convert_rejected|]. simpl.
       intuition congruence. }
  destruct (convert_accepted FamilyMemberCount_is FamilyMemberCount_errors
              FamilyMember_is max_tax_benefit data fiscalCode validBefore
              Hr Hcount) as (d & b & Hd & Hb & ->).
  eexists. split; [reflexivity|].
  destruct (Conversions.Esito data); destruct (below_threshold data);
    simpl; intuition congruence.
Qed.

(** X14: what an ELIGIBLE check holds.  The family members listed are
    only the components of the DSU answer that decode as family members,
    in their order, so the list may be shorter than the count of
    components the bonus value was chosen by; the expiry is the one
    passed in; and the maximum amount and the maximum tax benefit are
    left undefined: they are read off the validation that
    [MaxBonusAmountNNN.decode] hands back, not off the bonus value inside
    it. *)
Theorem eligible_check_members_and_amounts
    (FamilyMemberCount_is : Z → bool)
    (FamilyMemberCount_errors : Z → list string)
    (FamilyMember_is : Api.FamilyMember → bool)
    (max_tax_benefit : Conversions.MaxBonusAmount → Z)
    (data : Conversions.ConsultazioneSogliaIndicatoreResponse)
    (fiscalCode : string) (validBefore : Z) (check : Api.EligibilityCheck) :
  Conversions.toEligibilityCheckFromDSU FamilyMemberCount_is
    FamilyMemberCount_errors FamilyMember_is max_tax_benefit data fiscalCode
    validBefore
  = Returned check →
  Api.status check = Api.ELIGIBLE →
  ∃ d bonusValue,
    Api.dsu_request check = Some d
    ∧ Api.valid_before check = Some validBefore
    ∧ Api.family_members d
      = List.filter FamilyMember_is
          (map member_of_component (Conversions.roster data))
    ∧ length (Api.family_members d) ≤ length (Conversions.roster data)
    ∧ Conversions.calculateMaxBonusAmountFromFamilyMemberCount
        (Z.of_nat (length (Conversions.roster data)))
      = Returned bonusValue
    ∧ Value.prop (Conversions.Validation_object max_tax_benefit bonusValue)
        "value"
      = JObject
          [ ("max_amount", JNumber (Conversions.max_amount bonusValue));
            ("max_tax_benefit", JNumber (max_tax_benefit bonusValue)) ]
    ∧ Api.max_amount d = None
    ∧ Api.max_tax_benefit d = None.
Proof.
  intros Hconv Hs.
  destruct (decide (Conversions.roster data = [])) as [Hr|Hr].
  { rewrite convert_empty in Hconv by done. by injection Hconv as <-. }
  destruct (FamilyMemberCount_is
              (Z.of_nat (length (Conversions.roster data)))) eqn:Hcount.
  2: { rewrite convert_rejected in Hconv by done. by injection Hconv as <-. }
  destruct (convert_accepted FamilyMemberCount_is FamilyMemberCount_errors
              FamilyMember_is max_tax_benefit data fiscalCode validBefore
              Hr Hcount) as (d & b & Hd & Hb & Heq).
  rewrite Heq in Hconv. injection Hconv as <-.
  destruct (Conversions.Esito data); try discriminate Hs.
  destruct (below_threshold data); [|discriminate Hs].
  eexists. exists b. split; [reflexivity|]. split; [reflexivity|].
  split; [reflexivity|]. cbn [Api.family_members]. split.
  { etrans; [apply List.filter_length_le|]. by rewrite length_map. }
  split; [exact Hb|]. by repeat split.
Qed.

Lemma eligible_check_members_and_amounts_witness :
  ∃ check d,
    Conversions.toEligibilityCheckFromDSU sample_FamilyMemberCount_is
      (λ _, []) sample_FamilyMember_is sample_max_tax_benefit
      aThreeMemberAnswer aFiscalCode 1593648000000
    = Returned check
    ∧ Api.status check = Api.ELIGIBLE
    ∧ Api.dsu_request check = Some d
    ∧ length (Conversions.roster aThreeMemberAnswer) = 3
    ∧ length (Api.family_members d) = 2
    ∧ Api.max_amount d = None
    ∧ Api.max_tax_benefit d = None.
Proof.
  eexists.
  assert (Hconv : Conversions.toEligibilityCheckFromDSU
                    sample_FamilyMemberCount_is (λ _, [])
                    sample_FamilyMember_is sample_max_tax_benefit
                    aThreeMemberAnswer aFiscalCode 1593648000000
                  = Returned _) by (vm_compute; reflexivity).
  destruct (eligible_check_members_and_amounts
              sample_FamilyMemberCount_is (λ _, []) sample_FamilyMember_is
              sample_max_tax_benefit aThreeMemberAnswer aFiscalCode
              1593648000000 _ Hconv eq_refl)
    as (d & b & Hd & _ & Hm & _ & _ & _ & Ha & Ht).
  exists d. split; [exact Hconv|]. split; [reflexivity|].
  split; [exact Hd|]. split; [reflexivity|]. split; [by rewrite Hm|].
  split; [exact Ha|exact Ht].
Defined.

(** X15: a FAILURE check always says why.  Its description is never
    empty (a missing or empty description of the DSU answer is replaced
    by "Esito value is not OK") and its error is never DATABASE_OFFLINE;
    the error is DATA_NOT_FOUND or INVALID_REQUEST exactly when the
    roster is not empty, its size is accepted and the outcome is
    DATI_NON_TROVATI or RICHIESTA_INVALIDA: an answer without components
    is an INTERNAL_ERROR whatever its outcome. *)
Theorem failure_check_names_its_error
    (FamilyMemberCount_is : Z → bool)
    (FamilyMemberCount_errors : Z → list string)
    (FamilyMember_is : Api.FamilyMember → bool)
    (max_tax_benefit : Conversions.MaxBonusAmount → Z)
    (data : Conversions.ConsultazioneSogliaIndicatoreResponse)
    (fiscalCode : string) (validBefore : Z) (check : Api.EligibilityCheck) :
  Conversions.toEligibilityCheckFromDSU FamilyMemberCount_is
    FamilyMemberCount_errors FamilyMember_is max_tax_benefit data fiscalCode
    validBefore
  = Returned check →
  Api.status check = Api.FAILURE →
  let accepted :=
    Conversions.roster data ≠ []
    ∧ FamilyMemberCount_is (Z.of_nat (length (Conversions.roster data)))
      = true in
  ∃ e description,
    Api.error check = Some e
    ∧ Api.error_description check = Some description
    ∧ description ≠ ""
    ∧ e ≠ Api.DATABASE_OFFLINE
    ∧ (e = Api.DATA_NOT_FOUND ↔
       accepted ∧ Conversions.Esito data = Conversions.DATI_NON_TROVATI)
    ∧ (e = Api.INVALID_REQUEST ↔
       accepted ∧ Conversions.Esito data = Conversions.RICHIESTA_INVALIDA).
Proof.
  intros Hconv Hs accepted. unfold accepted. clear accepted.
  destruct (decide (Conversions.roster data = [])) as [Hr|Hr].
  { rewrite convert_empty in Hconv by done. injection Hconv as <-.
    do 2 eexists. do 2 (split; [reflexivity|]).
    split; [discriminate|]. intuition congruence. }
  destruct (FamilyMemberCount_is
              (Z.of_nat (length (Conversions.roster data)))) eqn:Hcount.
  2: { rewrite convert_rejected in Hconv by done. injection Hconv as <-.
       do 2 eexists. do 2 (split; [reflexivity|]).
       split; [unfold String.app; discriminate|]. intuition congruence. }
  destruct (convert_accepted FamilyMemberCount_is FamilyMemberCount_errors
              FamilyMember_is max_tax_benefit data fiscalCode validBefore
              Hr Hcount) as (d & b & Hd & Hb & Heq).
  rewrite Heq in Hconv. injection Hconv as <-.
  destruct (Conversions.Esito data).
  { destruct (below_threshold data); discriminate Hs. }
  all: do 2 eexists; do 2 (split; [reflexivity|]);
    (split; [by apply or_else_nonempty|]); intuition congruence.
Qed.

Lemma failure_check_names_its_error_witness :
  ∃ check,
    Conversions.toEligibilityCheckFromDSU sample_FamilyMemberCount_is
      (λ _, []) sample_FamilyMember_is sample_max_tax_benefit
      aNotFoundAnswer aFiscalCode 1593648000000
    = Returned check
    ∧ Api.status check = Api.FAILURE
    ∧ Api.error check = Some Api.DATA_NOT_FOUND
    ∧ Api.error_description check = Some "Esito value is not OK".
Proof.
  eexists.
  assert (Hconv : Conversions.toEligibilityCheckFromDSU
                    sample_FamilyMemberCount_is (λ _, [])
                    sample_FamilyMember_is sample_max_tax_benefit
                    aNotFoundAnswer aFiscalCode 1593648000000
                  = Returned _) by (vm_compute; reflexivity).
  destruct (failure_check_names_its_error
              sample_FamilyMemberCount_is (λ _, []) sample_FamilyMember_is
              sample_max_tax_benefit aNotFoundAnswer aFiscalCode
              1593648000000 _ Hconv eq_refl)
    as (e & description & He & Hdesc & _).
  split; [exact Hconv|]. split; [reflexivity|]. split; reflexivity.
Defined.

(** ** The eligibility check codecs *)

Section codec_round_trips.
Import Codecs.
Variable EligibleApi_is : EligibleApi.t → bool.
Variable Eligible_is : Eligible.t → bool.
Variable IneligibleApi_is : IneligibleApi.t → bool.
Variable Ineligible_is : Ineligible.t → bool.
Variable FailureApi_is : FailureApi.t → bool.
Variable Failure_is : Failure.t → bool.

Lemma members_to_model_and_back (l : list Api.FamilyMember) :
  map (λ fm, {| Api.fiscal_code := Hash.fiscalCode fm;
                Api.name := Hash.name fm;
                Api.surname := Hash.surname fm |})
    (map (λ fm, {| Hash.fiscalCode := Api.fiscal_code fm;
                   Hash.name := Api.name fm;
                   Hash.surname := Api.surname fm |}) l)
  = l.
Proof.
  induction l as [|[f n s] l IH]; simpl; [done|]. by rewrite IH.
Qed.

Lemma members_to_api_and_back (l : Hash.FamilyMembers) :
  map (λ fm, {| Hash.fiscalCode := Api.fiscal_code fm;
                Hash.name := Api.name fm;
                Hash.surname := Api.surname fm |})
    (map (λ fm, {| Api.fiscal_code := Hash.fiscalCode fm;
                   Api.name := Hash.name fm;
                   Api.surname := Hash.surname fm |}) l)
  = l.
Proof.
  induction l as [|[f n s] l IH]; simpl; [done|]. by rewrite IH.
Qed.

(** X16: decoding an API object into a domain object and back gives the
    API object again: whenever ModelEligibilityCheckFromApi accepts an
    object, ApiEligibilityCheckFromModel accepts the result and returns
    the object it came from, for each of the three variants and whatever
    the generated guards accept. *)
Theorem api_object_survives_round_trip apiObject domainObject :
  ModelEligibilityCheckFromApi_decode EligibleApi_is Eligible_is
    IneligibleApi_is Ineligible_is FailureApi_is Failure_is apiObject
  = inr domainObject →
  ApiEligibilityCheckFromModel_decode EligibleApi_is Eligible_is
    IneligibleApi_is Ineligible_is FailureApi_is Failure_is domainObject
  = inr apiObject.
Proof.
  destruct apiObject as [o|o|o]; simpl.
  - destruct (EligibleApi_is o) eqn:Ha; [|discriminate].
    unfold ModelEligibilityCheckSuccessEligibleFromApi_decode.
    destruct (Eligible_is _) eqn:Hm; [|discriminate].
    intros [= <-]. simpl. rewrite Hm.
    unfold ApiEligibilityCheckSuccessEligibleFromModel_decode. simpl.
    rewrite members_to_model_and_back. destruct o. simpl in *.
    by rewrite Ha.
  - destruct (IneligibleApi_is o) eqn:Ha; [|discriminate].
    unfold ModelEligibilityCheckSuccessIneligibleFromApi_decode.
    destruct (Ineligible_is _) eqn:Hm; [|discriminate].
    intros [= <-]. simpl. rewrite Hm.
    unfold ApiEligibilityCheckSuccessIneligibleFromModel_decode. simpl.
    destruct o. simpl in *. by rewrite Ha.
  - destruct (FailureApi_is o) eqn:Ha; [|discriminate].
    unfold ModelEligibilityCheckFailureFromApi_decode.
    destruct (Failure_is _) eqn:Hm; [|discriminate].
    intros [= <-]. simpl. rewrite Hm.
    unfold ApiEligibilityCheckFailureFromModel_decode. simpl.
    destruct o as [[] d i]; simpl in *; by rewrite Ha.
Qed.

(** X17: and the other way round: whenever ApiEligibilityCheckFromModel
    accepts a domain object, ModelEligibilityCheckFromApi accepts the
    result and returns the domain object it came from. *)
Theorem domain_object_survives_round_trip domainObject apiObject :
  ApiEligibilityCheckFromModel_decode EligibleApi_is Eligible_is
    IneligibleApi_is Ineligible_is FailureApi_is Failure_is domainObject
  = inr apiObject →
  ModelEligibilityCheckFromApi_decode EligibleApi_is Eligible_is
    IneligibleApi_is Ineligible_is FailureApi_is Failure_is apiObject
  = inr domainObject.
Proof.
  destruct domainObject as [o|o|o]; simpl.
  - destruct (Eligible_is o) eqn:Hm; [|discriminate].
    unfold ApiEligibilityCheckSuccessEligibleFromModel_decode.
    destruct (EligibleApi_is _) eqn:Ha; [|discriminate].
    intros [= <-]. simpl. rewrite Ha.
    unfold ModelEligibilityCheckSuccessEligibleFromApi_decode. simpl.
    rewrite members_to_api_and_back. destruct o. simpl in *.
    by rewrite Hm.
  - destruct (Ineligible_is o) eqn:Hm; [|discriminate].
    unfold ApiEligibilityCheckSuccessIneligibleFromModel_decode.
    destruct (IneligibleApi_is _) eqn:Ha; [|discriminate].
    intros [= <-]. simpl. rewrite Ha.
    unfold ModelEligibilityCheckSuccessIneligibleFromApi_decode. simpl.
    destruct o. simpl in *. by rewrite Hm.
  - destruct (Failure_is o) eqn:Hm; [|discriminate].
    unfold ApiEligibilityCheckFailureFromModel_decode.
    destruct (FailureApi_is _) eqn:Ha; [|discriminate].
    intros [= <-]. simpl. rewrite Ha.
    unfold ModelEligibilityCheckFailureFromApi_decode. simpl.
    destruct o as [[] d i]; simpl in *; by rewrite Hm.
Qed.
End codec_round_trips.

Lemma api_object_survives_round_trip_witness :
  Codecs.ModelEligibilityCheckFromApi_decode Codecs.sample_EligibleApi_is
    Codecs.sample_Eligible_is (λ _, true) (λ _, true) (λ _, true) (λ _, true)
    Codecs.anElibigleApiObject
  = inr Codecs.anEligibleDomainObject
  ∧ Codecs.ApiEligibilityCheckFromModel_decode Codecs.sample_EligibleApi_is
      Codecs.sample_Eligible_is (λ _, true) (λ _, true) (λ _, true)
      (λ _, true) Codecs.anEligibleDomainObject
    = inr Codecs.anElibigleApiObject.
Proof.
  assert (H : Codecs.ModelEligibilityCheckFromApi_decode
                Codecs.sample_EligibleApi_is Codecs.sample_Eligible_is
                (λ _, true) (λ _, true) (λ _, true) (λ _, true)
                Codecs.anElibigleApiObject
              = inr Codecs.anEligibleDomainObject) by reflexivity.
  split; [exact H|].
  exact (api_object_survives_round_trip _ _ _ _ _ _ _ _ H).
Defined.

Lemma domain_object_survives_round_trip_witness :
  Codecs.ApiEligibilityCheckFromModel_decode Codecs.sample_EligibleApi_is
    Codecs.sample_Eligible_is (λ _, true) (λ _, true) (λ _, true) (λ _, true)
    Codecs.anEligibleDomainObject
  = inr Codecs.anElibigleApiObject
  ∧ Codecs.ModelEligibilityCheckFromApi_decode Codecs.sample_EligibleApi_is
      Codecs.sample_Eligible_is (λ _, true) (λ _, true) (λ _, true)
      (λ _, true) Codecs.anElibigleApiObject
    = inr Codecs.anEligibleDomainObject.
Proof.
  assert (H : Codecs.ApiEligibilityCheckFromModel_decode
                Codecs.sample_EligibleApi_is Codecs.sample_Eligible_is
                (λ _, true) (λ _, true) (λ _, true) (λ _, true)
                Codecs.anEligibleDomainObject
              = inr Codecs.anElibigleApiObject) by reflexivity.
  split; [exact H|].
  exact (domain_object_survives_round_trip _ _ _ _ _ _ _ _ H).
Defined.

(** ** The orchestrator and the compensation handler together *)

(** X18: what the orchestrator hands to the failed activity is its own
    decoded input, the object with [familyUID] and [fiscalCode], while
    the compensation handler looks for a [bonusActivation] property.
    When the orchestrator input has no such property (and the decoder
    of the activation, as every interface decoder, rejects
    [undefined]), the handler run on what the orchestrator yields
    answers INVALID_INPUT and makes no call on the store. *)
Theorem compensation_on_orchestrator_input {W H : Type}
    (FiscalCode_is : string → bool) (Failure_is : JsValue → bool)
    (decode : JsValue → list string + BonusActivationWithFamilyUID.t)
    (bam : BonusActivationModel.t W) (blm : BonusLeaseModel.t W)
    (ecm : EligibilityCheckModel.t W) (host : Orchestrator.Host H)
    (input value sent : JsValue) (errors : list string) (w : W) (h h1 : H) :
  Orchestrator.OrchestratorInput_decode FiscalCode_is input = inr value →
  Value.prop input "bonusActivation" = JUndefined →
  decode JUndefined = inl errors →
  host (Orchestrator.callActivityWithRetry "SendBonusActivationActivity"
          Orchestrator.retryOptions value) h
  = (Returned sent, h1) →
  Failure_is sent = true →
  (Orchestrator.run host
     (Orchestrator.handler FiscalCode_is Failure_is input) h).1.1 !! 1
  = Some (Orchestrator.callActivity "FailedBonusActivationActivity" value)
  ∧ FailedBonusActivation.FailedBonusActivationHandler decode
      (Spy.bonusActivationModel bam) (Spy.bonusLeaseModel blm)
      (Spy.eligibilityCheckModel ecm) value (w, [])
    = (Returned FailedBonusActivation.INVALID_INPUT, (w, [])).
Proof.
  intros Hdec Hprop Hundef Hsend Hfail. split.
  - rewrite (handler_trace FiscalCode_is Failure_is host input value h Hdec).
    cbn zeta. rewrite Hsend, Hfail.
    destruct (host _ h1) as [[x|e] h2]; [|reflexivity].
    by destruct (host _ h2) as [[y|e] h3].
  - apply OrchestratorInput_decode_inr in Hdec as (-> & _).
    unfold FailedBonusActivation.FailedBonusActivationHandler,
      FailedBonusActivation.FailedBonusActivationInput_decode.
    unfold TE.mapTask, TE.fold, TE.chain, TE.of_, TE.map, TE.mapLeft,
      TE.fromEither.
    rewrite Hprop, Hundef. by destruct (Value.is_dictionary input).
Qed.

Lemma compensation_on_orchestrator_input_witness :
  Orchestrator.OrchestratorInput_decode Orchestrator.sample_FiscalCode_is
    Orchestrator.anOrchestratorInput
  = inr Orchestrator.anOrchestratorInput
  ∧ Value.prop Orchestrator.anOrchestratorInput "bonusActivation" = JUndefined
  ∧ sample_decode JUndefined
    = inl ["Invalid value supplied to BonusActivationWithFamilyUID"]
  ∧ FailedBonusActivation.FailedBonusActivationHandler sample_decode
      (Spy.bonusActivationModel Memory.bonusActivationModel)
      (Spy.bonusLeaseModel Memory.bonusLeaseModel)
      (Spy.eligibilityCheckModel Memory.eligibilityCheckModel)
      Orchestrator.anOrchestratorInput (aStore, [])
    = (Returned FailedBonusActivation.INVALID_INPUT, (aStore, [])).
Proof.
  assert (H1 : Orchestrator.OrchestratorInput_decode
                 Orchestrator.sample_FiscalCode_is
                 Orchestrator.anOrchestratorInput
               = inr Orchestrator.anOrchestratorInput) by reflexivity.
  assert (H2 : Value.prop Orchestrator.anOrchestratorInput "bonusActivation"
               = JUndefined) by reflexivity.
  assert (H3 : sample_decode JUndefined
               = inl ["Invalid value supplied to BonusActivationWithFamilyUID"])
    by reflexivity.
  split; [exact H1|]. split; [exact H2|]. split; [exact H3|].
  exact (proj2 (compensation_on_orchestrator_input
                  Orchestrator.sample_FiscalCode_is
                  Orchestrator.sample_Failure_is sample_decode
                  Memory.bonusActivationModel Memory.bonusLeaseModel
                  Memory.eligibilityCheckModel Orchestrator.completing_host
                  Orchestrator.anOrchestratorInput
                  Orchestrator.anOrchestratorInput
                  (JObject [("kind", JString "FAILURE");
                            ("reason", JString "rejected")])
                  _ aStore tt tt H1 H2 H3 eq_refl eq_refl)).
Defined.
